(** * entity-embed: data modules and CLI mode check

    A shallow embedding of [entity_embed/data_modules.py] and of the
    mode-selection part of [entity_embed/cli.py], with the properties of
    the pair-sampling, leak-check and dataloader-construction layer.

    The second part covers the functions of [cli.py] around the builder:
    the preparation of [kwargs], the loader of row dicts, the builders of
    the model and of the trainer, and prediction. What they call outside
    of the two files (the host, the csv reader, the model classes) enters
    as a parameter or is identified with the arguments of the call.

    Conventions.
    - Python [int] is [Z]; [a // 3] is [Z.div] (floor division).
    - A Python [dict] of rows (insertion ordered) is an association list
      [list (Z * Row)]; its key view is the [gset Z] of first components.
    - A Python object is a record of attribute slots: [None] in a slot
      means that the attribute has not been assigned yet, so that reading
      it raises [AttributeError]. A slot holding Python's [None] is
      [Some None].
    - Set objects built by [setup] live in a store ([Heap]); the pair-set
      attributes hold references into it.
    - Exceptions are values of [Exn]; a call returns [Result A]. *)

From stdpp Require Import gmap strings list fin_maps fin_sets.
From Stdlib Require Import ZArith Lia.

Local Open Scope Z_scope.

(* [set_solver] clears hypotheses by name and warns when one is absent. *)
#[local] Set Warnings "-clear-no-such-hyp".

(** ** Python values that occur in rows and in the CLI's [kwargs] *)

(** Cells of a CSV row are strings, the loader turns ids and cluster labels
    into integers, and click hands over [str], [int] or [None] for the
    options that are read here. *)

Inductive PyVal :=
  | PNone
  | PInt (z : Z)
  | PStr (s : string).

#[global] Instance PyVal_eq_dec : EqDecision PyVal.
Proof. solve_decision. Defined.

Definition PyVal_encode (v : PyVal) : unit + (Z + string) :=
  match v with
  | PNone => inl tt
  | PInt z => inr (inl z)
  | PStr s => inr (inr s)
  end.

Definition PyVal_decode (x : unit + (Z + string)) : PyVal :=
  match x with
  | inl _ => PNone
  | inr (inl z) => PInt z
  | inr (inr s) => PStr s
  end.

#[global] Instance PyVal_countable : Countable PyVal.
Proof. apply (inj_countable' PyVal_encode PyVal_decode). by intros []. Defined.

(** Python truth value testing: [None], [0] and the empty string are falsy. *)
Definition truthy (v : PyVal) : bool :=
  match v with
  | PNone => false
  | PInt z => negb (z =? 0)
  | PStr s => negb (String.eqb s EmptyString)
  end.

(** [kwargs.get(k)]: a missing key reads as [None]. *)
Definition dict_get (kwargs : gmap string PyVal) (k : string) : PyVal :=
  default PNone (kwargs !! k).

(** ** Exceptions and results *)

Inductive Exn :=
  (** [ValueError("There are common IDs between <a> and <b>: <ids>")] *)
  | ValueError (split_a split_b : string) (common_ids : gset Z)
  (** [KeyError(msg)]: a missing dict key, or the mode check's message *)
  | KeyError (msg : string)
  | AttributeError (name : string)
  | TypeError (msg : string)
  (** errors of the indexing and splitting helpers *)
  | SchemaError (attr : string) (id : Z)
  | ConfigurationError (msg : string).

Inductive Result (A : Type) :=
  | Ok (a : A)
  | Raise (e : Exn).
Arguments Ok {A} a.
Arguments Raise {A} e.

#[global] Instance Result_bind : MBind Result := λ A B k r,
  match r with
  | Ok a => k a
  | Raise e => Raise e
  end.

#[global] Instance Result_ret : MRet Result := λ A a, Ok a.

(** The value of a call that returned, if it did. *)
Definition option_of_result {A} (r : Result A) : option A :=
  match r with
  | Ok a => Some a
  | Raise _ => None
  end.

(** [d[k]]: a missing key raises [KeyError]. *)
Definition dict_item (kwargs : gmap string PyVal) (k : string) : Result PyVal :=
  match kwargs !! k with
  | Some v => Ok v
  | None => Raise (KeyError k)
  end.

(** [self.name]: an unassigned attribute raises [AttributeError]. *)
Definition getattr {A} (slot : option A) (name : string) : Result A :=
  match slot with
  | Some v => Ok v
  | None => Raise (AttributeError name)
  end.

(** ** Rows, row dicts, clusters and pair sets *)

Abbreviation Row := (gmap string PyVal).
Abbreviation RowDict := (list (Z * Row)).
Abbreviation ClusterDict := (gmap PyVal (gset Z)).
Abbreviation PairSet := (gset (Z * Z)).

(** [row_dict.keys()] as a set. *)
Definition keys (row_dict : RowDict) : gset Z := list_to_set row_dict.*1.

(** An unordered pair of ids, kept with the smaller id first, so that
    [(a, b)] and [(b, a)] are the same element of a pair set. *)
Definition upair (a b : Z) : Z * Z := (Z.min a b, Z.max a b).

(** All 2-combinations of a list, as unordered pairs. *)
Fixpoint combinations2 (l : list Z) : list (Z * Z) :=
  match l with
  | [] => []
  | x :: t => (upair x <$> t) ++ combinations2 t
  end.

(** All pairs with the first endpoint in [ls] and the second in [rs]. *)
Definition cross_pairs (ls rs : list Z) : list (Z * Z) :=
  l ← ls; upair l <$> rs.

Definition cluster_pairs (c : gset Z) : PairSet :=
  list_to_set (combinations2 (elements c)).

Definition cluster_cross_pairs (left_ids right_ids c : gset Z) : PairSet :=
  list_to_set (cross_pairs (elements (c ∩ left_ids)) (elements (c ∩ right_ids))).

(** The clusters of a cluster dict, [cluster_dict.values()]. *)
Definition clusters (cluster_dict : ClusterDict) : list (gset Z) :=
  (map_to_list cluster_dict).*2.

(** Modelled from the spec: [utils.row_dict_to_cluster_dict], which lives
    in [data_utils/utils.py]. Spec 4.1 (ClusterIndexer): group the rows by
    the value of [cluster_attr], taken as an opaque hashable key; a row
    without the attribute is a fatal [SchemaError]. *)
Fixpoint row_dict_to_cluster_dict (row_dict : RowDict) (cluster_attr : string)
    : Result ClusterDict :=
  match row_dict with
  | [] => Ok ∅
  | (id, row) :: rest =>
      match row !! cluster_attr with
      | None => Raise (SchemaError cluster_attr id)
      | Some label =>
          cluster_dict ← row_dict_to_cluster_dict rest cluster_attr;
          Ok (<[label := {[id]} ∪ default ∅ (cluster_dict !! label)]> cluster_dict)
      end
  end.

(** The partition of the ids by source, before the emptiness check. *)
Fixpoint split_ids (row_dict : RowDict) (source_attr : string) (left_source : PyVal)
    : Result (gset Z * gset Z) :=
  match row_dict with
  | [] => Ok (∅, ∅)
  | (id, row) :: rest =>
      match row !! source_attr with
      | None => Raise (SchemaError source_attr id)
      | Some source =>
          '(left_id_set, right_id_set) ← split_ids rest source_attr left_source;
          if decide (source = left_source)
          then Ok ({[id]} ∪ left_id_set, right_id_set)
          else Ok (left_id_set, {[id]} ∪ right_id_set)
      end
  end.

(** Modelled from the spec: [utils.row_dict_to_left_right_id_set], which
    lives in [data_utils/utils.py]. Spec 4.2 (SourceSplitter): every row
    must carry [source_attr]; a row whose value equals the left value goes
    left, all others go right; an empty side is a [ConfigurationError]. *)
Definition row_dict_to_left_right_id_set
    (row_dict : RowDict) (source_attr : string) (left_source : PyVal)
    : Result (gset Z * gset Z) :=
  '(left_id_set, right_id_set) ← split_ids row_dict source_attr left_source;
  if decide (left_id_set = ∅ ∨ right_id_set = ∅)
  then Raise (ConfigurationError "empty left or right split")
  else Ok (left_id_set, right_id_set).

(** Modelled from the spec: [utils.cluster_dict_to_id_pairs] called with
    the cluster dict alone; it lives in [data_utils/utils.py]. Spec 4.3
    (PairSampler, deduplication mode): the union over clusters of all
    unordered 2-combinations of the cluster's members. *)
Definition cluster_dict_to_id_pairs (cluster_dict : ClusterDict) : PairSet :=
  ⋃ (cluster_pairs <$> clusters cluster_dict).

(** Modelled from the spec: [utils.cluster_dict_to_id_pairs] called with
    [left_id_set] and [right_id_set]; it lives in [data_utils/utils.py].
    Spec 4.3 (PairSampler, linkage mode): the union over clusters of all
    (l, r) with l in cluster ∩ left_ids and r in cluster ∩ right_ids. *)
Definition cluster_dict_to_id_pairs_lr
    (cluster_dict : ClusterDict) (left_id_set right_id_set : gset Z) : PairSet :=
  ⋃ (cluster_cross_pairs left_id_set right_id_set <$> clusters cluster_dict).

(** ** The store of set objects *)

(** A reference is the allocation index of the object. *)
Abbreviation Heap := (list PairSet).

(** Allocation of a new set object: the store grows by one cell and the
    cells already there keep their contents. *)
Definition alloc (h : Heap) (s : PairSet) : Heap * nat := (h ++ [s], length h).

(** ** [_check_for_common_rows] *)

Definition _check_for_common_rows (train_row_dict valid_row_dict test_row_dict : RowDict)
    : Result unit :=
  let train_valid_common_ids := keys train_row_dict ∩ keys valid_row_dict in
  if decide (train_valid_common_ids ≠ ∅)
  then Raise (ValueError "train_row_dict" "valid_row_dict" train_valid_common_ids)
  else
    let train_test_common_ids := keys train_row_dict ∩ keys test_row_dict in
    if decide (train_test_common_ids ≠ ∅)
    then Raise (ValueError "train_row_dict" "test_row_dict" train_test_common_ids)
    else
      let valid_test_common_ids := keys valid_row_dict ∩ keys test_row_dict in
      if decide (valid_test_common_ids ≠ ∅)
      then Raise (ValueError "valid_row_dict" "test_row_dict" valid_test_common_ids)
      else Ok ().

(** ** Collaborators outside of the modelled files *)

(** [helpers.build_loader_kwargs] and the row numericalizer are used but
    not defined in the modelled files. The numericalizer is an opaque
    object that is only passed on; [build_loader_kwargs] is taken as a
    function from the optional dict it is given to the dict it returns. *)
Class Collaborators := {
  RowNumericalizer : Type;
  build_loader_kwargs : option (gmap string PyVal) → gmap string PyVal;
}.

(** The part of [pl.Trainer] that the data modules read. *)
Record Trainer := { current_epoch : Z }.

(** The datasets of [data_utils/datasets.py] are identified with the
    keyword arguments they are constructed from. *)
Module ClusterDataset.
Record t `{Collaborators} := from_cluster_dict {
  row_dict : RowDict;
  cluster_attr : string;
  row_numericalizer : RowNumericalizer;
  batch_size : Z;
  max_cluster_size_in_batch : Z;
  random_seed : Z;
}.
Arguments from_cluster_dict {_} _ _ _ _ _ _.
End ClusterDataset.

Module RowDataset.
Record t `{Collaborators} := new {
  row_dict : RowDict;
  row_numericalizer : RowNumericalizer;
  batch_size : Z;
}.
Arguments new {_} _ _ _.
End RowDataset.

Module PairDataset.
Record t `{Collaborators} := new {
  row_dict : RowDict;
  pos_pair_set : PairSet;
  neg_pair_set : PairSet;
  row_numericalizer : RowNumericalizer;
  batch_size : Z;
  random_seed : option Z;
}.
Arguments new {_} _ _ _ _ _ _.
End PairDataset.

(** [torch.utils.data.DataLoader(dataset, batch_size=..., shuffle=..., **kwargs)] *)
Module DataLoader.
Record t (D : Type) := new {
  dataset : D;
  batch_size : option Z;
  shuffle : bool;
  kwargs : gmap string PyVal;
}.
Arguments new {D}.
Arguments dataset {D}.
Arguments batch_size {D}.
Arguments shuffle {D}.
Arguments kwargs {D}.
End DataLoader.

(** ** The world a data module runs in: set objects and the log *)

Record Store := {
  heap : Heap;
  log : list (string * Z);
}.

(** [x = f(...)] where [f] returns a new set: the object is allocated and
    its reference returned. *)
Definition new_set (σ : Store) (s : PairSet) : Store * nat :=
  let '(h, l) := alloc (heap σ) s in ({| heap := h; log := log σ |}, l).

(** [logger.info(fmt, n)] *)
Definition logger_info (σ : Store) (fmt : string) (n : Z) : Store :=
  {| heap := heap σ; log := log σ ++ [(fmt, n)] |}.

(** [len(x)] of an attribute that holds [None] or a reference to a set.
    A reference that [setup] stores points into the store; the case of a
    reference outside of it is there to make the function total. *)
Definition len_ref (σ : Store) (r : option nat) : Result Z :=
  match r with
  | None => Raise (TypeError "object of type 'NoneType' has no len()")
  | Some l =>
      match heap σ !! l with
      | Some s => Ok (Z.of_nat (size s))
      | None => Raise (TypeError "dangling reference")
      end
  end.

(** [logger.info(fmt, len(self.<attr>))] *)
Definition log_count (fmt : string) (slot : option (option nat)) (name : string)
    (σ : Store) : Store * Result unit :=
  match (r ← getattr slot name; len_ref σ r) with
  | Raise e => (σ, Raise e)
  | Ok n => (logger_info σ fmt n, Ok ())
  end.

(** Whether an attribute has been assigned. *)
Definition assigned {A} (slot : option A) : bool :=
  match slot with Some _ => true | None => false end.

(** A keyword argument with a default: [None] stands for an omitted one. *)
Definition kwarg {A} (given : option A) (dflt : A) : A := default dflt given.

(** ** [DeduplicationDataModule] *)

Module Dedup.
Section defs.
Context `{Collaborators}.

Record DeduplicationDataModule := {
  trainer : option Trainer;
  cluster_attr : option string;
  row_numericalizer : option RowNumericalizer;
  batch_size : option Z;
  eval_batch_size : option Z;
  train_loader_kwargs : option (gmap string PyVal);
  eval_loader_kwargs : option (gmap string PyVal);
  random_seed : option Z;
  train_row_dict : option RowDict;
  valid_row_dict : option RowDict;
  test_row_dict : option RowDict;
  train_pos_pair_set : option (option nat);
  valid_pos_pair_set : option (option nat);
  test_pos_pair_set : option (option nat);
}.

(** The object as [super().__init__()] leaves it: no attribute of the
    class is assigned, and no trainer is attached. *)
Definition fresh : DeduplicationDataModule :=
  {| trainer := None; cluster_attr := None; row_numericalizer := None;
     batch_size := None; eval_batch_size := None;
     train_loader_kwargs := None; eval_loader_kwargs := None;
     random_seed := None;
     train_row_dict := None; valid_row_dict := None; test_row_dict := None;
     train_pos_pair_set := None; valid_pos_pair_set := None;
     test_pos_pair_set := None |}.

(** [self.train_pos_pair_set = v] and its siblings. *)
Definition set_train_pos_pair_set (v : option nat) (self : DeduplicationDataModule) :=
  {| trainer := trainer self; cluster_attr := cluster_attr self;
     row_numericalizer := row_numericalizer self;
     batch_size := batch_size self; eval_batch_size := eval_batch_size self;
     train_loader_kwargs := train_loader_kwargs self;
     eval_loader_kwargs := eval_loader_kwargs self;
     random_seed := random_seed self;
     train_row_dict := train_row_dict self; valid_row_dict := valid_row_dict self;
     test_row_dict := test_row_dict self;
     train_pos_pair_set := Some v;
     valid_pos_pair_set := valid_pos_pair_set self;
     test_pos_pair_set := test_pos_pair_set self |}.

Definition set_valid_pos_pair_set (v : option nat) (self : DeduplicationDataModule) :=
  {| trainer := trainer self; cluster_attr := cluster_attr self;
     row_numericalizer := row_numericalizer self;
     batch_size := batch_size self; eval_batch_size := eval_batch_size self;
     train_loader_kwargs := train_loader_kwargs self;
     eval_loader_kwargs := eval_loader_kwargs self;
     random_seed := random_seed self;
     train_row_dict := train_row_dict self; valid_row_dict := valid_row_dict self;
     test_row_dict := test_row_dict self;
     train_pos_pair_set := train_pos_pair_set self;
     valid_pos_pair_set := Some v;
     test_pos_pair_set := test_pos_pair_set self |}.

Definition set_test_pos_pair_set (v : option nat) (self : DeduplicationDataModule) :=
  {| trainer := trainer self; cluster_attr := cluster_attr self;
     row_numericalizer := row_numericalizer self;
     batch_size := batch_size self; eval_batch_size := eval_batch_size self;
     train_loader_kwargs := train_loader_kwargs self;
     eval_loader_kwargs := eval_loader_kwargs self;
     random_seed := random_seed self;
     train_row_dict := train_row_dict self; valid_row_dict := valid_row_dict self;
     test_row_dict := test_row_dict self;
     train_pos_pair_set := train_pos_pair_set self;
     valid_pos_pair_set := valid_pos_pair_set self;
     test_pos_pair_set := Some v |}.

(** The trainer attaches itself to the data module it is given. *)
Definition set_trainer (t : option Trainer) (self : DeduplicationDataModule) :=
  {| trainer := t; cluster_attr := cluster_attr self;
     row_numericalizer := row_numericalizer self;
     batch_size := batch_size self; eval_batch_size := eval_batch_size self;
     train_loader_kwargs := train_loader_kwargs self;
     eval_loader_kwargs := eval_loader_kwargs self;
     random_seed := random_seed self;
     train_row_dict := train_row_dict self; valid_row_dict := valid_row_dict self;
     test_row_dict := test_row_dict self;
     train_pos_pair_set := train_pos_pair_set self;
     valid_pos_pair_set := valid_pos_pair_set self;
     test_pos_pair_set := test_pos_pair_set self |}.

(** [__init__]; the keyword arguments [random_seed=42] and
    [check_for_common_rows=True] are [None] when omitted. The check is
    the only statement that can raise, and it runs before the first
    assignment to [self]. *)
Definition __init__ (self : DeduplicationDataModule)
    (train_row_dict valid_row_dict test_row_dict : RowDict)
    (cluster_attr : string) (row_numericalizer : RowNumericalizer)
    (batch_size eval_batch_size : Z)
    (train_loader_kwargs eval_loader_kwargs : option (gmap string PyVal))
    (random_seed : option Z) (check_for_common_rows : option bool)
    : DeduplicationDataModule * Result unit :=
  match
    (if kwarg check_for_common_rows true
     then _check_for_common_rows train_row_dict valid_row_dict test_row_dict
     else Ok ())
  with
  | Raise e => (self, Raise e)
  | Ok _ =>
      ({| trainer := trainer self;
          cluster_attr := Some cluster_attr;
          row_numericalizer := Some row_numericalizer;
          batch_size := Some batch_size;
          eval_batch_size := Some eval_batch_size;
          train_loader_kwargs := Some (build_loader_kwargs train_loader_kwargs);
          eval_loader_kwargs := Some (build_loader_kwargs eval_loader_kwargs);
          random_seed := Some (kwarg random_seed 42);
          train_row_dict := Some train_row_dict;
          valid_row_dict := Some valid_row_dict;
          test_row_dict := Some test_row_dict;
          train_pos_pair_set := Some None;
          valid_pos_pair_set := Some None;
          test_pos_pair_set := Some None |}, Ok ())
  end.

(** [utils.row_dict_to_cluster_dict(self.<rows>, self.cluster_attr)] *)
Definition cluster_dict_of (slot : option RowDict) (name : string)
    (self : DeduplicationDataModule) : Result ClusterDict :=
  rows ← getattr slot name;
  attr ← getattr (cluster_attr self) "cluster_attr";
  row_dict_to_cluster_dict rows attr.

Definition _set_pair_sets (stage : PyVal) (self : DeduplicationDataModule) (σ : Store)
    : DeduplicationDataModule * Store * Result unit :=
  if decide (stage = PStr "fit") then
    match
      (train_cluster_dict ← cluster_dict_of (train_row_dict self) "train_row_dict" self;
       valid_cluster_dict ← cluster_dict_of (valid_row_dict self) "valid_row_dict" self;
       Ok (train_cluster_dict, valid_cluster_dict))
    with
    | Raise e => (self, σ, Raise e)
    | Ok (train_cluster_dict, valid_cluster_dict) =>
        let '(σ, l) := new_set σ (cluster_dict_to_id_pairs train_cluster_dict) in
        let self := set_train_pos_pair_set (Some l) self in
        let '(σ, l) := new_set σ (cluster_dict_to_id_pairs valid_cluster_dict) in
        let self := set_valid_pos_pair_set (Some l) self in
        (self, σ, Ok ())
    end
  else if decide (stage = PStr "test") then
    match cluster_dict_of (test_row_dict self) "test_row_dict" self with
    | Raise e => (self, σ, Raise e)
    | Ok test_cluster_dict =>
        let '(σ, l) := new_set σ (cluster_dict_to_id_pairs test_cluster_dict) in
        let self := set_test_pos_pair_set (Some l) self in
        (self, σ, Ok ())
    end
  else (self, σ, Ok ()).

Definition setup (stage : PyVal) (self : DeduplicationDataModule) (σ : Store)
    : DeduplicationDataModule * Store * Result unit :=
  match _set_pair_sets stage self σ with
  | (self, σ, Raise e) => (self, σ, Raise e)
  | (self, σ, Ok _) =>
      if decide (stage = PStr "fit") then
        match log_count "Train positive pair count: %s"
                (train_pos_pair_set self) "train_pos_pair_set" σ with
        | (σ, Raise e) => (self, σ, Raise e)
        | (σ, Ok _) =>
            let '(σ, r) := log_count "Valid positive pair count: %s"
                             (valid_pos_pair_set self) "valid_pos_pair_set" σ in
            (self, σ, r)
        end
      else if decide (stage = PStr "test") then
        let '(σ, r) := log_count "Test positive pair count: %s"
                         (test_pos_pair_set self) "test_pos_pair_set" σ in
        (self, σ, r)
      else (self, σ, Ok ())
  end.

Definition train_dataloader (self : DeduplicationDataModule)
    : Result (DataLoader.t ClusterDataset.t) :=
  row_dict_ ← getattr (train_row_dict self) "train_row_dict";
  cluster_attr_ ← getattr (cluster_attr self) "cluster_attr";
  row_numericalizer_ ← getattr (row_numericalizer self) "row_numericalizer";
  batch_size_ ← getattr (batch_size self) "batch_size";
  max_cluster_size_in_batch_ ←
    (b ← getattr (batch_size self) "batch_size"; Ok (b / 3));
  random_seed_ ←
    match trainer self with
    | Some trainer_ =>
        seed ← getattr (random_seed self) "random_seed";
        Ok (seed + current_epoch trainer_)
    | None => getattr (random_seed self) "random_seed"
    end;
  let train_cluster_dataset :=
    ClusterDataset.from_cluster_dict row_dict_ cluster_attr_ row_numericalizer_
      batch_size_ max_cluster_size_in_batch_ random_seed_ in
  kwargs ← getattr (train_loader_kwargs self) "train_loader_kwargs";
  Ok (DataLoader.new train_cluster_dataset None false kwargs).

Definition val_dataloader (self : DeduplicationDataModule)
    : Result (DataLoader.t RowDataset.t) :=
  row_dict_ ← getattr (valid_row_dict self) "valid_row_dict";
  row_numericalizer_ ← getattr (row_numericalizer self) "row_numericalizer";
  batch_size_ ← getattr (eval_batch_size self) "eval_batch_size";
  let valid_row_dataset := RowDataset.new row_dict_ row_numericalizer_ batch_size_ in
  kwargs ← getattr (eval_loader_kwargs self) "eval_loader_kwargs";
  Ok (DataLoader.new valid_row_dataset None false kwargs).

Definition test_dataloader (self : DeduplicationDataModule)
    : Result (DataLoader.t RowDataset.t) :=
  row_dict_ ← getattr (test_row_dict self) "test_row_dict";
  row_numericalizer_ ← getattr (row_numericalizer self) "row_numericalizer";
  batch_size_ ← getattr (eval_batch_size self) "eval_batch_size";
  let test_row_dataset := RowDataset.new row_dict_ row_numericalizer_ batch_size_ in
  kwargs ← getattr (eval_loader_kwargs self) "eval_loader_kwargs";
  Ok (DataLoader.new test_row_dataset None false kwargs).

(** Every attribute that [__init__] assigns and the dataloaders read is
    assigned. *)
Definition initialized (self : DeduplicationDataModule) : bool :=
  assigned (cluster_attr self) && assigned (row_numericalizer self)
  && assigned (batch_size self) && assigned (eval_batch_size self)
  && assigned (train_loader_kwargs self) && assigned (eval_loader_kwargs self)
  && assigned (random_seed self)
  && assigned (train_row_dict self) && assigned (valid_row_dict self)
  && assigned (test_row_dict self).

(** None of the three pair-set attributes has been assigned. *)
Definition pair_sets_unset (self : DeduplicationDataModule) : Prop :=
  train_pos_pair_set self = None ∧ valid_pos_pair_set self = None
  ∧ test_pos_pair_set self = None.

(** The same object with another value of [random_seed]. *)
Definition set_random_seed (v : Z) (self : DeduplicationDataModule) :=
  {| trainer := trainer self;
     cluster_attr := cluster_attr self;
     row_numericalizer := row_numericalizer self;
     batch_size := batch_size self;
     eval_batch_size := eval_batch_size self;
     train_loader_kwargs := train_loader_kwargs self;
     eval_loader_kwargs := eval_loader_kwargs self;
     random_seed := Some v;
     train_row_dict := train_row_dict self;
     valid_row_dict := valid_row_dict self;
     test_row_dict := test_row_dict self;
     train_pos_pair_set := train_pos_pair_set self;
     valid_pos_pair_set := valid_pos_pair_set self;
     test_pos_pair_set := test_pos_pair_set self |}.

End defs.
End Dedup.

(** ** [LinkageDataModule] *)

Module Linkage.
Section defs.
Context `{Collaborators}.

Record LinkageDataModule := {
  trainer : option Trainer;
  row_numericalizer : option RowNumericalizer;
  batch_size : option Z;
  eval_batch_size : option Z;
  train_loader_kwargs : option (gmap string PyVal);
  eval_loader_kwargs : option (gmap string PyVal);
  random_seed : option Z;
  train_row_dict : option RowDict;
  valid_row_dict : option RowDict;
  test_row_dict : option RowDict;
  source_attr : option string;
  left_source : option PyVal;
  cluster_attr : option string;
  train_pos_pair_set : option (option nat);
  valid_pos_pair_set : option (option nat);
  test_pos_pair_set : option (option nat);
}.

(** The object as [super().__init__()] leaves it. *)
Definition fresh : LinkageDataModule :=
  {| trainer := None; row_numericalizer := None;
     batch_size := None; eval_batch_size := None;
     train_loader_kwargs := None; eval_loader_kwargs := None;
     random_seed := None;
     train_row_dict := None; valid_row_dict := None; test_row_dict := None;
     source_attr := None; left_source := None; cluster_attr := None;
     train_pos_pair_set := None; valid_pos_pair_set := None;
     test_pos_pair_set := None |}.

(** [self.train_pos_pair_set = v] and its siblings. *)
Definition set_train_pos_pair_set (v : option nat) (self : LinkageDataModule) :=
  {| trainer := trainer self;
     row_numericalizer := row_numericalizer self;
     batch_size := batch_size self;
     eval_batch_size := eval_batch_size self;
     train_loader_kwargs := train_loader_kwargs self;
     eval_loader_kwargs := eval_loader_kwargs self;
     random_seed := random_seed self;
     train_row_dict := train_row_dict self;
     valid_row_dict := valid_row_dict self;
     test_row_dict := test_row_dict self;
     source_attr := source_attr self;
     left_source := left_source self;
     cluster_attr := cluster_attr self;
     train_pos_pair_set := Some v;
     valid_pos_pair_set := valid_pos_pair_set self;
     test_pos_pair_set := test_pos_pair_set self |}.

Definition set_valid_pos_pair_set (v : option nat) (self : LinkageDataModule) :=
  {| trainer := trainer self;
     row_numericalizer := row_numericalizer self;
     batch_size := batch_size self;
     eval_batch_size := eval_batch_size self;
     train_loader_kwargs := train_loader_kwargs self;
     eval_loader_kwargs := eval_loader_kwargs self;
     random_seed := random_seed self;
     train_row_dict := train_row_dict self;
     valid_row_dict := valid_row_dict self;
     test_row_dict := test_row_dict self;
     source_attr := source_attr self;
     left_source := left_source self;
     cluster_attr := cluster_attr self;
     train_pos_pair_set := train_pos_pair_set self;
     valid_pos_pair_set := Some v;
     test_pos_pair_set := test_pos_pair_set self |}.

Definition set_test_pos_pair_set (v : option nat) (self : LinkageDataModule) :=
  {| trainer := trainer self;
     row_numericalizer := row_numericalizer self;
     batch_size := batch_size self;
     eval_batch_size := eval_batch_size self;
     train_loader_kwargs := train_loader_kwargs self;
     eval_loader_kwargs := eval_loader_kwargs self;
     random_seed := random_seed self;
     train_row_dict := train_row_dict self;
     valid_row_dict := valid_row_dict self;
     test_row_dict := test_row_dict self;
     source_attr := source_attr self;
     left_source := left_source self;
     cluster_attr := cluster_attr self;
     train_pos_pair_set := train_pos_pair_set self;
     valid_pos_pair_set := valid_pos_pair_set self;
     test_pos_pair_set := Some v |}.

(** The trainer attaches itself to the data module it is given. *)
Definition set_trainer (v : option Trainer) (self : LinkageDataModule) :=
  {| trainer := v;
     row_numericalizer := row_numericalizer self;
     batch_size := batch_size self;
     eval_batch_size := eval_batch_size self;
     train_loader_kwargs := train_loader_kwargs self;
     eval_loader_kwargs := eval_loader_kwargs self;
     random_seed := random_seed self;
     train_row_dict := train_row_dict self;
     valid_row_dict := valid_row_dict self;
     test_row_dict := test_row_dict self;
     source_attr := source_attr self;
     left_source := left_source self;
     cluster_attr := cluster_attr self;
     train_pos_pair_set := train_pos_pair_set self;
     valid_pos_pair_set := valid_pos_pair_set self;
     test_pos_pair_set := test_pos_pair_set self |}.

(** [__init__]; as for deduplication, the check comes first and is the
    only statement that can raise. *)
Definition __init__ (self : LinkageDataModule)
    (train_row_dict valid_row_dict test_row_dict : RowDict)
    (source_attr : string) (left_source : PyVal)
    (cluster_attr : string) (row_numericalizer : RowNumericalizer)
    (batch_size eval_batch_size : Z)
    (train_loader_kwargs eval_loader_kwargs : option (gmap string PyVal))
    (random_seed : option Z) (check_for_common_rows : option bool)
    : LinkageDataModule * Result unit :=
  match
    (if kwarg check_for_common_rows true
     then _check_for_common_rows train_row_dict valid_row_dict test_row_dict
     else Ok ())
  with
  | Raise e => (self, Raise e)
  | Ok _ =>
      ({| trainer := trainer self;
          row_numericalizer := Some row_numericalizer;
          batch_size := Some batch_size;
          eval_batch_size := Some eval_batch_size;
          train_loader_kwargs := Some (build_loader_kwargs train_loader_kwargs);
          eval_loader_kwargs := Some (build_loader_kwargs eval_loader_kwargs);
          random_seed := Some (kwarg random_seed 42);
          train_row_dict := Some train_row_dict;
          valid_row_dict := Some valid_row_dict;
          test_row_dict := Some test_row_dict;
          source_attr := Some source_attr;
          left_source := Some left_source;
          cluster_attr := Some cluster_attr;
          train_pos_pair_set := Some None;
          valid_pos_pair_set := Some None;
          test_pos_pair_set := Some None |}, Ok ())
  end.

(** [utils.row_dict_to_left_right_id_set(row_dict=self.<rows>,
    source_attr=self.source_attr, left_source=self.left_source)] *)
Definition left_right_of (slot : option RowDict) (name : string)
    (self : LinkageDataModule) : Result (gset Z * gset Z) :=
  rows ← getattr slot name;
  attr ← getattr (source_attr self) "source_attr";
  left ← getattr (left_source self) "left_source";
  row_dict_to_left_right_id_set rows attr left.

(** [utils.row_dict_to_cluster_dict(self.<rows>, self.cluster_attr)] *)
Definition cluster_dict_of (slot : option RowDict) (name : string)
    (self : LinkageDataModule) : Result ClusterDict :=
  rows ← getattr slot name;
  attr ← getattr (cluster_attr self) "cluster_attr";
  row_dict_to_cluster_dict rows attr.

Definition _set_pair_sets (stage : PyVal) (self : LinkageDataModule) (σ : Store)
    : LinkageDataModule * Store * Result unit :=
  if decide (stage = PStr "fit") then
    match
      (train_lr ← left_right_of (train_row_dict self) "train_row_dict" self;
       valid_lr ← left_right_of (valid_row_dict self) "valid_row_dict" self;
       train_cluster_dict ← cluster_dict_of (train_row_dict self) "train_row_dict" self;
       valid_cluster_dict ← cluster_dict_of (valid_row_dict self) "valid_row_dict" self;
       Ok (train_lr, valid_lr, train_cluster_dict, valid_cluster_dict))
    with
    | Raise e => (self, σ, Raise e)
    | Ok (train_lr, valid_lr, train_cluster_dict, valid_cluster_dict) =>
        let '(train_left_id_set, train_right_id_set) := train_lr in
        let '(valid_left_id_set, valid_right_id_set) := valid_lr in
        let '(σ, l) :=
          new_set σ (cluster_dict_to_id_pairs_lr train_cluster_dict
                       train_left_id_set train_right_id_set) in
        let self := set_train_pos_pair_set (Some l) self in
        let '(σ, l) :=
          new_set σ (cluster_dict_to_id_pairs_lr valid_cluster_dict
                       valid_left_id_set valid_right_id_set) in
        let self := set_valid_pos_pair_set (Some l) self in
        (self, σ, Ok ())
    end
  else if decide (stage = PStr "test") then
    match
      (test_lr ← left_right_of (test_row_dict self) "test_row_dict" self;
       test_cluster_dict ← cluster_dict_of (test_row_dict self) "test_row_dict" self;
       Ok (test_lr, test_cluster_dict))
    with
    | Raise e => (self, σ, Raise e)
    | Ok (test_lr, test_cluster_dict) =>
        let '(test_left_id_set, test_right_id_set) := test_lr in
        let '(σ, l) :=
          new_set σ (cluster_dict_to_id_pairs_lr test_cluster_dict
                       test_left_id_set test_right_id_set) in
        let self := set_test_pos_pair_set (Some l) self in
        (self, σ, Ok ())
    end
  else (self, σ, Ok ()).

Definition setup (stage : PyVal) (self : LinkageDataModule) (σ : Store)
    : LinkageDataModule * Store * Result unit :=
  match _set_pair_sets stage self σ with
  | (self, σ, Raise e) => (self, σ, Raise e)
  | (self, σ, Ok _) =>
      if decide (stage = PStr "fit") then
        match log_count "Train positive pair count: %s"
                (train_pos_pair_set self) "train_pos_pair_set" σ with
        | (σ, Raise e) => (self, σ, Raise e)
        | (σ, Ok _) =>
            let '(σ, r) := log_count "Valid positive pair count: %s"
                             (valid_pos_pair_set self) "valid_pos_pair_set" σ in
            (self, σ, r)
        end
      else if decide (stage = PStr "test") then
        let '(σ, r) := log_count "Test positive pair count: %s"
                         (test_pos_pair_set self) "test_pos_pair_set" σ in
        (self, σ, r)
      else (self, σ, Ok ())
  end.

Definition train_dataloader (self : LinkageDataModule)
    : Result (DataLoader.t ClusterDataset.t) :=
  row_dict_ ← getattr (train_row_dict self) "train_row_dict";
  cluster_attr_ ← getattr (cluster_attr self) "cluster_attr";
  row_numericalizer_ ← getattr (row_numericalizer self) "row_numericalizer";
  batch_size_ ← getattr (batch_size self) "batch_size";
  max_cluster_size_in_batch_ ←
    (b ← getattr (batch_size self) "batch_size"; Ok (b / 3));
  random_seed_ ←
    match trainer self with
    | Some trainer_ =>
        seed ← getattr (random_seed self) "random_seed";
        Ok (seed + current_epoch trainer_)
    | None => getattr (random_seed self) "random_seed"
    end;
  let train_cluster_dataset :=
    ClusterDataset.from_cluster_dict row_dict_ cluster_attr_ row_numericalizer_
      batch_size_ max_cluster_size_in_batch_ random_seed_ in
  kwargs ← getattr (train_loader_kwargs self) "train_loader_kwargs";
  Ok (DataLoader.new train_cluster_dataset None false kwargs).

Definition val_dataloader (self : LinkageDataModule)
    : Result (DataLoader.t RowDataset.t) :=
  row_dict_ ← getattr (valid_row_dict self) "valid_row_dict";
  row_numericalizer_ ← getattr (row_numericalizer self) "row_numericalizer";
  batch_size_ ← getattr (eval_batch_size self) "eval_batch_size";
  let valid_row_dataset := RowDataset.new row_dict_ row_numericalizer_ batch_size_ in
  kwargs ← getattr (eval_loader_kwargs self) "eval_loader_kwargs";
  Ok (DataLoader.new valid_row_dataset None false kwargs).

Definition test_dataloader (self : LinkageDataModule)
    : Result (DataLoader.t RowDataset.t) :=
  row_dict_ ← getattr (test_row_dict self) "test_row_dict";
  row_numericalizer_ ← getattr (row_numericalizer self) "row_numericalizer";
  batch_size_ ← getattr (eval_batch_size self) "eval_batch_size";
  let test_row_dataset := RowDataset.new row_dict_ row_numericalizer_ batch_size_ in
  kwargs ← getattr (eval_loader_kwargs self) "eval_loader_kwargs";
  Ok (DataLoader.new test_row_dataset None false kwargs).

(** Every attribute that [__init__] assigns and the dataloaders read is
    assigned. *)
Definition initialized (self : LinkageDataModule) : bool :=
  assigned (row_numericalizer self)
  && assigned (batch_size self) && assigned (eval_batch_size self)
  && assigned (train_loader_kwargs self) && assigned (eval_loader_kwargs self)
  && assigned (random_seed self)
  && assigned (train_row_dict self) && assigned (valid_row_dict self)
  && assigned (test_row_dict self)
  && assigned (source_attr self) && assigned (left_source self)
  && assigned (cluster_attr self).

(** None of the three pair-set attributes has been assigned. *)
Definition pair_sets_unset (self : LinkageDataModule) : Prop :=
  train_pos_pair_set self = None ∧ valid_pos_pair_set self = None
  ∧ test_pos_pair_set self = None.

(** The same object with another value of [random_seed]. *)
Definition set_random_seed (v : Z) (self : LinkageDataModule) :=
  {| trainer := trainer self;
     row_numericalizer := row_numericalizer self;
     batch_size := batch_size self;
     eval_batch_size := eval_batch_size self;
     train_loader_kwargs := train_loader_kwargs self;
     eval_loader_kwargs := eval_loader_kwargs self;
     random_seed := Some v;
     train_row_dict := train_row_dict self;
     valid_row_dict := valid_row_dict self;
     test_row_dict := test_row_dict self;
     source_attr := source_attr self;
     left_source := left_source self;
     cluster_attr := cluster_attr self;
     train_pos_pair_set := train_pos_pair_set self;
     valid_pos_pair_set := valid_pos_pair_set self;
     test_pos_pair_set := test_pos_pair_set self |}.

End defs.
End Linkage.

(** ** [PairwiseDataModule] *)

(** The pair sets of this variant are supplied by the caller and only
    read; they are kept by value. *)
Module Pairwise.
Section defs.
Context `{Collaborators}.

Record PairwiseDataModule := {
  trainer : option Trainer;
  row_numericalizer : option RowNumericalizer;
  batch_size : option Z;
  eval_batch_size : option Z;
  train_loader_kwargs : option (gmap string PyVal);
  eval_loader_kwargs : option (gmap string PyVal);
  random_seed : option Z;
  row_dict : option RowDict;
  train_pos_pair_set : option PairSet;
  valid_pos_pair_set : option PairSet;
  test_pos_pair_set : option PairSet;
  train_neg_pair_set : option PairSet;
  valid_neg_pair_set : option PairSet;
  test_neg_pair_set : option PairSet;
}.

(** The object as [super().__init__()] leaves it. *)
Definition fresh : PairwiseDataModule :=
  {| trainer := None; row_numericalizer := None;
     batch_size := None; eval_batch_size := None;
     train_loader_kwargs := None; eval_loader_kwargs := None;
     random_seed := None; row_dict := None;
     train_pos_pair_set := None; valid_pos_pair_set := None;
     test_pos_pair_set := None;
     train_neg_pair_set := None; valid_neg_pair_set := None;
     test_neg_pair_set := None |}.

(** The trainer attaches itself to the data module it is given. *)
Definition set_trainer (v : option Trainer) (self : PairwiseDataModule) :=
  {| trainer := v; row_numericalizer := row_numericalizer self;
     batch_size := batch_size self; eval_batch_size := eval_batch_size self;
     train_loader_kwargs := train_loader_kwargs self;
     eval_loader_kwargs := eval_loader_kwargs self;
     random_seed := random_seed self; row_dict := row_dict self;
     train_pos_pair_set := train_pos_pair_set self;
     valid_pos_pair_set := valid_pos_pair_set self;
     test_pos_pair_set := test_pos_pair_set self;
     train_neg_pair_set := train_neg_pair_set self;
     valid_neg_pair_set := valid_neg_pair_set self;
     test_neg_pair_set := test_neg_pair_set self |}.

(** [__init__]; there is no check, and nothing can raise. *)
Definition __init__ (self : PairwiseDataModule)
    (row_dict : RowDict) (row_numericalizer : RowNumericalizer)
    (batch_size eval_batch_size : Z)
    (train_pos_pair_set valid_pos_pair_set test_pos_pair_set : PairSet)
    (train_neg_pair_set valid_neg_pair_set test_neg_pair_set : PairSet)
    (train_loader_kwargs eval_loader_kwargs : option (gmap string PyVal))
    (random_seed : option Z)
    : PairwiseDataModule * Result unit :=
  ({| trainer := trainer self;
      row_numericalizer := Some row_numericalizer;
      batch_size := Some batch_size;
      eval_batch_size := Some eval_batch_size;
      train_loader_kwargs := Some (build_loader_kwargs train_loader_kwargs);
      eval_loader_kwargs := Some (build_loader_kwargs eval_loader_kwargs);
      random_seed := Some (kwarg random_seed 42);
      row_dict := Some row_dict;
      train_pos_pair_set := Some train_pos_pair_set;
      valid_pos_pair_set := Some valid_pos_pair_set;
      test_pos_pair_set := Some test_pos_pair_set;
      train_neg_pair_set := Some train_neg_pair_set;
      valid_neg_pair_set := Some valid_neg_pair_set;
      test_neg_pair_set := Some test_neg_pair_set |}, Ok ()).

Definition train_dataloader (self : PairwiseDataModule)
    : Result (DataLoader.t PairDataset.t) :=
  row_dict_ ← getattr (row_dict self) "row_dict";
  pos_pair_set_ ← getattr (train_pos_pair_set self) "train_pos_pair_set";
  neg_pair_set_ ← getattr (train_neg_pair_set self) "train_neg_pair_set";
  row_numericalizer_ ← getattr (row_numericalizer self) "row_numericalizer";
  batch_size_ ← getattr (batch_size self) "batch_size";
  random_seed_ ←
    match trainer self with
    | Some trainer_ =>
        seed ← getattr (random_seed self) "random_seed";
        Ok (seed + current_epoch trainer_)
    | None => getattr (random_seed self) "random_seed"
    end;
  let train_cluster_dataset :=
    PairDataset.new row_dict_ pos_pair_set_ neg_pair_set_ row_numericalizer_
      batch_size_ (Some random_seed_) in
  kwargs ← getattr (train_loader_kwargs self) "train_loader_kwargs";
  Ok (DataLoader.new train_cluster_dataset None false kwargs).

Definition val_dataloader (self : PairwiseDataModule)
    : Result (DataLoader.t PairDataset.t) :=
  row_dict_ ← getattr (row_dict self) "row_dict";
  pos_pair_set_ ← getattr (valid_pos_pair_set self) "valid_pos_pair_set";
  neg_pair_set_ ← getattr (valid_neg_pair_set self) "valid_neg_pair_set";
  row_numericalizer_ ← getattr (row_numericalizer self) "row_numericalizer";
  batch_size_ ← getattr (batch_size self) "batch_size";
  let valid_cluster_dataset :=
    PairDataset.new row_dict_ pos_pair_set_ neg_pair_set_ row_numericalizer_
      batch_size_ None in
  kwargs ← getattr (eval_loader_kwargs self) "eval_loader_kwargs";
  Ok (DataLoader.new valid_cluster_dataset None false kwargs).

Definition test_dataloader (self : PairwiseDataModule)
    : Result (DataLoader.t PairDataset.t) :=
  row_dict_ ← getattr (row_dict self) "row_dict";
  pos_pair_set_ ← getattr (test_pos_pair_set self) "test_pos_pair_set";
  neg_pair_set_ ← getattr (test_neg_pair_set self) "test_neg_pair_set";
  row_numericalizer_ ← getattr (row_numericalizer self) "row_numericalizer";
  batch_size_ ← getattr (batch_size self) "batch_size";
  let test_cluster_dataset :=
    PairDataset.new row_dict_ pos_pair_set_ neg_pair_set_ row_numericalizer_
      batch_size_ None in
  kwargs ← getattr (eval_loader_kwargs self) "eval_loader_kwargs";
  Ok (DataLoader.new test_cluster_dataset None false kwargs).

(** The same object with another value of [eval_batch_size]. *)
Definition set_eval_batch_size (v : Z) (self : PairwiseDataModule) :=
  {| trainer := trainer self;
     row_numericalizer := row_numericalizer self;
     batch_size := batch_size self;
     eval_batch_size := Some v;
     train_loader_kwargs := train_loader_kwargs self;
     eval_loader_kwargs := eval_loader_kwargs self;
     random_seed := random_seed self;
     row_dict := row_dict self;
     train_pos_pair_set := train_pos_pair_set self;
     valid_pos_pair_set := valid_pos_pair_set self;
     test_pos_pair_set := test_pos_pair_set self;
     train_neg_pair_set := train_neg_pair_set self;
     valid_neg_pair_set := valid_neg_pair_set self;
     test_neg_pair_set := test_neg_pair_set self |}.

(** Every attribute that [__init__] assigns is assigned. *)
Definition initialized (self : PairwiseDataModule) : bool :=
  assigned (row_numericalizer self)
  && assigned (batch_size self) && assigned (eval_batch_size self)
  && assigned (train_loader_kwargs self) && assigned (eval_loader_kwargs self)
  && assigned (random_seed self) && assigned (row_dict self)
  && assigned (train_pos_pair_set self) && assigned (valid_pos_pair_set self)
  && assigned (test_pos_pair_set self)
  && assigned (train_neg_pair_set self) && assigned (valid_neg_pair_set self)
  && assigned (test_neg_pair_set self).

End defs.
End Pairwise.

(** ** The mode check and the data module builder of [cli.py] *)

Module Cli.
Section defs.
Context `{Collaborators}.

Definition dquote : string := String (Ascii.ascii_of_nat 34) EmptyString.

Definition mode_check_message : string :=
  "You must provide BOTH " +:+ dquote +:+ "source_attr" +:+ dquote +:+ " and "
  +:+ dquote +:+ "left_source" +:+ dquote +:+ " to perform Record Linkage. "
  +:+ "Either remove both or provide both.".

Definition _is_record_linkage (kwargs : gmap string PyVal) : Result bool :=
  let left_source := dict_get kwargs "left_source" in
  let source_attr := dict_get kwargs "source_attr" in
  if (truthy left_source && negb (truthy source_attr))
     || (negb (truthy left_source) && truthy source_attr)
  then Raise (KeyError mode_check_message)
  else Ok (truthy left_source).

Inductive DataModuleCls := LinkageDataModule | DeduplicationDataModule.

(** The values of the [datamodule_args] dict. *)
Inductive Arg :=
  | ARows (rows : RowDict)
  | ANumericalizer (n : RowNumericalizer)
  | AVal (v : PyVal)
  | ADict (d : gmap string PyVal).

Inductive DataModule :=
  | DedupDM (dm : Dedup.DeduplicationDataModule)
  | LinkageDM (dm : Linkage.LinkageDataModule).

(** What the builder does to the outside: log lines and constructor calls. *)
Inductive Event :=
  | LogInfo (msg : string)
  | Construct (cls : DataModuleCls) (args : gmap string Arg).

(** [for x in xs: body], threading the variables the body assigns. *)
Fixpoint for_each {A S} (xs : list A) (body : A → S → Result S) (s : S) : Result S :=
  match xs with
  | [] => Ok s
  | x :: xs => s ← body x s; for_each xs body s
  end.

(** Binding of the keyword arguments of a call [cls( **args )]. The CLI
    options are declared with types ([cluster_attr] and [source_attr] are
    [str]; the batch sizes and [random_seed] are [int]), and the
    constructors below take their arguments at these types: a value of
    another type is rejected at the call. *)
Definition arg_rows (args : gmap string Arg) (k : string) : Result RowDict :=
  match args !! k with Some (ARows d) => Ok d | _ => Raise (TypeError k) end.
Definition arg_numericalizer (args : gmap string Arg) (k : string)
    : Result RowNumericalizer :=
  match args !! k with Some (ANumericalizer n) => Ok n | _ => Raise (TypeError k) end.
Definition arg_str (args : gmap string Arg) (k : string) : Result string :=
  match args !! k with Some (AVal (PStr s)) => Ok s | _ => Raise (TypeError k) end.
Definition arg_int (args : gmap string Arg) (k : string) : Result Z :=
  match args !! k with Some (AVal (PInt z)) => Ok z | _ => Raise (TypeError k) end.
Definition arg_val (args : gmap string Arg) (k : string) : Result PyVal :=
  match args !! k with Some (AVal v) => Ok v | _ => Raise (TypeError k) end.
Definition arg_opt_dict (args : gmap string Arg) (k : string)
    : Result (option (gmap string PyVal)) :=
  match args !! k with
  | None => Ok None
  | Some (ADict d) => Ok (Some d)
  | _ => Raise (TypeError k)
  end.
Definition arg_opt_int (args : gmap string Arg) (k : string) : Result (option Z) :=
  match args !! k with
  | None => Ok None
  | Some (AVal (PInt z)) => Ok (Some z)
  | _ => Raise (TypeError k)
  end.

(** [datamodule_cls( **datamodule_args )]: a new object, then [__init__]. *)
Definition construct (cls : DataModuleCls) (args : gmap string Arg)
    : Result DataModule :=
  train_row_dict ← arg_rows args "train_row_dict";
  valid_row_dict ← arg_rows args "valid_row_dict";
  test_row_dict ← arg_rows args "test_row_dict";
  cluster_attr ← arg_str args "cluster_attr";
  row_numericalizer ← arg_numericalizer args "row_numericalizer";
  batch_size ← arg_int args "batch_size";
  eval_batch_size ← arg_int args "eval_batch_size";
  train_loader_kwargs ← arg_opt_dict args "train_loader_kwargs";
  eval_loader_kwargs ← arg_opt_dict args "eval_loader_kwargs";
  random_seed ← arg_opt_int args "random_seed";
  match cls with
  | DeduplicationDataModule =>
      match
        Dedup.__init__ Dedup.fresh train_row_dict valid_row_dict test_row_dict
          cluster_attr row_numericalizer batch_size eval_batch_size
          train_loader_kwargs eval_loader_kwargs random_seed None
      with
      | (_, Raise e) => Raise e
      | (self, Ok _) => Ok (DedupDM self)
      end
  | LinkageDataModule =>
      source_attr ← arg_str args "source_attr";
      left_source ← arg_val args "left_source";
      match
        Linkage.__init__ Linkage.fresh train_row_dict valid_row_dict test_row_dict
          source_attr left_source
          cluster_attr row_numericalizer batch_size eval_batch_size
          train_loader_kwargs eval_loader_kwargs random_seed None
      with
      | (_, Raise e) => Raise e
      | (self, Ok _) => Ok (LinkageDM self)
      end
  end.

(** The part of [_build_datamodule] before the log line: the choice of
    the class and of its arguments. *)
Definition datamodule_call
    (train_row_dict valid_row_dict test_row_dict : RowDict)
    (row_numericalizer : RowNumericalizer) (kwargs : gmap string PyVal)
    : Result (DataModuleCls * gmap string Arg) :=
  cluster_attr ← dict_item kwargs "cluster_attr";
  batch_size ← dict_item kwargs "batch_size";
  eval_batch_size ← dict_item kwargs "eval_batch_size";
  let datamodule_args : gmap string Arg :=
    <["train_row_dict" := ARows train_row_dict]>
    (<["valid_row_dict" := ARows valid_row_dict]>
    (<["test_row_dict" := ARows test_row_dict]>
    (<["cluster_attr" := AVal cluster_attr]>
    (<["row_numericalizer" := ANumericalizer row_numericalizer]>
    (<["batch_size" := AVal batch_size]>
    (<["eval_batch_size" := AVal eval_batch_size]> ∅)))))) in
  is_record_linkage ← _is_record_linkage kwargs;
  '(datamodule_cls, datamodule_args) ←
    (if is_record_linkage : bool then
       source_attr ← dict_item kwargs "source_attr";
       left_source ← dict_item kwargs "left_source";
       Ok (LinkageDataModule,
           <["left_source" := AVal left_source]>
           (<["source_attr" := AVal source_attr]> datamodule_args))
     else Ok (DeduplicationDataModule, datamodule_args));
  datamodule_args ←
    (if truthy (dict_get kwargs "num_workers")
        || truthy (dict_get kwargs "multiprocessing_context")
     then
       for_each ["train_loader_kwargs"; "eval_loader_kwargs"]
         (λ k datamodule_args,
            inner ← for_each ["num_workers"; "multiprocessing_context"]
                      (λ inner_k inner,
                         v ← dict_item kwargs inner_k;
                         Ok (if truthy v then <[inner_k := v]> inner else inner))
                      (∅ : gmap string PyVal);
            Ok (<[k := ADict inner]> datamodule_args))
         datamodule_args
     else Ok datamodule_args);
  let datamodule_args :=
    if truthy (dict_get kwargs "random_seed")
    then <["random_seed" := AVal (dict_get kwargs "random_seed")]> datamodule_args
    else datamodule_args in
  Ok (datamodule_cls, datamodule_args).

Definition _build_datamodule
    (train_row_dict valid_row_dict test_row_dict : RowDict)
    (row_numericalizer : RowNumericalizer) (kwargs : gmap string PyVal)
    : list Event * Result DataModule :=
  match
    datamodule_call train_row_dict valid_row_dict test_row_dict
      row_numericalizer kwargs
  with
  | Raise e => ([], Raise e)
  | Ok (datamodule_cls, datamodule_args) =>
      ([LogInfo "Building datamodule..."; Construct datamodule_cls datamodule_args],
       construct datamodule_cls datamodule_args)
  end.

End defs.
End Cli.

(** ** The commands' preparation of [kwargs] *)

(** The random number generators that [_set_random_seeds] seeds:
    [torch.manual_seed], [np.random.seed] and [random.seed]. *)
Inductive Rng := Torch | Numpy | PyRandom.

(** What the commands use of the host and of the libraries:
    [os.cpu_count()], which is an integer or [None]; [int(s)] on a string,
    [None] standing for the [ValueError] of a string that is no integer
    literal; and the seeding functions, which may reject a seed. *)
Class Host := {
  cpu_count : PyVal;
  py_int : string → option Z;
  seed_rng : Rng → PyVal → Result unit;
}.

Module Prepare.
Section defs.
Context `{Host}.

(** [kwargs] is a dict that the function changes in place: the dict after
    the call is returned beside the outcome. *)
Definition _fix_workers_kwargs (kwargs : gmap string PyVal)
    : gmap string PyVal * Result unit :=
  match dict_item kwargs "num_workers" with
  | Raise e => (kwargs, Raise e)
  | Ok num_workers =>
      let kwargs :=
        if decide (num_workers = PInt (-1))
        then <["num_workers" := cpu_count]> kwargs
        else kwargs in
      match dict_item kwargs "num_workers" with
      | Raise e => (kwargs, Raise e)
      | Ok num_workers => (<["n_threads" := num_workers]> kwargs, Ok ())
      end
  end.


End defs.
End Prepare.

(** ** Loading a row dict *)

(** The exceptions of the loader: those of [Exn], and the [ValueError] of
    [int] on a string that is no integer literal. *)
Inductive LoadExn :=
  | PyExn (e : Exn)
  | InvalidLiteral (literal : string).

Inductive Try (A : Type) :=
  | Returned (a : A)
  | Failed (e : LoadExn).
Arguments Returned {A} a.
Arguments Failed {A} e.

#[global] Instance Try_bind : MBind Try := λ A B k r,
  match r with
  | Returned a => k a
  | Failed e => Failed e
  end.

(** [row_dict[id] = row] on an insertion-ordered dict: a key that is there
    keeps its place and gets the new row, a new key goes to the end. *)
Fixpoint dict_set (row_dict : RowDict) (id : Z) (row : Row) : RowDict :=
  match row_dict with
  | [] => [(id, row)]
  | (id', row') :: rest =>
      if decide (id' = id) then (id, row) :: rest
      else (id', row') :: dict_set rest id row
  end.

Module Load.
Section defs.
Context `{Host}.

(** [int(v)] *)
Definition int (v : PyVal) : Try Z :=
  match v with
  | PInt z => Returned z
  | PStr s =>
      match py_int s with
      | Some z => Returned z
      | None => Failed (InvalidLiteral s)
      end
  | PNone =>
      Failed (PyExn (TypeError
        "int() argument must be a string, a bytes-like object or a real number, not 'NoneType'"))
  end.

(** The body of the loop over the rows that [csv.DictReader] yields: the
    cluster label, when the row has one, and the id are made integers. A
    row has its header's names as keys; [cluster_attr] is what
    [kwargs.get("cluster_attr")] gave, and only a string can be among them. *)
Definition convert_row (cluster_attr : PyVal) (row : Row) : Try (Z * Row) :=
  row ←
    match cluster_attr with
    | PStr attr =>
        match row !! attr with
        | Some v => label ← int v; Returned (<[attr := PInt label]> row)
        | None => Returned row
        end
    | _ => Returned row
    end;
  match row !! "id" with
  | None => Failed (PyExn (KeyError "id"))
  | Some v => id ← int v; Returned (id, <["id" := PInt id]> row)
  end.

Fixpoint read_rows (cluster_attr : PyVal) (reader : list Row) (row_dict : RowDict)
    : Try RowDict :=
  match reader with
  | [] => Returned row_dict
  | row :: reader =>
      '(id, row) ← convert_row cluster_attr row;
      read_rows cluster_attr reader (dict_set row_dict id row)
  end.

(** [_build_row_dict]; [reader] is the sequence of rows that
    [csv.DictReader] yields for the file, which is taken to open and to
    decode. The value is the log and the outcome. *)
Definition _build_row_dict (csv_filepath : string) (reader : list Row)
    (kwargs : gmap string PyVal) : list string * Try RowDict :=
  match kwargs !! "csv_encoding" with
  | None => ([], Failed (PyExn (KeyError "csv_encoding")))
  | Some csv_encoding =>
      let cluster_attr := dict_get kwargs "cluster_attr" in
      match read_rows cluster_attr reader [] with
      | Failed e => ([], Failed e)
      | Returned row_dict =>
          (["Finished reading " +:+ csv_filepath], Returned row_dict)
      end
  end.

End defs.
End Load.

(** ** The builders of the model and of the trainer, and prediction *)

(** [needle in hay] on two strings: [needle] occurs in [hay]. *)
Fixpoint str_contains (needle hay : string) : bool :=
  String.prefix needle hay
  || match hay with
     | EmptyString => false
     | String _ hay => str_contains needle hay
     end.

Module Build.
Section defs.
Context `{Collaborators}.

Inductive ModelCls := LinkageEmbed | EntityEmbed.

(** The values of the [model_args] dict. *)
Inductive ModelArg :=
  | MNumericalizer (n : RowNumericalizer)
  | MTrue
  | MVal (v : PyVal)
  | MDict (d : gmap string PyVal).

(** The loop [for k in ks: if kwargs[k]: target[k] = kwargs[k]], which
    fills the kwargs of the index in [_build_model] and [_predict_pairs]. *)
Definition copy_truthy (ks : list string) (kwargs target : gmap string PyVal)
    : Result (gmap string PyVal) :=
  Cli.for_each ks
    (λ k target,
       v ← dict_item kwargs k;
       Ok (if truthy v then <[k := v]> target else target))
    target.

(** The part of [_build_model] before the log line: the choice of the
    class and of its arguments. The values of [kwargs] are those of
    [_build_datamodule]; the code tests them for truth and hands them on. *)
Definition model_call (row_numericalizer : RowNumericalizer)
    (kwargs : gmap string PyVal) : Result (ModelCls * gmap string ModelArg) :=
  let model_args : gmap string ModelArg :=
    <["row_numericalizer" := MNumericalizer row_numericalizer]>
    (<["eval_with_clusters" := MTrue]> ∅) in
  is_record_linkage ← Cli._is_record_linkage kwargs;
  '(model_cls, model_args) ←
    (if is_record_linkage : bool then
       source_attr ← dict_item kwargs "source_attr";
       left_source ← dict_item kwargs "left_source";
       Ok (LinkageEmbed,
           <["left_source" := MVal left_source]>
           (<["source_attr" := MVal source_attr]> model_args))
     else Ok (EntityEmbed, model_args));
  embedding_size ← dict_item kwargs "embedding_size";
  let model_args :=
    if truthy embedding_size
    then <["embedding_size" := MVal embedding_size]> model_args else model_args in
  lr ← dict_item kwargs "lr";
  let model_args :=
    if truthy lr then <["learning_rate" := MVal lr]> model_args else model_args in
  ann_k ← dict_item kwargs "ann_k";
  let model_args :=
    if truthy ann_k then <["ann_k" := MVal ann_k]> model_args else model_args in
  sim_threshold ← dict_item kwargs "sim_threshold";
  let model_args :=
    if truthy sim_threshold
    then <["sim_threshold_list" := MVal sim_threshold]> model_args else model_args in
  index_build_kwargs ←
    copy_truthy ["m"; "max_m0"; "ef_construction"; "n_threads"] kwargs ∅;
  let model_args := <["index_build_kwargs" := MDict index_build_kwargs]> model_args in
  index_search_kwargs ← copy_truthy ["ef_search"; "n_threads"] kwargs ∅;
  let model_args := <["index_search_kwargs" := MDict index_search_kwargs]> model_args in
  Ok (model_cls, model_args).

(** A model as the commands see it: the class and the arguments of the
    call that made it. The classes themselves are outside this development. *)
Record Model := {
  model_cls : ModelCls;
  model_args : gmap string ModelArg;
}.

(** The value is the log and the outcome. *)
Definition _build_model (row_numericalizer : RowNumericalizer)
    (kwargs : gmap string PyVal) : list string * Result Model :=
  match model_call row_numericalizer kwargs with
  | Raise e => ([], Raise e)
  | Ok (model_cls, model_args) =>
      (["Building model..."],
       Ok {| model_cls := model_cls; model_args := model_args |})
  end.

(** [_load_model]: the class whose [load_from_checkpoint] is called, and
    the path it is called with. *)
Definition _load_model (kwargs : gmap string PyVal) : Result (ModelCls * PyVal) :=
  is_record_linkage ← Cli._is_record_linkage kwargs;
  let model_cls := if is_record_linkage : bool then LinkageEmbed else EntityEmbed in
  model_save_filepath ← dict_item kwargs "model_save_filepath";
  Ok (model_cls, model_save_filepath).

(** The callbacks, the logger and the trainer, each as the arguments
    of its constructor call. *)
Record EarlyStoppingMinEpochs := {
  es_min_epochs : PyVal;
  es_monitor : PyVal;
  es_min_delta : PyVal;
  es_patience : PyVal;
  es_verbose : bool;
  es_mode : PyVal;
}.

Record ModelCheckpointMinEpochs := {
  ck_min_epochs : PyVal;
  ck_monitor : PyVal;
  ck_save_top_k : Z;
  ck_mode : PyVal;
  ck_verbose : bool;
  ck_dirpath : PyVal;
}.

Record TensorBoardLogger := {
  tb_save_dir : PyVal;
  tb_name : PyVal;
}.

Record TrainerArgs := {
  gpus : Z;
  min_epochs : PyVal;
  max_epochs : PyVal;
  check_val_every_n_epoch : PyVal;
  callbacks : EarlyStoppingMinEpochs * ModelCheckpointMinEpochs;
  reload_dataloaders_every_epoch : bool;
  logger : option TensorBoardLogger;
}.

(** [needle in container], which raises on what is no container. *)
Definition py_in (needle : string) (container : PyVal) : Result bool :=
  match container with
  | PStr s => Ok (str_contains needle s)
  | PNone => Raise (TypeError "argument of type 'NoneType' is not iterable")
  | PInt _ => Raise (TypeError "argument of type 'int' is not iterable")
  end.

Definition logger_check_message : string :=
  "Please provide both " +:+ Cli.dquote +:+ "tb_name" +:+ Cli.dquote +:+ " and "
  +:+ Cli.dquote +:+ "tb_save_dir" +:+ Cli.dquote +:+ " to enable "
  +:+ "TensorBoardLogger or omit both to disable it".

Definition _build_trainer (kwargs : gmap string PyVal) : Result TrainerArgs :=
  min_epochs ← dict_item kwargs "min_epochs";
  monitor ← dict_item kwargs "early_stopping_monitor";
  min_delta ← dict_item kwargs "early_stopping_min_delta";
  patience ← dict_item kwargs "early_stopping_patience";
  early_stopping_mode ← dict_item kwargs "early_stopping_mode";
  mode ←
    (if truthy early_stopping_mode then Ok early_stopping_mode
     else
       found ← py_in "pair_entity_ratio_at" monitor;
       Ok (PStr (if found : bool then "min" else "max")));
  let early_stop_callback :=
    {| es_min_epochs := min_epochs; es_monitor := monitor;
       es_min_delta := min_delta; es_patience := patience;
       es_verbose := true; es_mode := mode |} in
  model_save_dir ← dict_item kwargs "model_save_dir";
  let checkpoint_callback :=
    {| ck_min_epochs := min_epochs; ck_monitor := monitor; ck_save_top_k := 1;
       ck_mode := mode; ck_verbose := true; ck_dirpath := model_save_dir |} in
  max_epochs ← dict_item kwargs "max_epochs";
  check_val_every_n_epoch ← dict_item kwargs "check_val_every_n_epoch";
  let trainer_args (logger : option TensorBoardLogger) :=
    {| gpus := 1; min_epochs := min_epochs; max_epochs := max_epochs;
       check_val_every_n_epoch := check_val_every_n_epoch;
       callbacks := (early_stop_callback, checkpoint_callback);
       reload_dataloaders_every_epoch := true;
       logger := logger |} in
  both ←
    (tb_name ← dict_item kwargs "tb_name";
     if truthy tb_name
     then tb_save_dir ← dict_item kwargs "tb_save_dir"; Ok (truthy tb_save_dir)
     else Ok false);
  if both : bool then
    tb_save_dir ← dict_item kwargs "tb_save_dir";
    tb_name ← dict_item kwargs "tb_name";
    Ok (trainer_args (Some {| tb_save_dir := tb_save_dir; tb_name := tb_name |}))
  else
    either ←
      (tb_name ← dict_item kwargs "tb_name";
       if truthy tb_name then Ok true
       else tb_save_dir ← dict_item kwargs "tb_save_dir"; Ok (truthy tb_save_dir));
    if either : bool then Raise (KeyError logger_check_message)
    else Ok (trainer_args None).

(** The arguments of [model.predict_pairs]. *)
Record PredictArgs := {
  pa_row_dict : RowDict;
  pa_batch_size : PyVal;
  pa_ann_k : PyVal;
  pa_sim_threshold : PyVal;
  pa_loader_kwargs : gmap string PyVal;
  pa_index_build_kwargs : gmap string PyVal;
  pa_index_search_kwargs : gmap string PyVal;
}.

(** [_predict_pairs]; [model] stands for the method [model.predict_pairs]
    of the model that is passed in. *)
Definition _predict_pairs (row_dict : RowDict)
    (model : PredictArgs → Result PairSet) (kwargs : gmap string PyVal)
    : Result (list (Z * Z)) :=
  eval_batch_size ← dict_item kwargs "eval_batch_size";
  num_workers ← dict_item kwargs "num_workers";
  multiprocessing_context ← dict_item kwargs "multiprocessing_context";
  ann_k ← dict_item kwargs "ann_k";
  sim_threshold ← dict_item kwargs "sim_threshold";
  index_build_kwargs ←
    copy_truthy ["m"; "max_m0"; "ef_construction"; "n_threads"] kwargs ∅;
  index_search_kwargs ← copy_truthy ["ef_search"; "n_threads"] kwargs ∅;
  is_record_linkage ← Cli._is_record_linkage kwargs;
  found_pair_set ←
    (if is_record_linkage : bool then
       model
         {| pa_row_dict := row_dict;
            pa_batch_size := eval_batch_size;
            pa_ann_k := ann_k;
            pa_sim_threshold := sim_threshold;
            pa_loader_kwargs :=
              <["num_workers" := num_workers]>
              (<["multiprocessing_context" := multiprocessing_context]> ∅);
            pa_index_build_kwargs := index_build_kwargs;
            pa_index_search_kwargs := index_search_kwargs |}
     else
       model
         {| pa_row_dict := row_dict;
            pa_batch_size := eval_batch_size;
            pa_ann_k := ann_k;
            pa_sim_threshold := sim_threshold;
            pa_loader_kwargs :=
              <["num_workers" := num_workers]>
              (<["multiprocessing_context" := multiprocessing_context]> ∅);
            pa_index_build_kwargs := index_build_kwargs;
            pa_index_search_kwargs := index_search_kwargs |});
  Ok (elements found_pair_set).

End defs.
End Build.

(** ** Vocabulary of the statements *)

(** Some pair of the three row dicts shares an id. *)
Definition leaks (train_row_dict valid_row_dict test_row_dict : RowDict) : Prop :=
  keys train_row_dict ∩ keys valid_row_dict ≠ ∅
  ∨ keys train_row_dict ∩ keys test_row_dict ≠ ∅
  ∨ keys valid_row_dict ∩ keys test_row_dict ≠ ∅.

(** The key set of the split that an error message names. *)
Definition split_keys (train_row_dict valid_row_dict test_row_dict : RowDict)
    (name : string) : option (gset Z) :=
  if decide (name = "train_row_dict") then Some (keys train_row_dict)
  else if decide (name = "valid_row_dict") then Some (keys valid_row_dict)
  else if decide (name = "test_row_dict") then Some (keys test_row_dict)
  else None.

(** The error names two different splits and carries the non-empty
    intersection of their key sets. *)
Definition names_leak (e : Exn)
    (train_row_dict valid_row_dict test_row_dict : RowDict) : Prop :=
  ∃ a b A B,
    e = ValueError a b (A ∩ B) ∧ a ≠ b
    ∧ split_keys train_row_dict valid_row_dict test_row_dict a = Some A
    ∧ split_keys train_row_dict valid_row_dict test_row_dict b = Some B
    ∧ A ∩ B ≠ ∅.

(** What the leak check promises of the outcome of a constructor call:
    it raises exactly on a leak, and then the error names the leak and no
    pair-set attribute has been assigned. *)
Definition leak_guarded {DM : Type} (unset : DM → Prop) (outcome : DM * Result unit)
    (train_row_dict valid_row_dict test_row_dict : RowDict) : Prop :=
  ((∃ e, outcome.2 = Raise e) ↔ leaks train_row_dict valid_row_dict test_row_dict)
  ∧ (∀ e, outcome.2 = Raise e →
       names_leak e train_row_dict valid_row_dict test_row_dict ∧ unset outcome.1).

(** The seed of an epoch: the base seed plus the epoch index of the
    attached trainer, or the base seed when no trainer is attached. *)
Definition epoch_seed (random_seed : Z) (trainer : option Trainer) : Z :=
  match trainer with
  | Some t => random_seed + current_epoch t
  | None => random_seed
  end.

(** A row that carries only its cluster label. *)
Definition row_of_cluster (c : Z) : Row := {[ "cluster" := PInt c ]}.

(** A concrete choice of the collaborators, for the examples. *)
Definition demo_collaborators : Collaborators :=
  {| RowNumericalizer := unit; build_loader_kwargs := default ∅ |}.

(** The attribute [slot] refers to a set object that did not exist in the
    store [σ] and that holds [s] in the store [σ']. *)
Definition rebound (σ σ' : Store) (slot : option (option nat)) (s : PairSet) : Prop :=
  ∃ ref, slot = Some (Some ref) ∧ heap σ !! ref = None ∧ heap σ' !! ref = Some s.

(** Every set object of [σ] is in [σ'] with the contents it had. *)
Definition heap_preserved (σ σ' : Store) : Prop :=
  ∀ ref s, heap σ !! ref = Some s → heap σ' !! ref = Some s.

(** The keys of the row dict in an attribute are pairwise different, as
    the keys of a Python dict are. *)
Definition unique_keys (slot : option RowDict) : bool :=
  match slot with
  | Some rows => bool_decide (NoDup rows.*1)
  | None => true
  end.

(** The value of a call that returned, or a default. *)
Definition value_of {A} (dflt : A) (r : Result A) : A :=
  match r with
  | Ok a => a
  | Raise _ => dflt
  end.

(** Example data: three disjoint row dicts with a cluster label and a
    source on every row, and the data modules built from them. *)
Definition demo_row (c : Z) (source : string) : Row :=
  {[ "cluster" := PInt c; "__source" := PStr source ]}.

Definition demo_train : RowDict :=
  [(1, demo_row 10 "left"); (2, demo_row 20 "left");
   (3, demo_row 10 "right"); (4, demo_row 20 "right")].

Definition demo_valid : RowDict :=
  [(5, demo_row 30 "left"); (6, demo_row 30 "right")].

Definition demo_test : RowDict :=
  [(7, demo_row 40 "left"); (8, demo_row 40 "right"); (9, demo_row 50 "right")].

Definition demo_dedup : Dedup.DeduplicationDataModule (H := demo_collaborators) :=
  Dedup.set_trainer (Some {| current_epoch := 3 |})
    (Dedup.__init__ (H := demo_collaborators) Dedup.fresh
       demo_train demo_valid demo_test
       "cluster" () 16 64 None None (Some 7) None).1.

Definition demo_linkage : Linkage.LinkageDataModule (H := demo_collaborators) :=
  (Linkage.__init__ (H := demo_collaborators) Linkage.fresh
     demo_train demo_valid demo_test
     "__source" (PStr "left") "cluster" () 16 64 None None None None).1.

Definition demo_pairwise : Pairwise.PairwiseDataModule (H := demo_collaborators) :=
  (Pairwise.__init__ (H := demo_collaborators) Pairwise.fresh demo_train () 16 64
     {[ (1, 3) ]} {[ (5, 6) ]} {[ (7, 8) ]} {[ (1, 2) ]} ∅ {[ (8, 9) ]}
     None None None).1.

Definition demo_clusters (rows : RowDict) : ClusterDict :=
  value_of ∅ (row_dict_to_cluster_dict rows "cluster").

Definition demo_sides (rows : RowDict) : gset Z * gset Z :=
  value_of (∅, ∅) (row_dict_to_left_right_id_set rows "__source" (PStr "left")).

(** The dict that click hands over for a deduplication run, and the same
    with one or both of the linkage options given. *)
Definition demo_kwargs : gmap string PyVal :=
  {[ "cluster_attr" := PStr "cluster"; "batch_size" := PInt 16;
     "eval_batch_size" := PInt 64; "num_workers" := PInt 2;
     "multiprocessing_context" := PStr "fork"; "random_seed" := PNone;
     "source_attr" := PNone; "left_source" := PNone ]}.

Definition demo_kwargs_one : gmap string PyVal :=
  <["left_source" := PStr "left"]> demo_kwargs.

Definition demo_kwargs_both : gmap string PyVal :=
  <["source_attr" := PStr "__source"]> demo_kwargs_one.

(** The keys that [_build_datamodule] subscripts are present; click puts
    every option into [kwargs], with [None] for one that is not given. *)
Definition reads_present (kwargs : gmap string PyVal) : bool :=
  forallb (λ k, bool_decide (is_Some (kwargs !! k)))
    ["cluster_attr"; "batch_size"; "eval_batch_size"; "num_workers";
     "multiprocessing_context"]%string.

(** The classes whose constructor a run of the builder called. *)
Definition constructed_classes `{Collaborators} (events : list Cli.Event)
    : list Cli.DataModuleCls :=
  omap (λ e, match e with Cli.Construct cls _ => Some cls | _ => None end) events.

Definition empty_store : Store := {| heap := []; log := [] |}.

(** The attributes of a module that the builder returned. *)
Definition dm_random_seed `{Collaborators} (dm : Cli.DataModule) : option Z :=
  match dm with
  | Cli.DedupDM d => Dedup.random_seed d
  | Cli.LinkageDM l => Linkage.random_seed l
  end.

Definition dm_train_loader_kwargs `{Collaborators} (dm : Cli.DataModule)
    : option (gmap string PyVal) :=
  match dm with
  | Cli.DedupDM d => Dedup.train_loader_kwargs d
  | Cli.LinkageDM l => Linkage.train_loader_kwargs l
  end.

Definition dm_eval_loader_kwargs `{Collaborators} (dm : Cli.DataModule)
    : option (gmap string PyVal) :=
  match dm with
  | Cli.DedupDM d => Dedup.eval_loader_kwargs d
  | Cli.LinkageDM l => Linkage.eval_loader_kwargs l
  end.

Definition dm_row_dicts `{Collaborators} (dm : Cli.DataModule)
    : option RowDict * option RowDict * option RowDict :=
  match dm with
  | Cli.DedupDM d =>
      (Dedup.train_row_dict d, Dedup.valid_row_dict d, Dedup.test_row_dict d)
  | Cli.LinkageDM l =>
      (Linkage.train_row_dict l, Linkage.valid_row_dict l, Linkage.test_row_dict l)
  end.

(** [d.get(k)] on a row dict. *)
Definition row_dict_get (row_dict : RowDict) (id : Z) : option Row :=
  (list_to_map row_dict : gmap Z Row) !! id.




(** A host with eight CPUs, on which [int] reads the literals of the
    example files and every seed is accepted. *)
Definition demo_host : Host :=
  {| cpu_count := PInt 8;
     py_int := λ s, (list_to_map [("1", 1); ("2", 2); ("10", 10); ("20", 20)]%string
                     : gmap string Z) !! s;
     seed_rng := λ _ _, Ok () |}.

(** A validation row dict whose row has no cluster label and no source,
    and the data modules over it. *)
Definition demo_unlabelled : RowDict := [(5, ∅)].

Definition demo_dedup_unlabelled
    : Dedup.DeduplicationDataModule (H := demo_collaborators) :=
  (Dedup.__init__ (H := demo_collaborators) Dedup.fresh
     demo_train demo_unlabelled demo_test
     "cluster" () 16 64 None None None None).1.

Definition demo_linkage_unlabelled
    : Linkage.LinkageDataModule (H := demo_collaborators) :=
  (Linkage.__init__ (H := demo_collaborators) Linkage.fresh
     demo_train demo_unlabelled demo_test
     "__source" (PStr "left") "cluster" () 16 64 None None None None).1.

(** The loader kwargs that the builder passes for [demo_kwargs], and the
    module it builds. *)
Definition demo_loader_kwargs : gmap string PyVal :=
  {[ "num_workers" := PInt 2; "multiprocessing_context" := PStr "fork" ]}.

Definition demo_built : Cli.DataModule (H := demo_collaborators) :=
  Cli.DedupDM
    (Dedup.__init__ (H := demo_collaborators) Dedup.fresh
       demo_train demo_valid demo_test "cluster" () 16 64
       (Some demo_loader_kwargs) (Some demo_loader_kwargs) None None).1.

(** The dict that click hands over to [train], with [num_workers] left at
    its default, and the dict after [_fix_workers_kwargs] on [demo_host]. *)
Definition demo_train_kwargs : gmap string PyVal :=
  list_to_map
    [("num_workers", PInt (-1)); ("csv_encoding", PStr "utf-8");
     ("embedding_size", PInt 300); ("lr", PInt 1); ("ann_k", PInt 100);
     ("sim_threshold", PNone); ("m", PInt 64); ("max_m0", PNone);
     ("ef_construction", PInt 150); ("ef_search", PNone);
     ("min_epochs", PInt 5); ("max_epochs", PInt 100);
     ("early_stopping_monitor", PStr "valid_pair_entity_ratio_at_0.3");
     ("early_stopping_min_delta", PInt 0); ("early_stopping_patience", PInt 20);
     ("early_stopping_mode", PStr EmptyString);
     ("tb_save_dir", PNone); ("tb_name", PNone);
     ("check_val_every_n_epoch", PInt 1); ("model_save_dir", PStr "models");
     ("model_save_filepath", PStr "models/best.ckpt")]%string
  ∪ demo_kwargs.

Definition demo_fixed_kwargs : gmap string PyVal :=
  (Prepare._fix_workers_kwargs (H := demo_host) demo_train_kwargs).1.

Definition demo_fixed_loader_kwargs : gmap string PyVal :=
  {[ "num_workers" := PInt 8; "multiprocessing_context" := PStr "fork" ]}.

Definition demo_fixed_built : Cli.DataModule (H := demo_collaborators) :=
  Cli.DedupDM
    (Dedup.__init__ (H := demo_collaborators) Dedup.fresh
       demo_train demo_valid demo_test "cluster" () 16 64
       (Some demo_fixed_loader_kwargs) (Some demo_fixed_loader_kwargs) None None).1.

(** The rows of a file with a repeated id, and what is loaded from it. *)
Definition demo_reader : list Row :=
  [ {[ "id" := PStr "1"; "name" := PStr "a"; "cluster" := PStr "10" ]};
    {[ "id" := PStr "2"; "name" := PStr "b"; "cluster" := PStr "10" ]};
    {[ "id" := PStr "1"; "name" := PStr "c"; "cluster" := PStr "20" ]} ].

Definition demo_loaded : RowDict :=
  [ (1, {[ "id" := PInt 1; "name" := PStr "c"; "cluster" := PInt 20 ]});
    (2, {[ "id" := PInt 2; "name" := PStr "b"; "cluster" := PInt 10 ]}) ].

(** A model that finds one pair. *)
Definition demo_predict (args : Build.PredictArgs) : Result PairSet :=
  Ok {[ (1, 2) ]}.

(** The call returned. *)
Definition returned {A} (r : Result A) : bool :=
  match r with
  | Ok _ => true
  | Raise _ => false
  end.

(** * Properties *)

(** The scenarios of spec section 8. *)

Example scenario_cluster_indexer :
  row_dict_to_cluster_dict
    [(1, row_of_cluster 10); (2, row_of_cluster 10); (3, row_of_cluster 20)] "cluster"
  = Ok (<[PInt 10 := {[1; 2]}]> (<[PInt 20 := {[3]}]> ∅)).
Proof. vm_compute. reflexivity. Qed.

Example scenario_dedup_pairs :
  cluster_dict_to_id_pairs (<[PInt 10 := {[1; 2]}]> (<[PInt 20 := {[3]}]> ∅))
  = {[ (1, 2) ]}.
Proof. vm_compute. reflexivity. Qed.

Example scenario_linkage_pairs :
  cluster_dict_to_id_pairs_lr
    (<[PInt 10 := {[1; 3]}]> (<[PInt 20 := {[2; 3; 4]}]> ∅)) {[1; 2]} {[3; 4]}
  = {[ (1, 3); (2, 3); (2, 4) ]}.
Proof. vm_compute. reflexivity. Qed.

Example scenario_leak :
  _check_for_common_rows [(5, ∅)] [(5, ∅)] []
  = Raise (ValueError "train_row_dict" "valid_row_dict" {[5]}).
Proof. vm_compute. reflexivity. Qed.

(** ** Unordered pairs and combinations *)

Lemma upair_comm a b : upair a b = upair b a.
Proof. unfold upair. f_equal; lia. Qed.

Lemma upair_eq a b a' b' :
  upair a b = upair a' b' → (a = a' ∧ b = b') ∨ (a = b' ∧ b = a').
Proof. unfold upair. intros [= Hmin Hmax]. lia. Qed.

#[global] Instance upair_inj a : Inj (=) (=) (upair a).
Proof. intros b b' [[_ ?]|[-> ->]]%upair_eq; done. Qed.

Lemma upair_ordered a b : (upair a b).1 ≤ (upair a b).2.
Proof. unfold upair. simpl. lia. Qed.

Lemma elem_of_combinations2 (l : list Z) (p : Z * Z) :
  p ∈ combinations2 l →
  ∃ i j a b, (i < j)%nat ∧ l !! i = Some a ∧ l !! j = Some b ∧ p = upair a b.
Proof.
  induction l as [|x t IH]; simpl.
  - by intros ?%elem_of_nil.
  - rewrite elem_of_app, list_elem_of_fmap. intros [(b & -> & Hb)|Hp].
    + apply list_elem_of_lookup in Hb as [j Hj].
      exists 0%nat, (S j), x, b. repeat split; [lia|done..].
    + destruct (IH Hp) as (i & j & a & b & Hij & Hi & Hj & ->).
      exists (S i), (S j), a, b. repeat split; [lia|done..].
Qed.

Lemma combinations2_complete (l : list Z) (i j : nat) (a b : Z) :
  (i < j)%nat → l !! i = Some a → l !! j = Some b → upair a b ∈ combinations2 l.
Proof.
  revert i j. induction l as [|x t IH]; intros i j Hij Hi Hj; [done|].
  simpl. rewrite elem_of_app. destruct i as [|i].
  - left. destruct j as [|j]; [lia|]. simpl in *. simplify_eq.
    apply list_elem_of_fmap. exists b. split; [done|].
    by eapply list_elem_of_lookup_2.
  - right. destruct j as [|j]; [lia|]. simpl in *.
    apply (IH i j); [lia|done..].
Qed.

Lemma NoDup_combinations2 (l : list Z) : NoDup l → NoDup (combinations2 l).
Proof.
  induction 1 as [|x t Hx Ht IH]; simpl; [constructor|].
  apply NoDup_app. split_and!.
  - by apply (NoDup_fmap_2 _).
  - intros p (b & -> & Hb)%list_elem_of_fmap Hp.
    apply elem_of_combinations2 in Hp as (i & j & a' & b' & _ & Hi & Hj & Heq).
    apply list_elem_of_lookup_2 in Hi, Hj.
    apply upair_eq in Heq as [[-> _]|[-> _]]; done.
  - done.
Qed.

Lemma length_combinations2 (l : list Z) :
  (2 * length (combinations2 l) = length l * (length l - 1))%nat.
Proof.
  induction l as [|x t IH]; simpl; [done|].
  rewrite length_app, length_fmap. nia.
Qed.

(** Membership in the pairs of one cluster. *)
Lemma elem_of_cluster_pairs (c : gset Z) (p : Z * Z) :
  p ∈ cluster_pairs c ↔ ∃ a b, a ∈ c ∧ b ∈ c ∧ a ≠ b ∧ p = upair a b.
Proof.
  unfold cluster_pairs. rewrite elem_of_list_to_set. split.
  - intros (i & j & a & b & Hij & Hi & Hj & ->)%elem_of_combinations2.
    exists a, b. split_and!; [by eapply elem_of_elements, list_elem_of_lookup_2..| |done].
    intros ->. pose proof (NoDup_elements c) as Hnd.
    pose proof (NoDup_lookup _ _ _ _ Hnd Hi Hj). lia.
  - intros (a & b & Ha & Hb & Hab & ->).
    apply elem_of_elements, list_elem_of_lookup in Ha as [i Hi].
    apply elem_of_elements, list_elem_of_lookup in Hb as [j Hj].
    destruct (decide (i < j)%nat).
    + by eapply combinations2_complete.
    + rewrite upair_comm. eapply combinations2_complete; [|done..].
      assert (i ≠ j) by (intros ->; congruence). lia.
Qed.

Lemma size_cluster_pairs (c : gset Z) :
  (2 * size (cluster_pairs c) = size c * (size c - 1))%nat.
Proof.
  unfold cluster_pairs.
  rewrite size_list_to_set by apply NoDup_combinations2, NoDup_elements.
  apply length_combinations2.
Qed.

Lemma elem_of_cross_pairs (ls rs : list Z) (p : Z * Z) :
  p ∈ cross_pairs ls rs ↔ ∃ l r, l ∈ ls ∧ r ∈ rs ∧ p = upair l r.
Proof.
  unfold cross_pairs. rewrite list_elem_of_bind. split.
  - intros (l & (r & -> & Hr)%list_elem_of_fmap & Hl). by exists l, r.
  - intros (l & r & Hl & Hr & ->). exists l. split; [|done].
    apply list_elem_of_fmap. by exists r.
Qed.

Lemma elem_of_cluster_cross_pairs (left_ids right_ids c : gset Z) (p : Z * Z) :
  p ∈ cluster_cross_pairs left_ids right_ids c ↔
  ∃ l r, l ∈ c ∩ left_ids ∧ r ∈ c ∩ right_ids ∧ p = upair l r.
Proof.
  unfold cluster_cross_pairs. rewrite elem_of_list_to_set, elem_of_cross_pairs.
  by setoid_rewrite elem_of_elements.
Qed.

Lemma elem_of_cluster_dict_to_id_pairs (cluster_dict : ClusterDict) (p : Z * Z) :
  p ∈ cluster_dict_to_id_pairs cluster_dict ↔
  ∃ c, c ∈ clusters cluster_dict ∧ p ∈ cluster_pairs c.
Proof.
  unfold cluster_dict_to_id_pairs. rewrite elem_of_union_list. split.
  - intros (X & (c & -> & Hc)%list_elem_of_fmap & Hp). by exists c.
  - intros (c & Hc & Hp). exists (cluster_pairs c). split; [|done].
    apply list_elem_of_fmap. by exists c.
Qed.

Lemma elem_of_cluster_dict_to_id_pairs_lr
    (cluster_dict : ClusterDict) (left_ids right_ids : gset Z) (p : Z * Z) :
  p ∈ cluster_dict_to_id_pairs_lr cluster_dict left_ids right_ids ↔
  ∃ c, c ∈ clusters cluster_dict ∧ p ∈ cluster_cross_pairs left_ids right_ids c.
Proof.
  unfold cluster_dict_to_id_pairs_lr. rewrite elem_of_union_list. split.
  - intros (X & (c & -> & Hc)%list_elem_of_fmap & Hp). by exists c.
  - intros (c & Hc & Hp). exists (cluster_cross_pairs left_ids right_ids c).
    split; [|done]. apply list_elem_of_fmap. by exists c.
Qed.

(** ** The store *)

Lemma new_set_eq (σ : Store) (s : PairSet) :
  new_set σ s = ({| heap := heap σ ++ [s]; log := log σ |}, length (heap σ)).
Proof. reflexivity. Qed.

Lemma lookup_snoc_new (h : Heap) (s : PairSet) : (h ++ [s]) !! length h = Some s.
Proof. by apply list_lookup_middle. Qed.

Lemma lookup_snoc_old (h : Heap) (s s0 : PairSet) (l : nat) :
  h !! l = Some s0 → (h ++ [s]) !! l = Some s0.
Proof. apply lookup_app_l_Some. Qed.

Lemma lookup_snoc_fresh (h : Heap) (l : nat) : h !! length h = None.
Proof. apply lookup_ge_None_2. lia. Qed.

Lemma log_count_ok (fmt name : string) (σ : Store) (l : nat) (s : PairSet) :
  heap σ !! l = Some s →
  log_count fmt (Some (Some l)) name σ = (logger_info σ fmt (Z.of_nat (size s)), Ok ()).
Proof. intros Hl. unfold log_count, len_ref. simpl. by rewrite Hl. Qed.

(** ** The splitter and the indexer *)

Lemma split_ids_union rows source_attr left_source L R :
  split_ids rows source_attr left_source = Ok (L, R) → L ∪ R = keys rows.
Proof.
  revert L R. induction rows as [|[id row] rest IH]; intros L R; simpl.
  - intros [= <- <-]. unfold keys. set_solver.
  - destruct (row !! source_attr) as [source|]; [|done].
    destruct (split_ids rest source_attr left_source) as [[L' R']|]; [|done].
    simpl. specialize (IH _ _ eq_refl). unfold keys in *. simpl.
    destruct (decide (source = left_source)); intros [= <- <-]; set_solver.
Qed.

Lemma split_ids_disjoint rows source_attr left_source L R :
  NoDup rows.*1 →
  split_ids rows source_attr left_source = Ok (L, R) → L ## R.
Proof.
  revert L R. induction rows as [|[id row] rest IH]; intros L R; simpl.
  - intros _ [= <- <-]. set_solver.
  - intros [Hid Hnd]%NoDup_cons.
    destruct (row !! source_attr) as [source|]; [|done].
    destruct (split_ids rest source_attr left_source) as [[L' R']|] eqn:Hrest; [|done].
    simpl. specialize (IH _ _ Hnd eq_refl).
    apply split_ids_union in Hrest.
    assert (id ∉ L' ∪ R') by (rewrite Hrest; unfold keys; set_solver).
    destruct (decide (source = left_source)); intros [= <- <-]; set_solver.
Qed.

Lemma row_dict_to_left_right_id_set_ok rows source_attr left_source L R :
  row_dict_to_left_right_id_set rows source_attr left_source = Ok (L, R) →
  split_ids rows source_attr left_source = Ok (L, R) ∧ L ≠ ∅ ∧ R ≠ ∅.
Proof.
  unfold row_dict_to_left_right_id_set.
  destruct (split_ids rows source_attr left_source) as [[L' R']|]; [|done].
  simpl. destruct (decide (L' = ∅ ∨ R' = ∅)) as [|Hne]; [done|].
  intros [= <- <-]. split; [done|]. split; intros ->; apply Hne; auto.
Qed.

(** The two sides partition the ids of the row dict. *)
Lemma left_right_partition rows source_attr left_source L R :
  NoDup rows.*1 →
  row_dict_to_left_right_id_set rows source_attr left_source = Ok (L, R) →
  L ∪ R = keys rows ∧ L ## R.
Proof.
  intros Hnd (Hs & _ & _)%row_dict_to_left_right_id_set_ok. split.
  - by eapply split_ids_union.
  - by eapply split_ids_disjoint.
Qed.

(** The cluster of a label holds the ids of the rows with that label. *)
Lemma row_dict_to_cluster_dict_members rows cluster_attr cluster_dict label id :
  row_dict_to_cluster_dict rows cluster_attr = Ok cluster_dict →
  id ∈ default ∅ (cluster_dict !! label) ↔
  ∃ row, (id, row) ∈ rows ∧ row !! cluster_attr = Some label.
Proof.
  revert cluster_dict. induction rows as [|[id0 row0] rest IH]; intros cd; simpl.
  - intros [= <-]. rewrite lookup_empty. simpl. split; [set_solver|].
    by intros (row & ?%elem_of_nil & _).
  - destruct (row0 !! cluster_attr) as [label0|] eqn:Hrow0; [|done].
    destruct (row_dict_to_cluster_dict rest cluster_attr) as [cd'|]; [|done].
    simpl. intros [= <-]. specialize (IH cd' eq_refl).
    setoid_rewrite elem_of_cons.
    destruct (decide (label0 = label)) as [->|Hne].
    + rewrite lookup_insert_eq. simpl. rewrite elem_of_union, elem_of_singleton, IH.
      split.
      * intros [->|(row & Hin & Hrow)]; [exists row0|exists row]; auto.
      * intros (row & [[= -> ->]|Hin] & Hrow); [by left|right; eauto].
    + rewrite lookup_insert_ne by done. rewrite IH. split.
      * intros (row & Hin & Hrow). eauto.
      * intros (row & [[= -> ->]|Hin] & Hrow); [congruence|eauto].
Qed.

(** No cluster is empty. *)
Lemma row_dict_to_cluster_dict_nonempty rows cluster_attr cluster_dict label c :
  row_dict_to_cluster_dict rows cluster_attr = Ok cluster_dict →
  cluster_dict !! label = Some c → c ≠ ∅.
Proof.
  revert cluster_dict c. induction rows as [|[id0 row0] rest IH]; intros cd c; simpl.
  - intros [= <-]. by rewrite lookup_empty.
  - destruct (row0 !! cluster_attr) as [label0|]; [|done].
    destruct (row_dict_to_cluster_dict rest cluster_attr) as [cd'|]; [|done].
    simpl. intros [= <-].
    destruct (decide (label0 = label)) as [->|Hne].
    + rewrite lookup_insert_eq. intros [= <-]. set_solver.
    + rewrite lookup_insert_ne by done. by apply IH.
Qed.

(** The indexer succeeds exactly when every row carries the attribute. *)
Lemma row_dict_to_cluster_dict_total rows cluster_attr :
  (∃ cluster_dict, row_dict_to_cluster_dict rows cluster_attr = Ok cluster_dict)
  ↔ Forall (λ r, is_Some (r.2 !! cluster_attr)) rows.
Proof.
  induction rows as [|[id0 row0] rest IH]; simpl.
  - split; [constructor|by eexists].
  - rewrite Forall_cons. simpl. rewrite <- IH.
    destruct (row0 !! cluster_attr) as [label0|].
    + destruct (row_dict_to_cluster_dict rest cluster_attr) as [cd'|]; simpl.
      * split; [eauto|]. by eexists.
      * split; [by intros [? ?]|]. by intros [_ [? ?]].
    + split; [by intros [? ?]|]. by intros [[? ?] _].
Qed.

(** The positive pairs of a row dict in deduplication mode: the pairs of
    two different ids whose rows carry the same cluster label. *)
Lemma positive_pairs_of_rows rows cluster_attr cluster_dict (p : Z * Z) :
  row_dict_to_cluster_dict rows cluster_attr = Ok cluster_dict →
  p ∈ cluster_dict_to_id_pairs cluster_dict ↔
  ∃ a b row_a row_b label,
    (a, row_a) ∈ rows ∧ (b, row_b) ∈ rows ∧ a ≠ b
    ∧ row_a !! cluster_attr = Some label ∧ row_b !! cluster_attr = Some label
    ∧ p = upair a b.
Proof.
  intros Hcd. rewrite elem_of_cluster_dict_to_id_pairs. unfold clusters. split.
  - intros (c & Hc & (a & b & Ha & Hb & Hab & ->)%elem_of_cluster_pairs).
    apply list_elem_of_fmap in Hc as ([label c'] & -> & Hc%elem_of_map_to_list).
    simpl in *.
    pose proof (row_dict_to_cluster_dict_members _ _ _ label a Hcd) as Hma.
    pose proof (row_dict_to_cluster_dict_members _ _ _ label b Hcd) as Hmb.
    rewrite Hc in Hma, Hmb. simpl in *.
    apply Hma in Ha as (row_a & ? & ?). apply Hmb in Hb as (row_b & ? & ?).
    by exists a, b, row_a, row_b, label.
  - intros (a & b & row_a & row_b & label & Ha & Hb & Hab & Hla & Hlb & ->).
    pose proof (row_dict_to_cluster_dict_members _ _ _ label a Hcd) as Hma.
    pose proof (row_dict_to_cluster_dict_members _ _ _ label b Hcd) as Hmb.
    destruct (cluster_dict !! label) as [c|] eqn:Hc; simpl in *.
    + exists c. split.
      * apply list_elem_of_fmap. exists (label, c). split; [done|].
        by apply elem_of_map_to_list.
      * apply elem_of_cluster_pairs. exists a, b. split_and!; [| |done..].
        -- apply Hma. eauto.
        -- apply Hmb. eauto.
    + exfalso. assert (a ∈ (∅ : gset Z)) by (apply Hma; eauto). set_solver.
Qed.

(** Which ids go left and which go right. *)
Lemma split_ids_members rows source_attr left_source L R id :
  split_ids rows source_attr left_source = Ok (L, R) →
  (id ∈ L ↔ ∃ row, (id, row) ∈ rows ∧ row !! source_attr = Some left_source)
  ∧ (id ∈ R ↔ ∃ row source, (id, row) ∈ rows ∧ row !! source_attr = Some source
                            ∧ source ≠ left_source).
Proof.
  revert L R. induction rows as [|[id0 row0] rest IH]; intros L R; simpl.
  - intros [= <- <-]. split; (split; [set_solver|]).
    + by intros (row & ?%elem_of_nil & _).
    + by intros (row & source & ?%elem_of_nil & _).
  - destruct (row0 !! source_attr) as [source0|] eqn:Hrow0; [|done].
    destruct (split_ids rest source_attr left_source) as [[L' R']|]; [|done].
    simpl. destruct (IH _ _ eq_refl) as [IHL IHR].
    setoid_rewrite elem_of_cons.
    destruct (decide (source0 = left_source)) as [->|Hne]; intros [= <- <-].
    + rewrite elem_of_union, elem_of_singleton, IHL, IHR. split; split.
      * intros [->|(row & ? & ?)]; [exists row0|exists row]; auto.
      * intros (row & [[= -> ->]|?] & ?); [by left|right; eauto].
      * intros (row & source & ? & ? & ?). exists row, source. auto.
      * intros (row & source & [[= -> ->]|?] & ? & ?); [congruence|eauto].
    + rewrite elem_of_union, elem_of_singleton, IHL, IHR. split; split.
      * intros (row & ? & ?). exists row. auto.
      * intros (row & [[= -> ->]|?] & ?); [congruence|eauto].
      * intros [->|(row & source & ? & ? & ?)];
          [exists row0, source0|exists row, source]; auto.
      * intros (row & source & [[= -> ->]|?] & ? & ?); [by left|right; eauto].
Qed.

(** With disjoint sides, a cluster with m ids on the left and n on the
    right contributes m * n pairs. *)
Lemma NoDup_cross_pairs (ls rs : list Z) :
  NoDup ls → NoDup rs → (∀ x, x ∈ ls → x ∉ rs) → NoDup (cross_pairs ls rs).
Proof.
  intros Hls Hrs Hdisj. unfold cross_pairs. apply NoDup_bind; [|intros|done].
  - intros l1 l2 p Hl1 Hl2 (r1 & -> & Hr1)%list_elem_of_fmap
      (r2 & Heq & Hr2)%list_elem_of_fmap.
    apply upair_eq in Heq as [[-> _]|[-> ->]]; [done|].
    by destruct (Hdisj r2).
  - by apply (NoDup_fmap_2 _).
Qed.

Lemma length_cross_pairs (ls rs : list Z) :
  length (cross_pairs ls rs) = (length ls * length rs)%nat.
Proof.
  unfold cross_pairs. induction ls as [|l ls IH]; [done|].
  rewrite bind_cons, length_app, length_fmap, IH. simpl. lia.
Qed.

Lemma size_cluster_cross_pairs (L R c : gset Z) :
  L ## R →
  size (cluster_cross_pairs L R c) = (size (c ∩ L) * size (c ∩ R))%nat.
Proof.
  intros Hdisj. unfold cluster_cross_pairs.
  rewrite size_list_to_set, length_cross_pairs; [done|].
  apply NoDup_cross_pairs; [apply NoDup_elements..|].
  intros x. rewrite !elem_of_elements. set_solver.
Qed.

(** ** The leak check *)

Lemma check_for_common_rows_ok (train valid test : RowDict) :
  _check_for_common_rows train valid test = Ok () ↔ ¬ leaks train valid test.
Proof.
  unfold _check_for_common_rows, leaks.
  repeat (destruct (decide _)); split; try done; tauto.
Qed.

(** The error is that of the first offending pair, in the order
    train/valid, train/test, valid/test. *)
Lemma check_for_common_rows_first (train valid test : RowDict) (e : Exn) :
  _check_for_common_rows train valid test = Raise e →
  (e = ValueError "train_row_dict" "valid_row_dict" (keys train ∩ keys valid)
   ∧ keys train ∩ keys valid ≠ ∅)
  ∨ (e = ValueError "train_row_dict" "test_row_dict" (keys train ∩ keys test)
     ∧ keys train ∩ keys valid = ∅ ∧ keys train ∩ keys test ≠ ∅)
  ∨ (e = ValueError "valid_row_dict" "test_row_dict" (keys valid ∩ keys test)
     ∧ keys train ∩ keys valid = ∅ ∧ keys train ∩ keys test = ∅
     ∧ keys valid ∩ keys test ≠ ∅).
Proof.
  unfold _check_for_common_rows.
  destruct (decide (keys train ∩ keys valid ≠ ∅)) as [|Htv%dec_stable].
  { intros [= <-]. by left. }
  destruct (decide (keys train ∩ keys test ≠ ∅)) as [|Htt%dec_stable].
  { intros [= <-]. right. by left. }
  destruct (decide (keys valid ∩ keys test ≠ ∅)); [|done].
  intros [= <-]. right. by right.
Qed.

Lemma check_for_common_rows_raise (train valid test : RowDict) (e : Exn) :
  _check_for_common_rows train valid test = Raise e → names_leak e train valid test.
Proof.
  intros [[-> ?]|[[-> [_ ?]]|[-> (_ & _ & ?)]]]%check_for_common_rows_first.
  - by exists "train_row_dict", "valid_row_dict", (keys train), (keys valid).
  - by exists "train_row_dict", "test_row_dict", (keys train), (keys test).
  - by exists "valid_row_dict", "test_row_dict", (keys valid), (keys test).
Qed.

Lemma check_for_common_rows_raises_iff (train valid test : RowDict) :
  (∃ e, _check_for_common_rows train valid test = Raise e) ↔ leaks train valid test.
Proof.
  pose proof (check_for_common_rows_ok train valid test) as Hok.
  destruct (_check_for_common_rows train valid test) as [[]|e] eqn:Hc.
  - split; [by intros [? ?]|]. intros Hl. by apply Hok in Hl.
  - split; [|by eauto]. intros _.
    destruct (decide (keys train ∩ keys valid ≠ ∅)); [by left|].
    destruct (decide (keys train ∩ keys test ≠ ∅)); [right; by left|].
    destruct (decide (keys valid ∩ keys test ≠ ∅)); [right; by right|].
    assert (¬ leaks train valid test) as Hn%Hok by (unfold leaks; tauto). done.
Qed.

Section constructors.
Context `{Collaborators}.

Lemma dedup_init_checked
    train valid test cluster_attr rn bs ebs tlk elk seed chk :
  kwarg chk true = true →
  leak_guarded Dedup.pair_sets_unset
    (Dedup.__init__ Dedup.fresh train valid test cluster_attr rn bs ebs tlk elk seed chk)
    train valid test.
Proof.
  intros Hchk. unfold leak_guarded, Dedup.__init__. rewrite Hchk.
  pose proof (check_for_common_rows_raises_iff train valid test) as Hiff.
  destruct (_check_for_common_rows train valid test) as [[]|e] eqn:Hc; simpl.
  - split; [|done]. rewrite <- Hiff. split; by intros [? ?].
  - split; [rewrite <- Hiff; split; eauto|].
    intros e' [= <-]. split; [by apply check_for_common_rows_raise|done].
Qed.

Lemma linkage_init_checked
    train valid test source_attr left_source cluster_attr rn bs ebs tlk elk seed chk :
  kwarg chk true = true →
  leak_guarded Linkage.pair_sets_unset
    (Linkage.__init__ Linkage.fresh train valid test source_attr left_source
       cluster_attr rn bs ebs tlk elk seed chk)
    train valid test.
Proof.
  intros Hchk. unfold leak_guarded, Linkage.__init__. rewrite Hchk.
  pose proof (check_for_common_rows_raises_iff train valid test) as Hiff.
  destruct (_check_for_common_rows train valid test) as [[]|e] eqn:Hc; simpl.
  - split; [|done]. rewrite <- Hiff. split; by intros [? ?].
  - split; [rewrite <- Hiff; split; eauto|].
    intros e' [= <-]. split; [by apply check_for_common_rows_raise|done].
Qed.

End constructors.

(** C1. With the common-rows check enabled (omitted, or passed as [True]),
    constructing a [DeduplicationDataModule] or a [LinkageDataModule]
    raises if and only if two of the three row dicts share an id; the
    error names the two splits and carries the intersection of their key
    sets; and on failure none of the three pair-set attributes has been
    assigned. *)
Theorem leak_check_on_construction `{Collaborators}
    (train_row_dict valid_row_dict test_row_dict : RowDict)
    (check_for_common_rows : option bool) :
  kwarg check_for_common_rows true = true →
  (∀ cluster_attr rn batch_size eval_batch_size tlk elk random_seed,
     leak_guarded Dedup.pair_sets_unset
       (Dedup.__init__ Dedup.fresh train_row_dict valid_row_dict test_row_dict
          cluster_attr rn batch_size eval_batch_size tlk elk random_seed
          check_for_common_rows)
       train_row_dict valid_row_dict test_row_dict)
  ∧ (∀ source_attr left_source cluster_attr rn batch_size eval_batch_size
       tlk elk random_seed,
       leak_guarded Linkage.pair_sets_unset
         (Linkage.__init__ Linkage.fresh train_row_dict valid_row_dict test_row_dict
            source_attr left_source
            cluster_attr rn batch_size eval_batch_size tlk elk random_seed
            check_for_common_rows)
         train_row_dict valid_row_dict test_row_dict).
Proof.
  intros Hchk. split; intros.
  - by apply dedup_init_checked.
  - by apply linkage_init_checked.
Qed.

Lemma leak_check_on_construction_witness :
  kwarg (None : option bool) true = true
  ∧ ((∀ cluster_attr rn batch_size eval_batch_size tlk elk random_seed,
        leak_guarded Dedup.pair_sets_unset
          (Dedup.__init__ (H := demo_collaborators) Dedup.fresh
             [(5, ∅)] [(5, ∅)] [(7, ∅)]
             cluster_attr rn batch_size eval_batch_size tlk elk random_seed None)
          [(5, ∅)] [(5, ∅)] [(7, ∅)])
     ∧ (∀ source_attr left_source cluster_attr rn batch_size eval_batch_size
          tlk elk random_seed,
          leak_guarded Linkage.pair_sets_unset
            (Linkage.__init__ (H := demo_collaborators) Linkage.fresh
               [(5, ∅)] [(5, ∅)] [(7, ∅)]
               source_attr left_source
               cluster_attr rn batch_size eval_batch_size tlk elk random_seed None)
            [(5, ∅)] [(5, ∅)] [(7, ∅)])).
Proof.
  split; [reflexivity|].
  apply (leak_check_on_construction (H := demo_collaborators)
           [(5, ∅)] [(5, ∅)] [(7, ∅)] None).
  reflexivity.
Defined.

(** C10. With [check_for_common_rows=False] the constructors succeed on
    every triple of row dicts, shared ids or not, and assign all their
    attributes; the check is a keyword argument whose default is [True]. *)
Theorem leak_check_opt_out `{Collaborators}
    (train_row_dict valid_row_dict test_row_dict : RowDict) :
  (∀ cluster_attr rn batch_size eval_batch_size tlk elk random_seed,
     ∃ self,
       Dedup.__init__ Dedup.fresh train_row_dict valid_row_dict test_row_dict
         cluster_attr rn batch_size eval_batch_size tlk elk random_seed (Some false)
       = (self, Ok ())
       ∧ Dedup.initialized self = true
       ∧ Dedup.train_row_dict self = Some train_row_dict
       ∧ Dedup.valid_row_dict self = Some valid_row_dict
       ∧ Dedup.test_row_dict self = Some test_row_dict)
  ∧ (∀ source_attr left_source cluster_attr rn batch_size eval_batch_size
       tlk elk random_seed,
       ∃ self,
         Linkage.__init__ Linkage.fresh train_row_dict valid_row_dict test_row_dict
           source_attr left_source
           cluster_attr rn batch_size eval_batch_size tlk elk random_seed (Some false)
         = (self, Ok ())
         ∧ Linkage.initialized self = true
         ∧ Linkage.train_row_dict self = Some train_row_dict
         ∧ Linkage.valid_row_dict self = Some valid_row_dict
         ∧ Linkage.test_row_dict self = Some test_row_dict)
  ∧ kwarg (None : option bool) true = true.
Proof.
  split_and!; [intros; eexists; by split_and!..|done].
Qed.

(** The opt-out at work: three row dicts that all hold id 5. *)
Example opt_out_with_shared_ids :
  (Dedup.__init__ (H := demo_collaborators) Dedup.fresh
     [(5, ∅)] [(5, ∅)] [(5, ∅)] "cluster" () 8 8 None None None (Some false)).2
  = Ok ()
  ∧ (Dedup.__init__ (H := demo_collaborators) Dedup.fresh
       [(5, ∅)] [(5, ∅)] [(5, ∅)] "cluster" () 8 8 None None None None).2
    = Raise (ValueError "train_row_dict" "valid_row_dict" {[5]}).
Proof. split; vm_compute; reflexivity. Qed.

(** ** The dataloaders *)

Lemma assigned_Some {A} (slot : option A) : assigned slot = true → ∃ v, slot = Some v.
Proof. destruct slot; [eauto|done]. Qed.

Ltac slots H :=
  repeat (apply andb_prop in H as [H ?]);
  repeat match goal with
    | H : assigned _ = true |- _ =>
        let v := fresh "v" in apply assigned_Some in H as [v H]
    end.

Section loaders.
Context `{Collaborators}.

Lemma dedup_train_dataloader (self : Dedup.DeduplicationDataModule)
    rows attr rn bs seed kw :
  Dedup.train_row_dict self = Some rows → Dedup.cluster_attr self = Some attr →
  Dedup.row_numericalizer self = Some rn → Dedup.batch_size self = Some bs →
  Dedup.random_seed self = Some seed → Dedup.train_loader_kwargs self = Some kw →
  Dedup.train_dataloader self
  = Ok (DataLoader.new
          (ClusterDataset.from_cluster_dict rows attr rn bs (bs / 3)
             (epoch_seed seed (Dedup.trainer self)))
          None false kw).
Proof.
  intros Hrows Hattr Hrn Hbs Hseed Hkw. unfold Dedup.train_dataloader.
  rewrite Hrows, Hattr, Hrn, Hbs, Hseed, Hkw. by destruct (Dedup.trainer self).
Qed.

Lemma linkage_train_dataloader (self : Linkage.LinkageDataModule)
    rows attr rn bs seed kw :
  Linkage.train_row_dict self = Some rows → Linkage.cluster_attr self = Some attr →
  Linkage.row_numericalizer self = Some rn → Linkage.batch_size self = Some bs →
  Linkage.random_seed self = Some seed → Linkage.train_loader_kwargs self = Some kw →
  Linkage.train_dataloader self
  = Ok (DataLoader.new
          (ClusterDataset.from_cluster_dict rows attr rn bs (bs / 3)
             (epoch_seed seed (Linkage.trainer self)))
          None false kw).
Proof.
  intros Hrows Hattr Hrn Hbs Hseed Hkw. unfold Linkage.train_dataloader.
  rewrite Hrows, Hattr, Hrn, Hbs, Hseed, Hkw. by destruct (Linkage.trainer self).
Qed.

(** A data module that is initialized yields a training loader, built
    from its attributes. *)
Lemma dedup_train_dataloader_initialized (self : Dedup.DeduplicationDataModule) :
  Dedup.initialized self = true →
  ∃ rows attr rn bs seed kw,
    Dedup.train_row_dict self = Some rows ∧ Dedup.cluster_attr self = Some attr
    ∧ Dedup.row_numericalizer self = Some rn ∧ Dedup.batch_size self = Some bs
    ∧ Dedup.random_seed self = Some seed ∧ Dedup.train_loader_kwargs self = Some kw
    ∧ Dedup.train_dataloader self
      = Ok (DataLoader.new
              (ClusterDataset.from_cluster_dict rows attr rn bs (bs / 3)
                 (epoch_seed seed (Dedup.trainer self)))
              None false kw).
Proof.
  intros Hinit. unfold Dedup.initialized in Hinit. slots Hinit.
  do 6 eexists. split_and!; [done..|]. by apply dedup_train_dataloader.
Qed.

Lemma linkage_train_dataloader_initialized (self : Linkage.LinkageDataModule) :
  Linkage.initialized self = true →
  ∃ rows attr rn bs seed kw,
    Linkage.train_row_dict self = Some rows ∧ Linkage.cluster_attr self = Some attr
    ∧ Linkage.row_numericalizer self = Some rn ∧ Linkage.batch_size self = Some bs
    ∧ Linkage.random_seed self = Some seed ∧ Linkage.train_loader_kwargs self = Some kw
    ∧ Linkage.train_dataloader self
      = Ok (DataLoader.new
              (ClusterDataset.from_cluster_dict rows attr rn bs (bs / 3)
                 (epoch_seed seed (Linkage.trainer self)))
              None false kw).
Proof.
  intros Hinit. unfold Linkage.initialized in Hinit. slots Hinit.
  do 6 eexists. split_and!; [done..|]. by apply linkage_train_dataloader.
Qed.

End loaders.

Lemma epoch_seed_inj (seed : Z) (t1 t2 : Trainer) :
  epoch_seed seed (Some t1) = epoch_seed seed (Some t2)
  ↔ current_epoch t1 = current_epoch t2.
Proof. simpl. lia. Qed.

(** C4. The training loader of an initialized [DeduplicationDataModule]
    or [LinkageDataModule] builds its cluster dataset with the seed
    [random_seed + trainer.current_epoch] when a trainer is attached and
    [random_seed] when none is; with the same base seed, two epochs give
    the same seed exactly when they are the same epoch. *)
Theorem train_seed_follows_epoch `{Collaborators}
    (d : Dedup.DeduplicationDataModule) (l : Linkage.LinkageDataModule) :
  Dedup.initialized d = true →
  Linkage.initialized l = true →
  (∃ loader seed,
     Dedup.train_dataloader d = Ok loader ∧ Dedup.random_seed d = Some seed
     ∧ ClusterDataset.random_seed (DataLoader.dataset loader)
       = match Dedup.trainer d with
         | Some t => seed + current_epoch t
         | None => seed
         end)
  ∧ (∃ loader seed,
       Linkage.train_dataloader l = Ok loader ∧ Linkage.random_seed l = Some seed
       ∧ ClusterDataset.random_seed (DataLoader.dataset loader)
         = match Linkage.trainer l with
           | Some t => seed + current_epoch t
           | None => seed
           end)
  ∧ (∀ t1 t2, ∃ loader1 loader2,
       Dedup.train_dataloader (Dedup.set_trainer (Some t1) d) = Ok loader1
       ∧ Dedup.train_dataloader (Dedup.set_trainer (Some t2) d) = Ok loader2
       ∧ (ClusterDataset.random_seed (DataLoader.dataset loader1)
          = ClusterDataset.random_seed (DataLoader.dataset loader2)
          ↔ current_epoch t1 = current_epoch t2))
  ∧ (∀ t1 t2, ∃ loader1 loader2,
       Linkage.train_dataloader (Linkage.set_trainer (Some t1) l) = Ok loader1
       ∧ Linkage.train_dataloader (Linkage.set_trainer (Some t2) l) = Ok loader2
       ∧ (ClusterDataset.random_seed (DataLoader.dataset loader1)
          = ClusterDataset.random_seed (DataLoader.dataset loader2)
          ↔ current_epoch t1 = current_epoch t2)).
Proof.
  intros Hd Hl.
  destruct (dedup_train_dataloader_initialized d Hd)
    as (drows & dattr & drn & dbs & dseed & dkw & ? & ? & ? & ? & ? & ? & Hdl).
  destruct (linkage_train_dataloader_initialized l Hl)
    as (lrows & lattr & lrn & lbs & lseed & lkw & ? & ? & ? & ? & ? & ? & Hll).
  split_and!.
  - eexists _, dseed. by rewrite Hdl.
  - eexists _, lseed. by rewrite Hll.
  - intros t1 t2. do 2 eexists. split_and!.
    + by apply dedup_train_dataloader.
    + by apply dedup_train_dataloader.
    + apply epoch_seed_inj.
  - intros t1 t2. do 2 eexists. split_and!.
    + by apply linkage_train_dataloader.
    + by apply linkage_train_dataloader.
    + apply epoch_seed_inj.
Qed.

Lemma train_seed_follows_epoch_witness :
  Dedup.initialized demo_dedup = true
  ∧ Linkage.initialized demo_linkage = true
  ∧ ∃ loader seed,
      Dedup.train_dataloader demo_dedup = Ok loader
      ∧ Dedup.random_seed demo_dedup = Some seed
      ∧ ClusterDataset.random_seed (DataLoader.dataset loader)
        = match Dedup.trainer demo_dedup with
          | Some t => seed + current_epoch t
          | None => seed
          end.
Proof.
  split; [reflexivity|]. split; [reflexivity|].
  exact (proj1 (train_seed_follows_epoch demo_dedup demo_linkage eq_refl eq_refl)).
Defined.

(** The demo module runs epoch 3 with base seed 7. *)
Example demo_train_seed :
  ClusterDataset.random_seed <$>
    (DataLoader.dataset <$> option_of_result (Dedup.train_dataloader demo_dedup))
  = Some 10.
Proof. vm_compute. reflexivity. Qed.

Lemma floor_third (B : Z) : 3 * (B / 3) ≤ B < 3 * (B / 3) + 3.
Proof.
  pose proof (Z.mul_div_le B 3). pose proof (Z.mul_succ_div_gt B 3). lia.
Qed.

(** C5. The training loader of an initialized [DeduplicationDataModule]
    or [LinkageDataModule] with batch size [B] builds its cluster dataset
    with [batch_size = B] and [max_cluster_size_in_batch = B // 3], the
    largest integer [m] with [3 * m <= B]. *)
Theorem train_cluster_cap_is_third `{Collaborators}
    (d : Dedup.DeduplicationDataModule) (l : Linkage.LinkageDataModule) :
  Dedup.initialized d = true →
  Linkage.initialized l = true →
  (∃ loader B,
     Dedup.train_dataloader d = Ok loader ∧ Dedup.batch_size d = Some B
     ∧ ClusterDataset.batch_size (DataLoader.dataset loader) = B
     ∧ ClusterDataset.max_cluster_size_in_batch (DataLoader.dataset loader) = B / 3
     ∧ 3 * (B / 3) ≤ B < 3 * (B / 3) + 3)
  ∧ (∃ loader B,
       Linkage.train_dataloader l = Ok loader ∧ Linkage.batch_size l = Some B
       ∧ ClusterDataset.batch_size (DataLoader.dataset loader) = B
       ∧ ClusterDataset.max_cluster_size_in_batch (DataLoader.dataset loader) = B / 3
       ∧ 3 * (B / 3) ≤ B < 3 * (B / 3) + 3).
Proof.
  intros Hd Hl.
  destruct (dedup_train_dataloader_initialized d Hd)
    as (drows & dattr & drn & dbs & dseed & dkw & ? & ? & ? & ? & ? & ? & Hdl).
  destruct (linkage_train_dataloader_initialized l Hl)
    as (lrows & lattr & lrn & lbs & lseed & lkw & ? & ? & ? & ? & ? & ? & Hll).
  split.
  - eexists _, dbs. rewrite Hdl. split_and!; try done; apply floor_third.
  - eexists _, lbs. rewrite Hll. split_and!; try done; apply floor_third.
Qed.

Lemma train_cluster_cap_is_third_witness :
  Dedup.initialized demo_dedup = true
  ∧ Linkage.initialized demo_linkage = true
  ∧ ∃ loader B,
      Dedup.train_dataloader demo_dedup = Ok loader
      ∧ Dedup.batch_size demo_dedup = Some B
      ∧ ClusterDataset.batch_size (DataLoader.dataset loader) = B
      ∧ ClusterDataset.max_cluster_size_in_batch (DataLoader.dataset loader) = B / 3
      ∧ 3 * (B / 3) ≤ B < 3 * (B / 3) + 3.
Proof.
  split; [reflexivity|]. split; [reflexivity|].
  exact (proj1 (train_cluster_cap_is_third demo_dedup demo_linkage eq_refl eq_refl)).
Defined.

(** A batch size of 16 clusters caps every cluster at 5 rows. *)
Example demo_train_cap :
  ClusterDataset.max_cluster_size_in_batch <$>
    (DataLoader.dataset <$> option_of_result (Dedup.train_dataloader demo_dedup))
  = Some 5.
Proof. vm_compute. reflexivity. Qed.

Section eval_loaders.
Context `{Collaborators}.

Lemma dedup_eval_dataloaders (self : Dedup.DeduplicationDataModule) :
  Dedup.initialized self = true →
  ∃ valid test rn ebs kw,
    Dedup.valid_row_dict self = Some valid ∧ Dedup.test_row_dict self = Some test
    ∧ Dedup.row_numericalizer self = Some rn ∧ Dedup.eval_batch_size self = Some ebs
    ∧ Dedup.eval_loader_kwargs self = Some kw
    ∧ Dedup.val_dataloader self
      = Ok (DataLoader.new (RowDataset.new valid rn ebs) None false kw)
    ∧ Dedup.test_dataloader self
      = Ok (DataLoader.new (RowDataset.new test rn ebs) None false kw).
Proof.
  intros Hinit. unfold Dedup.initialized in Hinit. slots Hinit.
  do 5 eexists. split_and!; [done..| |].
  - unfold Dedup.val_dataloader.
    by repeat match goal with Heq : _ self = Some _ |- _ => rewrite Heq; clear Heq end.
  - unfold Dedup.test_dataloader.
    by repeat match goal with Heq : _ self = Some _ |- _ => rewrite Heq; clear Heq end.
Qed.

Lemma linkage_eval_dataloaders (self : Linkage.LinkageDataModule) :
  Linkage.initialized self = true →
  ∃ valid test rn ebs kw,
    Linkage.valid_row_dict self = Some valid ∧ Linkage.test_row_dict self = Some test
    ∧ Linkage.row_numericalizer self = Some rn ∧ Linkage.eval_batch_size self = Some ebs
    ∧ Linkage.eval_loader_kwargs self = Some kw
    ∧ Linkage.val_dataloader self
      = Ok (DataLoader.new (RowDataset.new valid rn ebs) None false kw)
    ∧ Linkage.test_dataloader self
      = Ok (DataLoader.new (RowDataset.new test rn ebs) None false kw).
Proof.
  intros Hinit. unfold Linkage.initialized in Hinit. slots Hinit.
  do 5 eexists. split_and!; [done..| |].
  - unfold Linkage.val_dataloader.
    by repeat match goal with Heq : _ self = Some _ |- _ => rewrite Heq; clear Heq end.
  - unfold Linkage.test_dataloader.
    by repeat match goal with Heq : _ self = Some _ |- _ => rewrite Heq; clear Heq end.
Qed.

End eval_loaders.

(** C7. The validation and test loaders of an initialized
    [DeduplicationDataModule] or [LinkageDataModule] are a row dataset over
    the validation (test) row dict with batch size [eval_batch_size],
    wrapped with [shuffle=False]; and they are the same loaders whatever
    the value of [random_seed] and whatever trainer is attached. *)
Theorem eval_loaders_ignore_seed `{Collaborators}
    (d : Dedup.DeduplicationDataModule) (l : Linkage.LinkageDataModule)
    (random_seed' : Z) (trainer' : option Trainer) :
  Dedup.initialized d = true →
  Linkage.initialized l = true →
  (∃ valid test rn ebs kw,
     Dedup.valid_row_dict d = Some valid ∧ Dedup.test_row_dict d = Some test
     ∧ Dedup.row_numericalizer d = Some rn ∧ Dedup.eval_batch_size d = Some ebs
     ∧ Dedup.eval_loader_kwargs d = Some kw
     ∧ Dedup.val_dataloader d
       = Ok (DataLoader.new (RowDataset.new valid rn ebs) None false kw)
     ∧ Dedup.test_dataloader d
       = Ok (DataLoader.new (RowDataset.new test rn ebs) None false kw))
  ∧ Dedup.val_dataloader (Dedup.set_random_seed random_seed' (Dedup.set_trainer trainer' d))
    = Dedup.val_dataloader d
  ∧ Dedup.test_dataloader (Dedup.set_random_seed random_seed' (Dedup.set_trainer trainer' d))
    = Dedup.test_dataloader d
  ∧ (∃ valid test rn ebs kw,
       Linkage.valid_row_dict l = Some valid ∧ Linkage.test_row_dict l = Some test
       ∧ Linkage.row_numericalizer l = Some rn ∧ Linkage.eval_batch_size l = Some ebs
       ∧ Linkage.eval_loader_kwargs l = Some kw
       ∧ Linkage.val_dataloader l
         = Ok (DataLoader.new (RowDataset.new valid rn ebs) None false kw)
       ∧ Linkage.test_dataloader l
         = Ok (DataLoader.new (RowDataset.new test rn ebs) None false kw))
  ∧ Linkage.val_dataloader
      (Linkage.set_random_seed random_seed' (Linkage.set_trainer trainer' l))
    = Linkage.val_dataloader l
  ∧ Linkage.test_dataloader
      (Linkage.set_random_seed random_seed' (Linkage.set_trainer trainer' l))
    = Linkage.test_dataloader l.
Proof.
  intros Hd Hl. split_and!; try reflexivity.
  - by apply dedup_eval_dataloaders.
  - by apply linkage_eval_dataloaders.
Qed.

Lemma eval_loaders_ignore_seed_witness :
  Dedup.initialized demo_dedup = true
  ∧ Linkage.initialized demo_linkage = true
  ∧ Dedup.val_dataloader
      (Dedup.set_random_seed 1234 (Dedup.set_trainer (Some {| current_epoch := 9 |}) demo_dedup))
    = Dedup.val_dataloader demo_dedup.
Proof.
  split; [reflexivity|]. split; [reflexivity|].
  exact (proj1 (proj2 (eval_loaders_ignore_seed demo_dedup demo_linkage
                         1234 (Some {| current_epoch := 9 |}) eq_refl eq_refl))).
Defined.

Example demo_val_dataloader :
  Dedup.val_dataloader demo_dedup
  = Ok (DataLoader.new (RowDataset.new (H := demo_collaborators) demo_valid () 64)
          None false ∅).
Proof. reflexivity. Qed.

(** ** The pairwise variant *)

Section pairwise.
Context `{Collaborators}.

Lemma pairwise_dataloaders (self : Pairwise.PairwiseDataModule) :
  Pairwise.initialized self = true →
  ∃ rows rn bs seed kw_train kw_eval train_pos train_neg valid_pos valid_neg
    test_pos test_neg,
    Pairwise.row_dict self = Some rows ∧ Pairwise.row_numericalizer self = Some rn
    ∧ Pairwise.batch_size self = Some bs ∧ Pairwise.random_seed self = Some seed
    ∧ Pairwise.train_loader_kwargs self = Some kw_train
    ∧ Pairwise.eval_loader_kwargs self = Some kw_eval
    ∧ Pairwise.train_pos_pair_set self = Some train_pos
    ∧ Pairwise.train_neg_pair_set self = Some train_neg
    ∧ Pairwise.valid_pos_pair_set self = Some valid_pos
    ∧ Pairwise.valid_neg_pair_set self = Some valid_neg
    ∧ Pairwise.test_pos_pair_set self = Some test_pos
    ∧ Pairwise.test_neg_pair_set self = Some test_neg
    ∧ Pairwise.train_dataloader self
      = Ok (DataLoader.new
              (PairDataset.new rows train_pos train_neg rn bs
                 (Some (epoch_seed seed (Pairwise.trainer self))))
              None false kw_train)
    ∧ Pairwise.val_dataloader self
      = Ok (DataLoader.new (PairDataset.new rows valid_pos valid_neg rn bs None)
              None false kw_eval)
    ∧ Pairwise.test_dataloader self
      = Ok (DataLoader.new (PairDataset.new rows test_pos test_neg rn bs None)
              None false kw_eval).
Proof.
  intros Hinit. unfold Pairwise.initialized in Hinit. slots Hinit.
  do 12 eexists. split_and!; [done..| | |].
  - unfold Pairwise.train_dataloader.
    repeat match goal with Heq : _ self = Some _ |- _ => rewrite Heq; clear Heq end.
    by destruct (Pairwise.trainer self).
  - unfold Pairwise.val_dataloader.
    by repeat match goal with Heq : _ self = Some _ |- _ => rewrite Heq; clear Heq end.
  - unfold Pairwise.test_dataloader.
    by repeat match goal with Heq : _ self = Some _ |- _ => rewrite Heq; clear Heq end.
Qed.

End pairwise.

(** C9. [PairwiseDataModule] stores [eval_batch_size] at construction and
    never reads it: its validation and test loaders build their pair
    dataset with the training [batch_size] and with [random_seed=None],
    and pass [eval_loader_kwargs] to the loader where the training side
    passes [train_loader_kwargs]; changing [eval_batch_size] changes none
    of the three loaders. *)
Theorem pairwise_eval_batch_size_unused `{Collaborators}
    (p : Pairwise.PairwiseDataModule) (eval_batch_size' : Z) :
  Pairwise.initialized p = true →
  (∃ rows rn bs seed kw_train kw_eval train_pos train_neg valid_pos valid_neg
     test_pos test_neg,
     Pairwise.row_dict p = Some rows ∧ Pairwise.row_numericalizer p = Some rn
     ∧ Pairwise.batch_size p = Some bs ∧ Pairwise.random_seed p = Some seed
     ∧ Pairwise.train_loader_kwargs p = Some kw_train
     ∧ Pairwise.eval_loader_kwargs p = Some kw_eval
     ∧ Pairwise.train_pos_pair_set p = Some train_pos
     ∧ Pairwise.train_neg_pair_set p = Some train_neg
     ∧ Pairwise.valid_pos_pair_set p = Some valid_pos
     ∧ Pairwise.valid_neg_pair_set p = Some valid_neg
     ∧ Pairwise.test_pos_pair_set p = Some test_pos
     ∧ Pairwise.test_neg_pair_set p = Some test_neg
     ∧ Pairwise.train_dataloader p
       = Ok (DataLoader.new
               (PairDataset.new rows train_pos train_neg rn bs
                  (Some (match Pairwise.trainer p with
                         | Some t => seed + current_epoch t
                         | None => seed
                         end)))
               None false kw_train)
     ∧ Pairwise.val_dataloader p
       = Ok (DataLoader.new (PairDataset.new rows valid_pos valid_neg rn bs None)
               None false kw_eval)
     ∧ Pairwise.test_dataloader p
       = Ok (DataLoader.new (PairDataset.new rows test_pos test_neg rn bs None)
               None false kw_eval))
  ∧ Pairwise.train_dataloader (Pairwise.set_eval_batch_size eval_batch_size' p)
    = Pairwise.train_dataloader p
  ∧ Pairwise.val_dataloader (Pairwise.set_eval_batch_size eval_batch_size' p)
    = Pairwise.val_dataloader p
  ∧ Pairwise.test_dataloader (Pairwise.set_eval_batch_size eval_batch_size' p)
    = Pairwise.test_dataloader p
  ∧ (∀ self rows rn bs ebs tp vp sp tn vn sn tlk elk seed,
       ∃ self',
         Pairwise.__init__ self rows rn bs ebs tp vp sp tn vn sn tlk elk seed
         = (self', Ok ())
         ∧ Pairwise.initialized self' = true
         ∧ Pairwise.batch_size self' = Some bs
         ∧ Pairwise.eval_batch_size self' = Some ebs).
Proof.
  intros Hp. split_and!; try reflexivity.
  - by apply pairwise_dataloaders.
  - intros. eexists. by split_and!.
Qed.

Lemma pairwise_eval_batch_size_unused_witness :
  Pairwise.initialized demo_pairwise = true
  ∧ Pairwise.val_dataloader (Pairwise.set_eval_batch_size 1 demo_pairwise)
    = Pairwise.val_dataloader demo_pairwise.
Proof.
  split; [reflexivity|].
  exact (proj1 (proj2 (proj2
           (pairwise_eval_batch_size_unused demo_pairwise 1 eq_refl)))).
Defined.

(** The demo module has [batch_size=16] and [eval_batch_size=64]: its
    validation dataset is built with 16. *)
Example demo_pairwise_val_batch_size :
  PairDataset.batch_size <$>
    (DataLoader.dataset <$> option_of_result (Pairwise.val_dataloader demo_pairwise))
  = Some 16
  ∧ Pairwise.eval_batch_size demo_pairwise = Some 64.
Proof. split; reflexivity. Qed.

(** ** [setup] *)

Lemma heap_preserved_app (σ σ' : Store) (new : list PairSet) :
  heap σ' = heap σ ++ new → heap_preserved σ σ'.
Proof. intros Hh ref s Href. rewrite Hh. by apply lookup_app_l_Some. Qed.

Lemma rebound_first (σ σ' : Store) (s : PairSet) (rest : list PairSet) :
  heap σ' = heap σ ++ s :: rest →
  rebound σ σ' (Some (Some (length (heap σ)))) s.
Proof.
  intros Hh. exists (length (heap σ)). split_and!; [done| |].
  - apply lookup_snoc_fresh. exact 0%nat.
  - rewrite Hh. by apply list_lookup_middle.
Qed.

Lemma rebound_second (σ σ' : Store) (s0 s : PairSet) (rest : list PairSet) :
  heap σ' = heap σ ++ s0 :: s :: rest →
  rebound σ σ' (Some (Some (S (length (heap σ))))) s.
Proof.
  intros Hh. exists (S (length (heap σ))). split_and!; [done| |].
  - apply lookup_ge_None_2. lia.
  - rewrite Hh. rewrite (app_assoc _ [s0] (s :: rest)) by done.
    apply list_lookup_middle. rewrite length_app. simpl. lia.
Qed.

Section setup.
Context `{Collaborators}.

Lemma dedup_setup_fit (self : Dedup.DeduplicationDataModule) (σ : Store) cdt cdv :
  Dedup.cluster_dict_of (Dedup.train_row_dict self) "train_row_dict" self = Ok cdt →
  Dedup.cluster_dict_of (Dedup.valid_row_dict self) "valid_row_dict" self = Ok cdv →
  Dedup.setup (PStr "fit") self σ
  = (Dedup.set_valid_pos_pair_set (Some (S (length (heap σ))))
       (Dedup.set_train_pos_pair_set (Some (length (heap σ))) self),
     {| heap := heap σ ++ [cluster_dict_to_id_pairs cdt; cluster_dict_to_id_pairs cdv];
        log := log σ
               ++ [("Train positive pair count: %s"%string,
                    Z.of_nat (size (cluster_dict_to_id_pairs cdt)));
                   ("Valid positive pair count: %s"%string,
                    Z.of_nat (size (cluster_dict_to_id_pairs cdv)))] |},
     Ok ()).
Proof.
  intros Ht Hv. unfold Dedup.setup, Dedup._set_pair_sets.
  destruct (decide (PStr "fit" = PStr "fit")) as [_|?]; [|done].
  rewrite Ht, Hv. simpl.
  erewrite log_count_ok; last first.
  { simpl. rewrite lookup_app_l by (rewrite length_app; simpl; lia).
    apply lookup_snoc_new. }
  erewrite log_count_ok; last first.
  { simpl. rewrite length_app. simpl. rewrite Nat.add_1_r.
    apply list_lookup_middle. rewrite length_app. simpl. lia. }
  unfold logger_info. simpl.
  rewrite length_app, <- !app_assoc. simpl. by rewrite Nat.add_1_r.
Qed.

Lemma dedup_setup_test (self : Dedup.DeduplicationDataModule) (σ : Store) cds :
  Dedup.cluster_dict_of (Dedup.test_row_dict self) "test_row_dict" self = Ok cds →
  Dedup.setup (PStr "test") self σ
  = (Dedup.set_test_pos_pair_set (Some (length (heap σ))) self,
     {| heap := heap σ ++ [cluster_dict_to_id_pairs cds];
        log := log σ
               ++ [("Test positive pair count: %s"%string,
                    Z.of_nat (size (cluster_dict_to_id_pairs cds)))] |},
     Ok ()).
Proof.
  intros Hs. unfold Dedup.setup, Dedup._set_pair_sets.
  destruct (decide (PStr "test" = PStr "fit")) as [?|_]; [done|].
  destruct (decide (PStr "test" = PStr "test")) as [_|?]; [|done].
  rewrite Hs. simpl.
  erewrite log_count_ok by (simpl; apply lookup_snoc_new).
  reflexivity.
Qed.

(** A stage that fails leaves the object and the store as they were. *)
Lemma dedup_setup_fit_cases (self : Dedup.DeduplicationDataModule) (σ : Store) :
  (∃ cdt cdv,
     Dedup.cluster_dict_of (Dedup.train_row_dict self) "train_row_dict" self = Ok cdt
     ∧ Dedup.cluster_dict_of (Dedup.valid_row_dict self) "valid_row_dict" self = Ok cdv)
  ∨ (∃ e, Dedup.setup (PStr "fit") self σ = (self, σ, Raise e)).
Proof.
  destruct (Dedup.cluster_dict_of (Dedup.train_row_dict self) "train_row_dict" self)
    as [cdt|e] eqn:Ht;
  [destruct (Dedup.cluster_dict_of (Dedup.valid_row_dict self) "valid_row_dict" self)
     as [cdv|e] eqn:Hv|].
  - left. by exists cdt, cdv.
  - right. exists e. unfold Dedup.setup, Dedup._set_pair_sets.
    destruct (decide (PStr "fit" = PStr "fit")) as [_|?]; [|done].
    by rewrite Ht, Hv.
  - right. exists e. unfold Dedup.setup, Dedup._set_pair_sets.
    destruct (decide (PStr "fit" = PStr "fit")) as [_|?]; [|done].
    by rewrite Ht.
Qed.

Lemma dedup_setup_test_cases (self : Dedup.DeduplicationDataModule) (σ : Store) :
  (∃ cds,
     Dedup.cluster_dict_of (Dedup.test_row_dict self) "test_row_dict" self = Ok cds)
  ∨ (∃ e, Dedup.setup (PStr "test") self σ = (self, σ, Raise e)).
Proof.
  destruct (Dedup.cluster_dict_of (Dedup.test_row_dict self) "test_row_dict" self)
    as [cds|e] eqn:Hs.
  - left. by exists cds.
  - right. exists e. unfold Dedup.setup, Dedup._set_pair_sets.
    destruct (decide (PStr "test" = PStr "fit")) as [?|_]; [done|].
    destruct (decide (PStr "test" = PStr "test")) as [_|?]; [|done].
    by rewrite Hs.
Qed.

(** Any other stage, [None] included, does nothing. *)
Lemma dedup_setup_other (stage : PyVal) (self : Dedup.DeduplicationDataModule)
    (σ : Store) :
  stage ≠ PStr "fit" → stage ≠ PStr "test" →
  Dedup.setup stage self σ = (self, σ, Ok ()).
Proof.
  intros Hfit Htest. unfold Dedup.setup, Dedup._set_pair_sets.
  destruct (decide (stage = PStr "fit")); [done|].
  destruct (decide (stage = PStr "test")); done.
Qed.

Lemma linkage_setup_fit (self : Linkage.LinkageDataModule) (σ : Store)
    Lt Rt Lv Rv cdt cdv :
  Linkage.left_right_of (Linkage.train_row_dict self) "train_row_dict" self
  = Ok (Lt, Rt) →
  Linkage.left_right_of (Linkage.valid_row_dict self) "valid_row_dict" self
  = Ok (Lv, Rv) →
  Linkage.cluster_dict_of (Linkage.train_row_dict self) "train_row_dict" self = Ok cdt →
  Linkage.cluster_dict_of (Linkage.valid_row_dict self) "valid_row_dict" self = Ok cdv →
  Linkage.setup (PStr "fit") self σ
  = (Linkage.set_valid_pos_pair_set (Some (S (length (heap σ))))
       (Linkage.set_train_pos_pair_set (Some (length (heap σ))) self),
     {| heap := heap σ ++ [cluster_dict_to_id_pairs_lr cdt Lt Rt;
                           cluster_dict_to_id_pairs_lr cdv Lv Rv];
        log := log σ
               ++ [("Train positive pair count: %s"%string,
                    Z.of_nat (size (cluster_dict_to_id_pairs_lr cdt Lt Rt)));
                   ("Valid positive pair count: %s"%string,
                    Z.of_nat (size (cluster_dict_to_id_pairs_lr cdv Lv Rv)))] |},
     Ok ()).
Proof.
  intros Hlt Hlv Ht Hv. unfold Linkage.setup, Linkage._set_pair_sets.
  destruct (decide (PStr "fit" = PStr "fit")) as [_|?]; [|done].
  rewrite Hlt, Hlv, Ht, Hv. simpl.
  erewrite log_count_ok; last first.
  { simpl. rewrite lookup_app_l by (rewrite length_app; simpl; lia).
    apply lookup_snoc_new. }
  erewrite log_count_ok; last first.
  { simpl. rewrite length_app. simpl. rewrite Nat.add_1_r.
    apply list_lookup_middle. rewrite length_app. simpl. lia. }
  unfold logger_info. simpl.
  rewrite length_app, <- !app_assoc. simpl. by rewrite Nat.add_1_r.
Qed.

Lemma linkage_setup_test (self : Linkage.LinkageDataModule) (σ : Store) Ls Rs cds :
  Linkage.left_right_of (Linkage.test_row_dict self) "test_row_dict" self
  = Ok (Ls, Rs) →
  Linkage.cluster_dict_of (Linkage.test_row_dict self) "test_row_dict" self = Ok cds →
  Linkage.setup (PStr "test") self σ
  = (Linkage.set_test_pos_pair_set (Some (length (heap σ))) self,
     {| heap := heap σ ++ [cluster_dict_to_id_pairs_lr cds Ls Rs];
        log := log σ
               ++ [("Test positive pair count: %s"%string,
                    Z.of_nat (size (cluster_dict_to_id_pairs_lr cds Ls Rs)))] |},
     Ok ()).
Proof.
  intros Hls Hs. unfold Linkage.setup, Linkage._set_pair_sets.
  destruct (decide (PStr "test" = PStr "fit")) as [?|_]; [done|].
  destruct (decide (PStr "test" = PStr "test")) as [_|?]; [|done].
  rewrite Hls, Hs. simpl.
  erewrite log_count_ok by (simpl; apply lookup_snoc_new).
  reflexivity.
Qed.

Lemma linkage_setup_other (stage : PyVal) (self : Linkage.LinkageDataModule)
    (σ : Store) :
  stage ≠ PStr "fit" → stage ≠ PStr "test" →
  Linkage.setup stage self σ = (self, σ, Ok ()).
Proof.
  intros Hfit Htest. unfold Linkage.setup, Linkage._set_pair_sets.
  destruct (decide (stage = PStr "fit")); [done|].
  destruct (decide (stage = PStr "test")); done.
Qed.

End setup.

(** C6. On a [DeduplicationDataModule] or a [LinkageDataModule] whose
    helper calls succeed, [setup("fit")] binds [train_pos_pair_set] and
    [valid_pos_pair_set] to new set objects holding the pairs of the train
    and validation row dicts and leaves [test_pos_pair_set] as it was;
    [setup("test")] binds [test_pos_pair_set] to a new set object and
    leaves the other two as they were; no set object that existed before
    the call is changed, also when the stage is entered a second time. *)
Theorem setup_replaces_stage_pair_sets `{Collaborators}
    (d : Dedup.DeduplicationDataModule) (l : Linkage.LinkageDataModule) (σ : Store)
    (cdt cdv cds : ClusterDict)
    (Lt Rt Lv Rv Ls Rs : gset Z) (lcdt lcdv lcds : ClusterDict) :
  Dedup.cluster_dict_of (Dedup.train_row_dict d) "train_row_dict" d = Ok cdt →
  Dedup.cluster_dict_of (Dedup.valid_row_dict d) "valid_row_dict" d = Ok cdv →
  Dedup.cluster_dict_of (Dedup.test_row_dict d) "test_row_dict" d = Ok cds →
  Linkage.left_right_of (Linkage.train_row_dict l) "train_row_dict" l = Ok (Lt, Rt) →
  Linkage.left_right_of (Linkage.valid_row_dict l) "valid_row_dict" l = Ok (Lv, Rv) →
  Linkage.left_right_of (Linkage.test_row_dict l) "test_row_dict" l = Ok (Ls, Rs) →
  Linkage.cluster_dict_of (Linkage.train_row_dict l) "train_row_dict" l = Ok lcdt →
  Linkage.cluster_dict_of (Linkage.valid_row_dict l) "valid_row_dict" l = Ok lcdv →
  Linkage.cluster_dict_of (Linkage.test_row_dict l) "test_row_dict" l = Ok lcds →
  (∃ d1 σ1 d2 σ2,
     Dedup.setup (PStr "fit") d σ = (d1, σ1, Ok ())
     ∧ rebound σ σ1 (Dedup.train_pos_pair_set d1) (cluster_dict_to_id_pairs cdt)
     ∧ rebound σ σ1 (Dedup.valid_pos_pair_set d1) (cluster_dict_to_id_pairs cdv)
     ∧ Dedup.test_pos_pair_set d1 = Dedup.test_pos_pair_set d
     ∧ heap_preserved σ σ1
     ∧ Dedup.setup (PStr "fit") d1 σ1 = (d2, σ2, Ok ())
     ∧ rebound σ1 σ2 (Dedup.train_pos_pair_set d2) (cluster_dict_to_id_pairs cdt)
     ∧ rebound σ1 σ2 (Dedup.valid_pos_pair_set d2) (cluster_dict_to_id_pairs cdv)
     ∧ Dedup.train_pos_pair_set d2 ≠ Dedup.train_pos_pair_set d1
     ∧ Dedup.valid_pos_pair_set d2 ≠ Dedup.valid_pos_pair_set d1
     ∧ Dedup.test_pos_pair_set d2 = Dedup.test_pos_pair_set d
     ∧ heap_preserved σ1 σ2)
  ∧ (∃ d1 σ1 d2 σ2,
       Dedup.setup (PStr "test") d σ = (d1, σ1, Ok ())
       ∧ rebound σ σ1 (Dedup.test_pos_pair_set d1) (cluster_dict_to_id_pairs cds)
       ∧ Dedup.train_pos_pair_set d1 = Dedup.train_pos_pair_set d
       ∧ Dedup.valid_pos_pair_set d1 = Dedup.valid_pos_pair_set d
       ∧ heap_preserved σ σ1
       ∧ Dedup.setup (PStr "test") d1 σ1 = (d2, σ2, Ok ())
       ∧ rebound σ1 σ2 (Dedup.test_pos_pair_set d2) (cluster_dict_to_id_pairs cds)
       ∧ Dedup.test_pos_pair_set d2 ≠ Dedup.test_pos_pair_set d1
       ∧ Dedup.train_pos_pair_set d2 = Dedup.train_pos_pair_set d
       ∧ Dedup.valid_pos_pair_set d2 = Dedup.valid_pos_pair_set d
       ∧ heap_preserved σ1 σ2)
  ∧ (∃ l1 σ1 l2 σ2,
       Linkage.setup (PStr "fit") l σ = (l1, σ1, Ok ())
       ∧ rebound σ σ1 (Linkage.train_pos_pair_set l1)
           (cluster_dict_to_id_pairs_lr lcdt Lt Rt)
       ∧ rebound σ σ1 (Linkage.valid_pos_pair_set l1)
           (cluster_dict_to_id_pairs_lr lcdv Lv Rv)
       ∧ Linkage.test_pos_pair_set l1 = Linkage.test_pos_pair_set l
       ∧ heap_preserved σ σ1
       ∧ Linkage.setup (PStr "fit") l1 σ1 = (l2, σ2, Ok ())
       ∧ rebound σ1 σ2 (Linkage.train_pos_pair_set l2)
           (cluster_dict_to_id_pairs_lr lcdt Lt Rt)
       ∧ rebound σ1 σ2 (Linkage.valid_pos_pair_set l2)
           (cluster_dict_to_id_pairs_lr lcdv Lv Rv)
       ∧ Linkage.train_pos_pair_set l2 ≠ Linkage.train_pos_pair_set l1
       ∧ Linkage.valid_pos_pair_set l2 ≠ Linkage.valid_pos_pair_set l1
       ∧ Linkage.test_pos_pair_set l2 = Linkage.test_pos_pair_set l
       ∧ heap_preserved σ1 σ2)
  ∧ (∃ l1 σ1 l2 σ2,
       Linkage.setup (PStr "test") l σ = (l1, σ1, Ok ())
       ∧ rebound σ σ1 (Linkage.test_pos_pair_set l1)
           (cluster_dict_to_id_pairs_lr lcds Ls Rs)
       ∧ Linkage.train_pos_pair_set l1 = Linkage.train_pos_pair_set l
       ∧ Linkage.valid_pos_pair_set l1 = Linkage.valid_pos_pair_set l
       ∧ heap_preserved σ σ1
       ∧ Linkage.setup (PStr "test") l1 σ1 = (l2, σ2, Ok ())
       ∧ rebound σ1 σ2 (Linkage.test_pos_pair_set l2)
           (cluster_dict_to_id_pairs_lr lcds Ls Rs)
       ∧ Linkage.test_pos_pair_set l2 ≠ Linkage.test_pos_pair_set l1
       ∧ Linkage.train_pos_pair_set l2 = Linkage.train_pos_pair_set l
       ∧ Linkage.valid_pos_pair_set l2 = Linkage.valid_pos_pair_set l
       ∧ heap_preserved σ1 σ2).
Proof.
  intros Hdt Hdv Hds Hlt Hlv Hls Hct Hcv Hcs.
  split_and!.
  - do 4 eexists.
    split; [by apply dedup_setup_fit|].
    split; [by eapply rebound_first|].
    split; [by eapply rebound_second|].
    split; [done|].
    split; [by eapply heap_preserved_app|].
    split; [by apply dedup_setup_fit|].
    split; [by eapply rebound_first|].
    split; [by eapply rebound_second|].
    simpl. rewrite length_app. simpl.
    split_and!; [intros [=]; lia|intros [=]; lia|done|by eapply heap_preserved_app].
  - do 4 eexists.
    split; [by apply dedup_setup_test|].
    split; [by eapply rebound_first|].
    split; [done|]. split; [done|].
    split; [by eapply heap_preserved_app|].
    split; [by apply dedup_setup_test|].
    split; [by eapply rebound_first|].
    simpl. rewrite length_app. simpl.
    split_and!; [intros [=]; lia|done|done|by eapply heap_preserved_app].
  - do 4 eexists.
    split; [by apply linkage_setup_fit|].
    split; [by eapply rebound_first|].
    split; [by eapply rebound_second|].
    split; [done|].
    split; [by eapply heap_preserved_app|].
    split; [by apply linkage_setup_fit|].
    split; [by eapply rebound_first|].
    split; [by eapply rebound_second|].
    simpl. rewrite length_app. simpl.
    split_and!; [intros [=]; lia|intros [=]; lia|done|by eapply heap_preserved_app].
  - do 4 eexists.
    split; [by apply linkage_setup_test|].
    split; [by eapply rebound_first|].
    split; [done|]. split; [done|].
    split; [by eapply heap_preserved_app|].
    split; [by apply linkage_setup_test|].
    split; [by eapply rebound_first|].
    simpl. rewrite length_app. simpl.
    split_and!; [intros [=]; lia|done|done|by eapply heap_preserved_app].
Qed.

Lemma setup_replaces_stage_pair_sets_witness :
  Dedup.cluster_dict_of (Dedup.train_row_dict demo_dedup) "train_row_dict" demo_dedup
  = Ok (demo_clusters demo_train)
  ∧ Linkage.left_right_of (Linkage.test_row_dict demo_linkage) "test_row_dict"
      demo_linkage
    = Ok (demo_sides demo_test)
  ∧ ∃ d1 σ1,
      Dedup.setup (PStr "fit") demo_dedup empty_store = (d1, σ1, Ok ())
      ∧ Dedup.test_pos_pair_set d1 = Dedup.test_pos_pair_set demo_dedup
      ∧ heap_preserved empty_store σ1.
Proof.
  split; [vm_compute; reflexivity|]. split; [vm_compute; reflexivity|].
  destruct (setup_replaces_stage_pair_sets demo_dedup demo_linkage empty_store
              (demo_clusters demo_train) (demo_clusters demo_valid)
              (demo_clusters demo_test)
              (demo_sides demo_train).1 (demo_sides demo_train).2
              (demo_sides demo_valid).1 (demo_sides demo_valid).2
              (demo_sides demo_test).1 (demo_sides demo_test).2
              (demo_clusters demo_train) (demo_clusters demo_valid)
              (demo_clusters demo_test))
    as [(d1 & σ1 & _ & _ & Hfit & _ & _ & Htest & Hheap & _) _];
    try (vm_compute; reflexivity).
  by exists d1, σ1.
Defined.

(** Two rounds of [setup("fit")] and one of [setup("test")] on the demo
    module: five set objects, the first two no longer referred to and
    still holding what they held. *)
Example demo_setup_twice :
  let '(d1, σ1, _) := Dedup.setup (PStr "fit") demo_dedup empty_store in
  let '(d2, σ2, _) := Dedup.setup (PStr "fit") d1 σ1 in
  let '(d3, σ3, r) := Dedup.setup (PStr "test") d2 σ2 in
  r = Ok ()
  ∧ heap σ3 = [ {[ (1, 3); (2, 4) ]}; {[ (5, 6) ]};
                {[ (1, 3); (2, 4) ]}; {[ (5, 6) ]}; {[ (7, 8) ]} ]
  ∧ Dedup.train_pos_pair_set d1 = Some (Some 0%nat)
  ∧ Dedup.train_pos_pair_set d3 = Some (Some 2%nat)
  ∧ Dedup.valid_pos_pair_set d3 = Some (Some 3%nat)
  ∧ Dedup.test_pos_pair_set d3 = Some (Some 4%nat)
  ∧ log σ3 = [ ("Train positive pair count: %s"%string, 2);
               ("Valid positive pair count: %s"%string, 1);
               ("Train positive pair count: %s"%string, 2);
               ("Valid positive pair count: %s"%string, 1);
               ("Test positive pair count: %s"%string, 1) ].
Proof. vm_compute. repeat split; reflexivity. Qed.

(** ** Positive pairs *)

Lemma upair_fst_snd (a b : Z) :
  ((upair a b).1 = a ∧ (upair a b).2 = b) ∨ ((upair a b).1 = b ∧ (upair a b).2 = a).
Proof. unfold upair. simpl. lia. Qed.

Lemma cluster_pairs_size (c : gset Z) :
  size (cluster_pairs c) = (size c * (size c - 1) / 2)%nat.
Proof.
  pose proof (size_cluster_pairs c) as Hsize.
  rewrite <- Hsize, Nat.mul_comm. by rewrite Nat.div_mul.
Qed.

Lemma cluster_pairs_singleton (c : gset Z) : size c = 1%nat → cluster_pairs c = ∅.
Proof.
  intros Hc. apply leibniz_equiv, size_empty_inv.
  rewrite cluster_pairs_size, Hc. reflexivity.
Qed.

(** Both endpoints of a positive pair lie in one cluster, and differ. *)
Lemma cluster_dict_to_id_pairs_endpoints (cluster_dict : ClusterDict) (p : Z * Z) :
  p ∈ cluster_dict_to_id_pairs cluster_dict →
  ∃ c, c ∈ clusters cluster_dict ∧ p.1 ∈ c ∧ p.2 ∈ c ∧ p.1 ≠ p.2.
Proof.
  intros (c & Hc & (a & b & Ha & Hb & Hab & ->)%elem_of_cluster_pairs)
    %elem_of_cluster_dict_to_id_pairs.
  exists c. split; [done|].
  destruct (upair_fst_snd a b) as [[-> ->]|[-> ->]]; by split_and!.
Qed.

(** With disjoint sides, a cross pair has one endpoint on each side. *)
Lemma cluster_dict_to_id_pairs_lr_sides
    (cluster_dict : ClusterDict) (L R : gset Z) (p : Z * Z) :
  L ## R →
  p ∈ cluster_dict_to_id_pairs_lr cluster_dict L R →
  ∃ c, c ∈ clusters cluster_dict ∧ p.1 ∈ c ∧ p.2 ∈ c
       ∧ ((p.1 ∈ L ∧ (p.1 ∉ R) ∧ p.2 ∈ R ∧ (p.2 ∉ L))
          ∨ (p.1 ∈ R ∧ (p.1 ∉ L) ∧ p.2 ∈ L ∧ (p.2 ∉ R))).
Proof.
  intros Hdisj (c & Hc & (l & r & Hl & Hr & ->)%elem_of_cluster_cross_pairs)
    %elem_of_cluster_dict_to_id_pairs_lr.
  exists c. split; [done|].
  destruct (upair_fst_snd l r) as [[-> ->]|[-> ->]]; set_solver.
Qed.

Lemma cluster_cross_pairs_one_side (L R c : gset Z) :
  L ## R → c ⊆ L ∨ c ⊆ R → cluster_cross_pairs L R c = ∅.
Proof.
  intros Hdisj Hside. apply leibniz_equiv, elem_of_equiv_empty. intros p.
  rewrite elem_of_cluster_cross_pairs. intros (l & r & Hl & Hr & _). set_solver.
Qed.

Section sides.
Context `{Collaborators}.

Lemma linkage_left_right_disjoint (self : Linkage.LinkageDataModule)
    (slot : option RowDict) (name : string) (L R : gset Z) :
  unique_keys slot = true →
  Linkage.left_right_of slot name self = Ok (L, R) → L ## R.
Proof.
  intros Huniq. unfold Linkage.left_right_of.
  destruct slot as [rows|]; [|done]. simpl in *.
  apply bool_decide_eq_true_1 in Huniq.
  destruct (Linkage.source_attr self) as [attr|]; [|done]. simpl.
  destruct (Linkage.left_source self) as [left|]; [|done]. simpl.
  intros Hlr. by eapply left_right_partition.
Qed.

End sides.

(** C3. In deduplication mode [setup] stores, for each stage, the union
    over the clusters of the stage's cluster dict of the unordered
    2-combinations of the cluster's members. A cluster with n members
    contributes n(n-1)/2 pairs, none for n = 1; the two endpoints of a
    pair lie in one cluster and are different ids. *)
Theorem dedup_positive_pairs `{Collaborators}
    (d : Dedup.DeduplicationDataModule) (σ : Store) (cdt cdv cds : ClusterDict) :
  Dedup.cluster_dict_of (Dedup.train_row_dict d) "train_row_dict" d = Ok cdt →
  Dedup.cluster_dict_of (Dedup.valid_row_dict d) "valid_row_dict" d = Ok cdv →
  Dedup.cluster_dict_of (Dedup.test_row_dict d) "test_row_dict" d = Ok cds →
  (∃ d' σ',
     Dedup.setup (PStr "fit") d σ = (d', σ', Ok ())
     ∧ rebound σ σ' (Dedup.train_pos_pair_set d') (⋃ (cluster_pairs <$> clusters cdt))
     ∧ rebound σ σ' (Dedup.valid_pos_pair_set d') (⋃ (cluster_pairs <$> clusters cdv)))
  ∧ (∃ d' σ',
       Dedup.setup (PStr "test") d σ = (d', σ', Ok ())
       ∧ rebound σ σ' (Dedup.test_pos_pair_set d') (⋃ (cluster_pairs <$> clusters cds)))
  ∧ (∀ c : gset Z,
       size (cluster_pairs c) = (size c * (size c - 1) / 2)%nat
       ∧ (size c = 1%nat → cluster_pairs c = ∅)
       ∧ (∀ p, p ∈ cluster_pairs c ↔ ∃ a b, a ∈ c ∧ b ∈ c ∧ a ≠ b ∧ p = upair a b))
  ∧ (∀ (cluster_dict : ClusterDict) p,
       p ∈ ⋃ (cluster_pairs <$> clusters cluster_dict) →
       ∃ c, c ∈ clusters cluster_dict ∧ p.1 ∈ c ∧ p.2 ∈ c ∧ p.1 ≠ p.2).
Proof.
  intros Ht Hv Hs. split_and!.
  - do 2 eexists. split; [by apply dedup_setup_fit|].
    split; [by eapply rebound_first|by eapply rebound_second].
  - do 2 eexists. split; [by apply dedup_setup_test|]. by eapply rebound_first.
  - intros c. split_and!.
    + apply cluster_pairs_size.
    + apply cluster_pairs_singleton.
    + apply elem_of_cluster_pairs.
  - apply cluster_dict_to_id_pairs_endpoints.
Qed.

Lemma dedup_positive_pairs_witness :
  Dedup.cluster_dict_of (Dedup.train_row_dict demo_dedup) "train_row_dict" demo_dedup
  = Ok (demo_clusters demo_train)
  ∧ ∃ d' σ',
      Dedup.setup (PStr "test") demo_dedup empty_store = (d', σ', Ok ())
      ∧ rebound empty_store σ' (Dedup.test_pos_pair_set d')
          (⋃ (cluster_pairs <$> clusters (demo_clusters demo_test))).
Proof.
  split; [vm_compute; reflexivity|].
  refine (proj1 (proj2 (dedup_positive_pairs demo_dedup empty_store
                          (demo_clusters demo_train) (demo_clusters demo_valid)
                          (demo_clusters demo_test) _ _ _)));
    vm_compute; reflexivity.
Defined.

(** C2. In linkage mode [setup] stores, for each stage, the union over
    the clusters of the stage's cluster dict of the pairs (l, r) with l in
    cluster ∩ left and r in cluster ∩ right. The two sides computed from a
    row dict are disjoint, so every pair has one endpoint on each side and
    none has both on one side; a cluster that lies on one side contributes
    no pair. *)
Theorem linkage_positive_pairs `{Collaborators}
    (l : Linkage.LinkageDataModule) (σ : Store)
    (Lt Rt Lv Rv Ls Rs : gset Z) (cdt cdv cds : ClusterDict) :
  unique_keys (Linkage.train_row_dict l) = true →
  unique_keys (Linkage.valid_row_dict l) = true →
  unique_keys (Linkage.test_row_dict l) = true →
  Linkage.left_right_of (Linkage.train_row_dict l) "train_row_dict" l = Ok (Lt, Rt) →
  Linkage.left_right_of (Linkage.valid_row_dict l) "valid_row_dict" l = Ok (Lv, Rv) →
  Linkage.left_right_of (Linkage.test_row_dict l) "test_row_dict" l = Ok (Ls, Rs) →
  Linkage.cluster_dict_of (Linkage.train_row_dict l) "train_row_dict" l = Ok cdt →
  Linkage.cluster_dict_of (Linkage.valid_row_dict l) "valid_row_dict" l = Ok cdv →
  Linkage.cluster_dict_of (Linkage.test_row_dict l) "test_row_dict" l = Ok cds →
  (∃ l' σ',
     Linkage.setup (PStr "fit") l σ = (l', σ', Ok ())
     ∧ rebound σ σ' (Linkage.train_pos_pair_set l')
         (⋃ (cluster_cross_pairs Lt Rt <$> clusters cdt))
     ∧ rebound σ σ' (Linkage.valid_pos_pair_set l')
         (⋃ (cluster_cross_pairs Lv Rv <$> clusters cdv)))
  ∧ (∃ l' σ',
       Linkage.setup (PStr "test") l σ = (l', σ', Ok ())
       ∧ rebound σ σ' (Linkage.test_pos_pair_set l')
           (⋃ (cluster_cross_pairs Ls Rs <$> clusters cds)))
  ∧ (∀ L R cluster_dict,
       (L, R, cluster_dict) ∈ [(Lt, Rt, cdt); (Lv, Rv, cdv); (Ls, Rs, cds)] →
       L ## R
       ∧ (∀ c p, p ∈ cluster_cross_pairs L R c ↔
                 ∃ l r, l ∈ c ∩ L ∧ r ∈ c ∩ R ∧ p = upair l r)
       ∧ (∀ p, p ∈ ⋃ (cluster_cross_pairs L R <$> clusters cluster_dict) →
               ∃ c, c ∈ clusters cluster_dict ∧ p.1 ∈ c ∧ p.2 ∈ c
                    ∧ ((p.1 ∈ L ∧ (p.1 ∉ R) ∧ p.2 ∈ R ∧ (p.2 ∉ L))
                       ∨ (p.1 ∈ R ∧ (p.1 ∉ L) ∧ p.2 ∈ L ∧ (p.2 ∉ R))))
       ∧ (∀ p, p ∈ ⋃ (cluster_cross_pairs L R <$> clusters cluster_dict) →
               ¬ (p.1 ∈ L ∧ p.2 ∈ L) ∧ ¬ (p.1 ∈ R ∧ p.2 ∈ R))
       ∧ (∀ c, c ⊆ L ∨ c ⊆ R → cluster_cross_pairs L R c = ∅)).
Proof.
  intros Hut Huv Hus Hlt Hlv Hls Ht Hv Hs. split_and!.
  - do 2 eexists. split; [by apply linkage_setup_fit|].
    split; [by eapply rebound_first|by eapply rebound_second].
  - do 2 eexists. split; [by apply linkage_setup_test|]. by eapply rebound_first.
  - intros L R cd Hin.
    assert (L ## R) as Hdisj.
    { rewrite !elem_of_cons, elem_of_nil in Hin.
      destruct Hin as [?|[?|[?|[]]]]; simplify_eq;
        (eapply linkage_left_right_disjoint; [|eassumption]; assumption). }
    split_and!.
    + done.
    + intros c p. apply elem_of_cluster_cross_pairs.
    + intros p. by apply cluster_dict_to_id_pairs_lr_sides.
    + intros p (c & _ & _ & _ & Hsides)%cluster_dict_to_id_pairs_lr_sides; [|done].
      tauto.
    + intros c Hside. by apply cluster_cross_pairs_one_side.
Qed.

Lemma linkage_positive_pairs_witness :
  unique_keys (Linkage.test_row_dict demo_linkage) = true
  ∧ Linkage.left_right_of (Linkage.test_row_dict demo_linkage) "test_row_dict"
      demo_linkage
    = Ok (demo_sides demo_test)
  ∧ ∃ l' σ',
      Linkage.setup (PStr "test") demo_linkage empty_store = (l', σ', Ok ())
      ∧ rebound empty_store σ' (Linkage.test_pos_pair_set l')
          (⋃ (cluster_cross_pairs (demo_sides demo_test).1 (demo_sides demo_test).2
                <$> clusters (demo_clusters demo_test))).
Proof.
  split; [vm_compute; reflexivity|]. split; [vm_compute; reflexivity|].
  refine (proj1 (proj2 (linkage_positive_pairs demo_linkage empty_store
                          (demo_sides demo_train).1 (demo_sides demo_train).2
                          (demo_sides demo_valid).1 (demo_sides demo_valid).2
                          (demo_sides demo_test).1 (demo_sides demo_test).2
                          (demo_clusters demo_train) (demo_clusters demo_valid)
                          (demo_clusters demo_test) _ _ _ _ _ _ _ _ _)));
    vm_compute; reflexivity.
Defined.

(** The demo linkage module: every cluster has one row on each side, but
    for cluster 50 of the test split, which lies on the right. *)
Example demo_linkage_setup :
  let '(l1, σ1, _) := Linkage.setup (PStr "fit") demo_linkage empty_store in
  let '(l2, σ2, r) := Linkage.setup (PStr "test") l1 σ1 in
  r = Ok ()
  ∧ heap σ2 = [ {[ (1, 3); (2, 4) ]}; {[ (5, 6) ]}; {[ (7, 8) ]} ]
  ∧ demo_sides demo_test = ({[ 7 ]}, {[ 8; 9 ]}).
Proof. vm_compute. repeat split; reflexivity. Qed.

(** ** The mode check *)

Section mode_check.
Context `{Collaborators}.

Lemma is_record_linkage_cases (kwargs : gmap string PyVal) :
  Cli._is_record_linkage kwargs
  = if bool_decide (truthy (dict_get kwargs "left_source")
                    = truthy (dict_get kwargs "source_attr"))
    then Ok (truthy (dict_get kwargs "left_source"))
    else Raise (KeyError Cli.mode_check_message).
Proof.
  unfold Cli._is_record_linkage.
  by destruct (truthy (dict_get kwargs "left_source")),
              (truthy (dict_get kwargs "source_attr")).
Qed.

Lemma dict_item_get (kwargs : gmap string PyVal) (k : string) :
  truthy (dict_get kwargs k) = true → dict_item kwargs k = Ok (dict_get kwargs k).
Proof.
  unfold dict_get, dict_item. by destruct (kwargs !! k).
Qed.

Lemma dict_item_Some (kwargs : gmap string PyVal) (k : string) (v : PyVal) :
  kwargs !! k = Some v → dict_item kwargs k = Ok v.
Proof. unfold dict_item. by intros ->. Qed.

(** A mode check that raises ends the builder before its log line and
    before the constructor call. *)
Lemma build_datamodule_mode_error train valid test rn (kwargs : gmap string PyVal) :
  truthy (dict_get kwargs "left_source") ≠ truthy (dict_get kwargs "source_attr") →
  ∃ e, Cli._build_datamodule train valid test rn kwargs = ([], Raise e)
       ∧ (is_Some (kwargs !! "cluster_attr") → is_Some (kwargs !! "batch_size") →
          is_Some (kwargs !! "eval_batch_size") →
          e = KeyError Cli.mode_check_message).
Proof.
  intros Hne. unfold Cli._build_datamodule, Cli.datamodule_call.
  rewrite is_record_linkage_cases, bool_decide_eq_false_2 by done.
  unfold dict_item.
  destruct (kwargs !! "cluster_attr") as [ca|]; simpl;
    [|eexists; split; [done|]; by intros [? [=]]].
  destruct (kwargs !! "batch_size") as [bs|]; simpl;
    [|eexists; split; [done|]; by intros _ [? [=]]].
  destruct (kwargs !! "eval_batch_size") as [ebs|]; simpl;
    [|eexists; split; [done|]; by intros _ _ [? [=]]].
  by eexists.
Qed.

(** With all the keys it reads present, the builder gets as far as the
    constructor call, of the class that the mode check selects. *)
Lemma build_datamodule_call train valid test rn (kwargs : gmap string PyVal) :
  truthy (dict_get kwargs "left_source") = truthy (dict_get kwargs "source_attr") →
  is_Some (kwargs !! "cluster_attr") → is_Some (kwargs !! "batch_size") →
  is_Some (kwargs !! "eval_batch_size") → is_Some (kwargs !! "num_workers") →
  is_Some (kwargs !! "multiprocessing_context") →
  ∃ args,
    Cli._build_datamodule train valid test rn kwargs
    = ([Cli.LogInfo "Building datamodule...";
        Cli.Construct
          (if truthy (dict_get kwargs "left_source")
           then Cli.LinkageDataModule else Cli.DeduplicationDataModule) args],
       Cli.construct
         (if truthy (dict_get kwargs "left_source")
          then Cli.LinkageDataModule else Cli.DeduplicationDataModule) args)
    ∧ args !! "source_attr"
      = (if truthy (dict_get kwargs "left_source")
         then Some (Cli.AVal (dict_get kwargs "source_attr")) else None)
    ∧ args !! "left_source"
      = (if truthy (dict_get kwargs "left_source")
         then Some (Cli.AVal (dict_get kwargs "left_source")) else None).
Proof.
  intros Heq [ca Hca] [bs Hbs] [ebs Hebs] [nw Hnw] [mc Hmc].
  unfold Cli._build_datamodule, Cli.datamodule_call.
  rewrite is_record_linkage_cases, bool_decide_eq_true_2 by done.
  rewrite (dict_item_Some _ _ _ Hca), (dict_item_Some _ _ _ Hbs),
    (dict_item_Some _ _ _ Hebs). simpl.
  destruct (truthy (dict_get kwargs "left_source")) eqn:Hleft; simpl.
  - rewrite (dict_item_get kwargs "source_attr"), (dict_item_get kwargs "left_source")
      by congruence.
    simpl.
    rewrite (dict_item_Some _ _ _ Hnw), (dict_item_Some _ _ _ Hmc).
    destruct (truthy (dict_get kwargs "num_workers")
              || truthy (dict_get kwargs "multiprocessing_context")); simpl;
      destruct (truthy (dict_get kwargs "random_seed")); simpl;
      eexists; (split; [reflexivity|]); by simplify_map_eq.
  - rewrite (dict_item_Some _ _ _ Hnw), (dict_item_Some _ _ _ Hmc).
    destruct (truthy (dict_get kwargs "num_workers")
              || truthy (dict_get kwargs "multiprocessing_context")); simpl;
      destruct (truthy (dict_get kwargs "random_seed")); simpl;
      eexists; (split; [reflexivity|]); by simplify_map_eq.
Qed.

Lemma build_datamodule_reaches_call train valid test rn (kwargs : gmap string PyVal) :
  truthy (dict_get kwargs "left_source") = truthy (dict_get kwargs "source_attr") →
  reads_present kwargs = true →
  ∃ args,
    Cli._build_datamodule train valid test rn kwargs
    = ([Cli.LogInfo "Building datamodule...";
        Cli.Construct
          (if truthy (dict_get kwargs "left_source")
           then Cli.LinkageDataModule else Cli.DeduplicationDataModule) args],
       Cli.construct
         (if truthy (dict_get kwargs "left_source")
          then Cli.LinkageDataModule else Cli.DeduplicationDataModule) args).
Proof.
  intros Heq Hkeys. unfold reads_present in Hkeys. simpl in Hkeys.
  repeat (apply andb_prop in Hkeys as [?%bool_decide_eq_true_1 Hkeys]).
  destruct (build_datamodule_call train valid test rn kwargs) as (args & Hcall & _);
    [done..|]. by exists args.
Qed.

End mode_check.

Section mode_selection.
Context `{Collaborators}.

(** The class that the builder chooses is the one the mode check names. *)
Lemma datamodule_call_cls train valid test rn (kwargs : gmap string PyVal) cls args :
  Cli.datamodule_call train valid test rn kwargs = Ok (cls, args) →
  ∃ b, Cli._is_record_linkage kwargs = Ok b
       ∧ cls = if b then Cli.LinkageDataModule else Cli.DeduplicationDataModule.
Proof.
  unfold Cli.datamodule_call.
  destruct (dict_item kwargs "cluster_attr") as [ca|]; [simpl|done].
  destruct (dict_item kwargs "batch_size") as [bs|]; [simpl|done].
  destruct (dict_item kwargs "eval_batch_size") as [ebs|]; [simpl|done].
  destruct (Cli._is_record_linkage kwargs) as [b|]; [simpl|done].
  intros Hcall. exists b. split; [done|]. destruct b.
  - destruct (dict_item kwargs "source_attr") as [sa|]; [simpl in Hcall|done].
    destruct (dict_item kwargs "left_source") as [ls|]; [simpl in Hcall|done].
    destruct (if truthy (dict_get kwargs "num_workers")
                 || truthy (dict_get kwargs "multiprocessing_context")
              then _ else _) as [args'|]; [simpl in Hcall|done].
    by injection Hcall as <- _.
  - simpl in Hcall.
    destruct (if truthy (dict_get kwargs "num_workers")
                 || truthy (dict_get kwargs "multiprocessing_context")
              then _ else _) as [args'|]; [simpl in Hcall|done].
    by injection Hcall as <- _.
Qed.

Lemma construct_cls (cls : Cli.DataModuleCls) (args : gmap string Cli.Arg)
    (dm : Cli.DataModule) :
  Cli.construct cls args = Ok dm →
  match cls, dm with
  | Cli.LinkageDataModule, Cli.LinkageDM _ => True
  | Cli.DeduplicationDataModule, Cli.DedupDM _ => True
  | _, _ => False
  end.
Proof.
  unfold Cli.construct.
  repeat match goal with
    | |- context [mbind _ (?f args ?k)] => destruct (f args k); [simpl|done]
    end.
  destruct cls.
  - repeat match goal with
      | |- context [mbind _ (?f args ?k)] => destruct (f args k); [simpl|done]
      end.
    destruct (Linkage.__init__ _ _ _ _ _ _ _ _ _ _ _ _ _ _) as [self [[]|e]];
      [|done]. by intros [= <-].
  - destruct (Dedup.__init__ _ _ _ _ _ _ _ _ _ _ _ _) as [self [[]|e]];
      [|done]. by intros [= <-].
Qed.

(** Whatever the builder does once the mode check has answered, the only
    constructor it calls is that of the selected class. *)
Lemma build_datamodule_selects train valid test rn (kwargs : gmap string PyVal)
    (b : bool) events r :
  Cli._is_record_linkage kwargs = Ok b →
  Cli._build_datamodule train valid test rn kwargs = (events, r) →
  (∀ cls args, Cli.Construct cls args ∈ events →
     cls = if b then Cli.LinkageDataModule else Cli.DeduplicationDataModule)
  ∧ (∀ dm, r = Ok dm →
       if b then ∃ l, dm = Cli.LinkageDM l else ∃ d, dm = Cli.DedupDM d).
Proof.
  intros Hb. unfold Cli._build_datamodule.
  destruct (Cli.datamodule_call train valid test rn kwargs) as [[cls args]|e] eqn:Hcall.
  - apply datamodule_call_cls in Hcall as (b' & Hb' & ->).
    rewrite Hb in Hb'. injection Hb' as <-. intros [= <- <-]. split.
    + intros cls args' Hin. rewrite !elem_of_cons, elem_of_nil in Hin.
      by destruct Hin as [[=]|[[= -> _]|[]]].
    + intros dm Hdm%construct_cls. destruct b, dm; by eauto.
  - intros [= <- <-]. split; [by intros ?? ?%elem_of_nil|done].
Qed.

End mode_selection.

(** C8. When exactly one of [source_attr] and [left_source] is truthy the
    mode check raises, and [_build_datamodule] ends with an error before
    it has logged or called a constructor. When both are truthy the mode
    check answers [True] and the builder calls no constructor but that of
    [LinkageDataModule]; when neither is, it answers [False] and the
    builder calls no constructor but that of [DeduplicationDataModule]. *)
Theorem mode_check_before_construction `{Collaborators}
    (train_row_dict valid_row_dict test_row_dict : RowDict) (rn : RowNumericalizer)
    (one both neither : gmap string PyVal) :
  truthy (dict_get one "left_source") ≠ truthy (dict_get one "source_attr") →
  truthy (dict_get both "left_source") = true →
  truthy (dict_get both "source_attr") = true →
  truthy (dict_get neither "left_source") = false →
  truthy (dict_get neither "source_attr") = false →
  (Cli._is_record_linkage one = Raise (KeyError Cli.mode_check_message)
   ∧ ∃ e, Cli._build_datamodule train_row_dict valid_row_dict test_row_dict rn one
          = ([], Raise e))
  ∧ (Cli._is_record_linkage both = Ok true
     ∧ (∀ events r,
          Cli._build_datamodule train_row_dict valid_row_dict test_row_dict rn both
          = (events, r) →
          (∀ cls args, Cli.Construct cls args ∈ events → cls = Cli.LinkageDataModule)
          ∧ (∀ dm, r = Ok dm → ∃ l, dm = Cli.LinkageDM l))
     ∧ (reads_present both = true →
        ∃ args,
          Cli._build_datamodule train_row_dict valid_row_dict test_row_dict rn both
          = ([Cli.LogInfo "Building datamodule...";
              Cli.Construct Cli.LinkageDataModule args],
             Cli.construct Cli.LinkageDataModule args)))
  ∧ (Cli._is_record_linkage neither = Ok false
     ∧ (∀ events r,
          Cli._build_datamodule train_row_dict valid_row_dict test_row_dict rn neither
          = (events, r) →
          (∀ cls args, Cli.Construct cls args ∈ events →
             cls = Cli.DeduplicationDataModule)
          ∧ (∀ dm, r = Ok dm → ∃ d, dm = Cli.DedupDM d))
     ∧ (reads_present neither = true →
        ∃ args,
          Cli._build_datamodule train_row_dict valid_row_dict test_row_dict rn neither
          = ([Cli.LogInfo "Building datamodule...";
              Cli.Construct Cli.DeduplicationDataModule args],
             Cli.construct Cli.DeduplicationDataModule args))).
Proof.
  intros Hone Hbl Hbs Hnl Hns.
  assert (Cli._is_record_linkage both = Ok true) as Hboth.
  { rewrite is_record_linkage_cases, Hbl, Hbs. done. }
  assert (Cli._is_record_linkage neither = Ok false) as Hneither.
  { rewrite is_record_linkage_cases, Hnl, Hns. done. }
  split_and!.
  - rewrite is_record_linkage_cases. by rewrite bool_decide_eq_false_2.
  - destruct (build_datamodule_mode_error train_row_dict valid_row_dict
                test_row_dict rn one Hone) as (e & He & _). by exists e.
  - done.
  - intros events r Hbuild.
    apply (build_datamodule_selects _ _ _ _ _ true events r Hboth Hbuild).
  - intros Hkeys.
    destruct (build_datamodule_reaches_call train_row_dict valid_row_dict
                test_row_dict rn both) as (args & Hcall); [congruence|done|].
    rewrite Hbl in Hcall. by exists args.
  - done.
  - intros events r Hbuild.
    apply (build_datamodule_selects _ _ _ _ _ false events r Hneither Hbuild).
  - intros Hkeys.
    destruct (build_datamodule_reaches_call train_row_dict valid_row_dict
                test_row_dict rn neither) as (args & Hcall); [congruence|done|].
    rewrite Hnl in Hcall. by exists args.
Qed.

Lemma mode_check_before_construction_witness :
  truthy (dict_get demo_kwargs_one "left_source")
  ≠ truthy (dict_get demo_kwargs_one "source_attr")
  ∧ truthy (dict_get demo_kwargs_both "left_source") = true
  ∧ truthy (dict_get demo_kwargs_both "source_attr") = true
  ∧ truthy (dict_get demo_kwargs "left_source") = false
  ∧ truthy (dict_get demo_kwargs "source_attr") = false
  ∧ Cli._is_record_linkage demo_kwargs_one = Raise (KeyError Cli.mode_check_message)
  ∧ Cli._is_record_linkage demo_kwargs_both = Ok true
  ∧ Cli._is_record_linkage demo_kwargs = Ok false.
Proof.
  assert (truthy (dict_get demo_kwargs_one "left_source")
          ≠ truthy (dict_get demo_kwargs_one "source_attr")) as Hone
    by (vm_compute; discriminate).
  pose proof (mode_check_before_construction (H := demo_collaborators)
                demo_train demo_valid demo_test ()
                demo_kwargs_one demo_kwargs_both demo_kwargs
                Hone eq_refl eq_refl eq_refl eq_refl)
    as ([Hraise _] & [Hlinkage _] & [Hdedup _]).
  by split_and!.
Defined.

(** The builder on the demo data, in the three configurations. *)
Example demo_build_one :
  Cli._build_datamodule (H := demo_collaborators)
    demo_train demo_valid demo_test () demo_kwargs_one
  = ([], Raise (KeyError Cli.mode_check_message)).
Proof. vm_compute. reflexivity. Qed.

Example demo_build_both :
  let '(events, r) :=
    Cli._build_datamodule (H := demo_collaborators)
      demo_train demo_valid demo_test () demo_kwargs_both in
  constructed_classes events = [Cli.LinkageDataModule]
  ∧ match r with
    | Ok (Cli.LinkageDM l) =>
        Linkage.source_attr l = Some "__source"%string
        ∧ Linkage.left_source l = Some (PStr "left")
        ∧ Linkage.random_seed l = Some 42
        ∧ Linkage.train_pos_pair_set l = Some None
    | _ => False
    end.
Proof. vm_compute. repeat split; reflexivity. Qed.

Example demo_build_neither :
  let '(events, r) :=
    Cli._build_datamodule (H := demo_collaborators)
      demo_train demo_valid demo_test () demo_kwargs in
  constructed_classes events = [Cli.DeduplicationDataModule]
  ∧ match r with
    | Ok (Cli.DedupDM d) =>
        Dedup.random_seed d = Some 42 ∧ Dedup.batch_size d = Some 16
    | _ => False
    end.
Proof. vm_compute. repeat split; reflexivity. Qed.

(** * Further properties *)

Lemma returned_value_of {A} (dflt : A) (r : Result A) :
  returned r = true → r = Ok (value_of dflt r).
Proof. by destruct r. Qed.

(** ** More on [setup] *)

Section setup_outcomes.
Context `{Collaborators}.

(** What [setup] can do to the object: nothing, or the assignments of one
    stage. *)
Lemma dedup_setup_object (stage : PyVal) (self : Dedup.DeduplicationDataModule)
    (σ : Store) :
  (Dedup.setup stage self σ).1.1 = self
  ∨ (∃ lt lv, (Dedup.setup stage self σ).1.1
              = Dedup.set_valid_pos_pair_set (Some lv)
                  (Dedup.set_train_pos_pair_set (Some lt) self))
  ∨ (∃ ls, (Dedup.setup stage self σ).1.1
           = Dedup.set_test_pos_pair_set (Some ls) self).
Proof.
  destruct (decide (stage = PStr "fit")) as [->|Hfit].
  { destruct (dedup_setup_fit_cases self σ) as [(cdt & cdv & Ht & Hv)|[e He]].
    - right. left. rewrite (dedup_setup_fit self σ cdt cdv Ht Hv). by eexists _, _.
    - left. by rewrite He. }
  destruct (decide (stage = PStr "test")) as [->|Htest].
  { destruct (dedup_setup_test_cases self σ) as [(cds & Hs)|[e He]].
    - right. right. rewrite (dedup_setup_test self σ cds Hs). by eexists.
    - left. by rewrite He. }
  left. by rewrite dedup_setup_other.
Qed.

Lemma linkage_setup_fit_cases (self : Linkage.LinkageDataModule) (σ : Store) :
  (∃ Lt Rt Lv Rv cdt cdv,
     Linkage.left_right_of (Linkage.train_row_dict self) "train_row_dict" self
     = Ok (Lt, Rt)
     ∧ Linkage.left_right_of (Linkage.valid_row_dict self) "valid_row_dict" self
       = Ok (Lv, Rv)
     ∧ Linkage.cluster_dict_of (Linkage.train_row_dict self) "train_row_dict" self
       = Ok cdt
     ∧ Linkage.cluster_dict_of (Linkage.valid_row_dict self) "valid_row_dict" self
       = Ok cdv)
  ∨ (∃ e, Linkage.setup (PStr "fit") self σ = (self, σ, Raise e)).
Proof.
  destruct (Linkage.left_right_of (Linkage.train_row_dict self) "train_row_dict" self)
    as [[Lt Rt]|e] eqn:Hlt; last first.
  { right. exists e. unfold Linkage.setup, Linkage._set_pair_sets.
    destruct (decide (PStr "fit" = PStr "fit")) as [_|?]; [|done]. by rewrite Hlt. }
  destruct (Linkage.left_right_of (Linkage.valid_row_dict self) "valid_row_dict" self)
    as [[Lv Rv]|e] eqn:Hlv; last first.
  { right. exists e. unfold Linkage.setup, Linkage._set_pair_sets.
    destruct (decide (PStr "fit" = PStr "fit")) as [_|?]; [|done].
    by rewrite Hlt, Hlv. }
  destruct (Linkage.cluster_dict_of (Linkage.train_row_dict self) "train_row_dict" self)
    as [cdt|e] eqn:Ht; last first.
  { right. exists e. unfold Linkage.setup, Linkage._set_pair_sets.
    destruct (decide (PStr "fit" = PStr "fit")) as [_|?]; [|done].
    by rewrite Hlt, Hlv, Ht. }
  destruct (Linkage.cluster_dict_of (Linkage.valid_row_dict self) "valid_row_dict" self)
    as [cdv|e] eqn:Hv; last first.
  { right. exists e. unfold Linkage.setup, Linkage._set_pair_sets.
    destruct (decide (PStr "fit" = PStr "fit")) as [_|?]; [|done].
    by rewrite Hlt, Hlv, Ht, Hv. }
  left. by exists Lt, Rt, Lv, Rv, cdt, cdv.
Qed.

Lemma linkage_setup_test_cases (self : Linkage.LinkageDataModule) (σ : Store) :
  (∃ Ls Rs cds,
     Linkage.left_right_of (Linkage.test_row_dict self) "test_row_dict" self
     = Ok (Ls, Rs)
     ∧ Linkage.cluster_dict_of (Linkage.test_row_dict self) "test_row_dict" self
       = Ok cds)
  ∨ (∃ e, Linkage.setup (PStr "test") self σ = (self, σ, Raise e)).
Proof.
  destruct (Linkage.left_right_of (Linkage.test_row_dict self) "test_row_dict" self)
    as [[Ls Rs]|e] eqn:Hls; last first.
  { right. exists e. unfold Linkage.setup, Linkage._set_pair_sets.
    destruct (decide (PStr "test" = PStr "fit")) as [?|_]; [done|].
    destruct (decide (PStr "test" = PStr "test")) as [_|?]; [|done]. by rewrite Hls. }
  destruct (Linkage.cluster_dict_of (Linkage.test_row_dict self) "test_row_dict" self)
    as [cds|e] eqn:Hs; last first.
  { right. exists e. unfold Linkage.setup, Linkage._set_pair_sets.
    destruct (decide (PStr "test" = PStr "fit")) as [?|_]; [done|].
    destruct (decide (PStr "test" = PStr "test")) as [_|?]; [|done].
    by rewrite Hls, Hs. }
  left. by exists Ls, Rs, cds.
Qed.

Lemma linkage_setup_object (stage : PyVal) (self : Linkage.LinkageDataModule)
    (σ : Store) :
  (Linkage.setup stage self σ).1.1 = self
  ∨ (∃ lt lv, (Linkage.setup stage self σ).1.1
              = Linkage.set_valid_pos_pair_set (Some lv)
                  (Linkage.set_train_pos_pair_set (Some lt) self))
  ∨ (∃ ls, (Linkage.setup stage self σ).1.1
           = Linkage.set_test_pos_pair_set (Some ls) self).
Proof.
  destruct (decide (stage = PStr "fit")) as [->|Hfit].
  { destruct (linkage_setup_fit_cases self σ)
      as [(Lt & Rt & Lv & Rv & cdt & cdv & Hlt & Hlv & Ht & Hv)|[e He]].
    - right. left. rewrite (linkage_setup_fit self σ _ _ _ _ _ _ Hlt Hlv Ht Hv).
      by eexists _, _.
    - left. by rewrite He. }
  destruct (decide (stage = PStr "test")) as [->|Htest].
  { destruct (linkage_setup_test_cases self σ) as [(Ls & Rs & cds & Hls & Hs)|[e He]].
    - right. right. rewrite (linkage_setup_test self σ _ _ _ Hls Hs). by eexists.
    - left. by rewrite He. }
  left. by rewrite linkage_setup_other.
Qed.

(** A call of [setup] that raises has changed nothing. *)
Lemma dedup_setup_raise (stage : PyVal) (self self' : Dedup.DeduplicationDataModule)
    (σ σ' : Store) (e : Exn) :
  Dedup.setup stage self σ = (self', σ', Raise e) → self' = self ∧ σ' = σ.
Proof.
  destruct (decide (stage = PStr "fit")) as [->|Hfit].
  { destruct (dedup_setup_fit_cases self σ) as [(cdt & cdv & Ht & Hv)|[e' He]].
    - by rewrite (dedup_setup_fit self σ cdt cdv Ht Hv).
    - rewrite He. by intros [= <- <- _]. }
  destruct (decide (stage = PStr "test")) as [->|Htest].
  { destruct (dedup_setup_test_cases self σ) as [(cds & Hs)|[e' He]].
    - by rewrite (dedup_setup_test self σ cds Hs).
    - rewrite He. by intros [= <- <- _]. }
  by rewrite dedup_setup_other.
Qed.

Lemma linkage_setup_raise (stage : PyVal) (self self' : Linkage.LinkageDataModule)
    (σ σ' : Store) (e : Exn) :
  Linkage.setup stage self σ = (self', σ', Raise e) → self' = self ∧ σ' = σ.
Proof.
  destruct (decide (stage = PStr "fit")) as [->|Hfit].
  { destruct (linkage_setup_fit_cases self σ)
      as [(Lt & Rt & Lv & Rv & cdt & cdv & Hlt & Hlv & Ht & Hv)|[e' He]].
    - by rewrite (linkage_setup_fit self σ _ _ _ _ _ _ Hlt Hlv Ht Hv).
    - rewrite He. by intros [= <- <- _]. }
  destruct (decide (stage = PStr "test")) as [->|Htest].
  { destruct (linkage_setup_test_cases self σ) as [(Ls & Rs & cds & Hls & Hs)|[e' He]].
    - by rewrite (linkage_setup_test self σ _ _ _ Hls Hs).
    - rewrite He. by intros [= <- <- _]. }
  by rewrite linkage_setup_other.
Qed.

End setup_outcomes.

Lemma lookup_snoc_second (h : Heap) (a b : PairSet) :
  (h ++ [a; b]) !! S (length h) = Some b.
Proof.
  rewrite lookup_app_r by lia.
  by replace (S (length h) - length h)%nat with 1%nat by lia.
Qed.

(** X1. A call of [setup] that raises has assigned nothing and logged
    nothing: the helper calls of a stage that read rows all come before
    its first assignment, and the pair helper, which is total here, is
    the only call after it. *)
Theorem setup_failure_changes_nothing `{Collaborators}
    (stage_d stage_l : PyVal)
    (d d' : Dedup.DeduplicationDataModule) (l l' : Linkage.LinkageDataModule)
    (σd σd' σl σl' : Store) (ed el : Exn) :
  Dedup.setup stage_d d σd = (d', σd', Raise ed) →
  Linkage.setup stage_l l σl = (l', σl', Raise el) →
  d' = d ∧ σd' = σd ∧ l' = l ∧ σl' = σl.
Proof.
  intros [-> ->]%dedup_setup_raise [-> ->]%linkage_setup_raise. done.
Qed.

Lemma setup_failure_changes_nothing_witness :
  (Dedup.setup (PStr "fit") demo_dedup_unlabelled empty_store).2
  = Raise (SchemaError "cluster" 5)
  ∧ (Linkage.setup (PStr "fit") demo_linkage_unlabelled empty_store).2
    = Raise (SchemaError "__source" 5)
  ∧ (Dedup.setup (PStr "fit") demo_dedup_unlabelled empty_store).1
    = (demo_dedup_unlabelled, empty_store)
  ∧ (Linkage.setup (PStr "fit") demo_linkage_unlabelled empty_store).1
    = (demo_linkage_unlabelled, empty_store).
Proof.
  assert (Dedup.setup (PStr "fit") demo_dedup_unlabelled empty_store
          = ((Dedup.setup (PStr "fit") demo_dedup_unlabelled empty_store).1.1,
             (Dedup.setup (PStr "fit") demo_dedup_unlabelled empty_store).1.2,
             Raise (SchemaError "cluster" 5))) as Hd
    by (vm_compute; reflexivity).
  assert (Linkage.setup (PStr "fit") demo_linkage_unlabelled empty_store
          = ((Linkage.setup (PStr "fit") demo_linkage_unlabelled empty_store).1.1,
             (Linkage.setup (PStr "fit") demo_linkage_unlabelled empty_store).1.2,
             Raise (SchemaError "__source" 5))) as Hl
    by (vm_compute; reflexivity).
  split; [vm_compute; reflexivity|]. split; [vm_compute; reflexivity|].
  destruct (setup_failure_changes_nothing (H := demo_collaborators)
              _ _ _ _ _ _ _ _ _ _ _ _ Hd Hl) as (Hd1 & Hd2 & Hl1 & Hl2).
  split.
  - rewrite (surjective_pairing (Dedup.setup _ _ _).1). by rewrite Hd1, Hd2.
  - rewrite (surjective_pairing (Linkage.setup _ _ _).1). by rewrite Hl1, Hl2.
Defined.

(** X2. [setup] never changes what the three dataloader factories build,
    whatever the stage and whether it returns or raises. *)
Theorem setup_keeps_dataloaders `{Collaborators}
    (stage : PyVal) (d : Dedup.DeduplicationDataModule)
    (l : Linkage.LinkageDataModule) (σ : Store) :
  (Dedup.train_dataloader (Dedup.setup stage d σ).1.1 = Dedup.train_dataloader d
   ∧ Dedup.val_dataloader (Dedup.setup stage d σ).1.1 = Dedup.val_dataloader d
   ∧ Dedup.test_dataloader (Dedup.setup stage d σ).1.1 = Dedup.test_dataloader d)
  ∧ (Linkage.train_dataloader (Linkage.setup stage l σ).1.1
     = Linkage.train_dataloader l
     ∧ Linkage.val_dataloader (Linkage.setup stage l σ).1.1 = Linkage.val_dataloader l
     ∧ Linkage.test_dataloader (Linkage.setup stage l σ).1.1
       = Linkage.test_dataloader l).
Proof.
  split.
  - destruct (dedup_setup_object stage d σ) as [->|[(lt & lv & ->)|(ls & ->)]]; done.
  - destruct (linkage_setup_object stage l σ) as [->|[(lt & lv & ->)|(ls & ->)]]; done.
Qed.

(** X3. A [setup("fit")] that returns has appended two lines to the log,
    the sizes of the sets that [train_pos_pair_set] and
    [valid_pos_pair_set] now refer to; a [setup("test")] that returns has
    appended one, the size of the set [test_pos_pair_set] refers to. *)
Theorem setup_logs_the_stored_counts `{Collaborators}
    (d d1 d2 : Dedup.DeduplicationDataModule) (l l1 l2 : Linkage.LinkageDataModule)
    (σ σd1 σd2 σl1 σl2 : Store) :
  Dedup.setup (PStr "fit") d σ = (d1, σd1, Ok ()) →
  Dedup.setup (PStr "test") d σ = (d2, σd2, Ok ()) →
  Linkage.setup (PStr "fit") l σ = (l1, σl1, Ok ()) →
  Linkage.setup (PStr "test") l σ = (l2, σl2, Ok ()) →
  (∃ rt rv st sv,
     Dedup.train_pos_pair_set d1 = Some (Some rt) ∧ heap σd1 !! rt = Some st
     ∧ Dedup.valid_pos_pair_set d1 = Some (Some rv) ∧ heap σd1 !! rv = Some sv
     ∧ log σd1 = log σ ++ [("Train positive pair count: %s"%string, Z.of_nat (size st));
                           ("Valid positive pair count: %s"%string, Z.of_nat (size sv))])
  ∧ (∃ rs ss,
       Dedup.test_pos_pair_set d2 = Some (Some rs) ∧ heap σd2 !! rs = Some ss
       ∧ log σd2 = log σ ++ [("Test positive pair count: %s"%string, Z.of_nat (size ss))])
  ∧ (∃ rt rv st sv,
       Linkage.train_pos_pair_set l1 = Some (Some rt) ∧ heap σl1 !! rt = Some st
       ∧ Linkage.valid_pos_pair_set l1 = Some (Some rv) ∧ heap σl1 !! rv = Some sv
       ∧ log σl1 = log σ ++ [("Train positive pair count: %s"%string, Z.of_nat (size st));
                             ("Valid positive pair count: %s"%string, Z.of_nat (size sv))])
  ∧ (∃ rs ss,
       Linkage.test_pos_pair_set l2 = Some (Some rs) ∧ heap σl2 !! rs = Some ss
       ∧ log σl2 = log σ ++ [("Test positive pair count: %s"%string, Z.of_nat (size ss))]).
Proof.
  intros Hd1 Hd2 Hl1 Hl2. split_and!.
  - destruct (dedup_setup_fit_cases d σ) as [(cdt & cdv & Ht & Hv)|[e He]];
      [|by rewrite He in Hd1].
    rewrite (dedup_setup_fit d σ cdt cdv Ht Hv) in Hd1. injection Hd1 as <- <-.
    eexists _, _, _, _. simpl. split_and!; [done| |done| |done].
    + by apply list_lookup_middle.
    + apply lookup_snoc_second.
  - destruct (dedup_setup_test_cases d σ) as [(cds & Hs)|[e He]];
      [|by rewrite He in Hd2].
    rewrite (dedup_setup_test d σ cds Hs) in Hd2. injection Hd2 as <- <-.
    eexists _, _. simpl. split_and!; [done| |done]. by apply list_lookup_middle.
  - destruct (linkage_setup_fit_cases l σ)
      as [(Lt & Rt & Lv & Rv & cdt & cdv & Hlt & Hlv & Ht & Hv)|[e He]];
      [|by rewrite He in Hl1].
    rewrite (linkage_setup_fit l σ _ _ _ _ _ _ Hlt Hlv Ht Hv) in Hl1.
    injection Hl1 as <- <-.
    eexists _, _, _, _. simpl. split_and!; [done| |done| |done].
    + by apply list_lookup_middle.
    + apply lookup_snoc_second.
  - destruct (linkage_setup_test_cases l σ) as [(Ls & Rs & cds & Hls & Hs)|[e He]];
      [|by rewrite He in Hl2].
    rewrite (linkage_setup_test l σ _ _ _ Hls Hs) in Hl2. injection Hl2 as <- <-.
    eexists _, _. simpl. split_and!; [done| |done]. by apply list_lookup_middle.
Qed.

Lemma setup_logs_the_stored_counts_witness :
  (Dedup.setup (PStr "fit") demo_dedup empty_store).2 = Ok ()
  ∧ (Dedup.setup (PStr "test") demo_dedup empty_store).2 = Ok ()
  ∧ (Linkage.setup (PStr "fit") demo_linkage empty_store).2 = Ok ()
  ∧ (Linkage.setup (PStr "test") demo_linkage empty_store).2 = Ok ()
  ∧ ∃ rs ss,
      Dedup.test_pos_pair_set (Dedup.setup (PStr "test") demo_dedup empty_store).1.1
      = Some (Some rs)
      ∧ heap (Dedup.setup (PStr "test") demo_dedup empty_store).1.2 !! rs = Some ss
      ∧ log (Dedup.setup (PStr "test") demo_dedup empty_store).1.2
        = log empty_store
          ++ [("Test positive pair count: %s"%string, Z.of_nat (size ss))].
Proof.
  assert (∀ stage,
            (Dedup.setup stage demo_dedup empty_store).2 = Ok () →
            Dedup.setup stage demo_dedup empty_store
            = ((Dedup.setup stage demo_dedup empty_store).1.1,
               (Dedup.setup stage demo_dedup empty_store).1.2, Ok ())) as Hd.
  { intros stage Hok. by destruct (Dedup.setup stage demo_dedup empty_store) as [[? ?] ?];
      simpl in *; subst. }
  assert (∀ stage,
            (Linkage.setup stage demo_linkage empty_store).2 = Ok () →
            Linkage.setup stage demo_linkage empty_store
            = ((Linkage.setup stage demo_linkage empty_store).1.1,
               (Linkage.setup stage demo_linkage empty_store).1.2, Ok ())) as Hl.
  { intros stage Hok.
    by destruct (Linkage.setup stage demo_linkage empty_store) as [[? ?] ?];
      simpl in *; subst. }
  assert ((Dedup.setup (PStr "fit") demo_dedup empty_store).2 = Ok ()) as H1
    by (vm_compute; reflexivity).
  assert ((Dedup.setup (PStr "test") demo_dedup empty_store).2 = Ok ()) as H2
    by (vm_compute; reflexivity).
  assert ((Linkage.setup (PStr "fit") demo_linkage empty_store).2 = Ok ()) as H3
    by (vm_compute; reflexivity).
  assert ((Linkage.setup (PStr "test") demo_linkage empty_store).2 = Ok ()) as H4
    by (vm_compute; reflexivity).
  split; [exact H1|]. split; [exact H2|]. split; [exact H3|]. split; [exact H4|].
  exact (proj1 (proj2 (setup_logs_the_stored_counts (H := demo_collaborators)
                         _ _ _ _ _ _ _ _ _ _ _
                         (Hd _ H1) (Hd _ H2) (Hl _ H3) (Hl _ H4)))).
Defined.

(** X4. A data module that was just constructed holds [None] in its three
    pair-set attributes, and [setup] with a stage other than ["fit"] and
    ["test"] (the default [None], ["validate"], ...) returns without
    assigning or logging anything. *)
Theorem setup_other_stage_builds_nothing `{Collaborators}
    (stage : PyVal) (σ : Store)
    train valid test cluster_attr rn bs ebs tlk elk seed chk
    source_attr left_source
    (d : Dedup.DeduplicationDataModule) (l : Linkage.LinkageDataModule) :
  stage ≠ PStr "fit" →
  stage ≠ PStr "test" →
  Dedup.__init__ Dedup.fresh train valid test cluster_attr rn bs ebs tlk elk seed chk
  = (d, Ok ()) →
  Linkage.__init__ Linkage.fresh train valid test source_attr left_source
    cluster_attr rn bs ebs tlk elk seed chk
  = (l, Ok ()) →
  (Dedup.setup stage d σ = (d, σ, Ok ())
   ∧ Dedup.train_pos_pair_set d = Some None
   ∧ Dedup.valid_pos_pair_set d = Some None
   ∧ Dedup.test_pos_pair_set d = Some None)
  ∧ (Linkage.setup stage l σ = (l, σ, Ok ())
     ∧ Linkage.train_pos_pair_set l = Some None
     ∧ Linkage.valid_pos_pair_set l = Some None
     ∧ Linkage.test_pos_pair_set l = Some None).
Proof.
  intros Hfit Htest Hd Hl. unfold Dedup.__init__ in Hd. unfold Linkage.__init__ in Hl.
  destruct (if kwarg chk true then _ else _) as [[]|e]; [|done].
  injection Hd as <-. injection Hl as <-.
  split; (split; [|done]).
  - by apply dedup_setup_other.
  - by apply linkage_setup_other.
Qed.

Lemma setup_other_stage_builds_nothing_witness :
  Dedup.setup PNone demo_dedup_unlabelled empty_store
  = (demo_dedup_unlabelled, empty_store, Ok ())
  ∧ Linkage.setup (PStr "validate") demo_linkage_unlabelled empty_store
    = (demo_linkage_unlabelled, empty_store, Ok ()).
Proof.
  assert (Dedup.__init__ (H := demo_collaborators) Dedup.fresh
            demo_train demo_unlabelled demo_test
            "cluster" () 16 64 None None None None
          = (demo_dedup_unlabelled, Ok ())) as Hd by (vm_compute; reflexivity).
  assert (Linkage.__init__ (H := demo_collaborators) Linkage.fresh
            demo_train demo_unlabelled demo_test
            "__source" (PStr "left") "cluster" () 16 64 None None None None
          = (demo_linkage_unlabelled, Ok ())) as Hl by (vm_compute; reflexivity).
  split.
  - refine (proj1 (proj1 (setup_other_stage_builds_nothing (H := demo_collaborators)
                            PNone empty_store _ _ _ _ _ _ _ _ _ _ _ _ _ _ _
                            _ _ Hd Hl))); discriminate.
  - refine (proj1 (proj2 (setup_other_stage_builds_nothing (H := demo_collaborators)
                            (PStr "validate") empty_store _ _ _ _ _ _ _ _ _ _ _ _ _ _ _
                            _ _ Hd Hl))); discriminate.
Defined.

(** X5. The arguments of a constructor call that returns reach the three
    loaders: the training dataset is built over the train row dict with
    the batch size, a third of it as the cluster cap, and the given seed or
    42 (no trainer is attached yet); the evaluation datasets are built over
    the validation and test row dicts with the evaluation batch size; the
    loader kwargs are those that [build_loader_kwargs] returned. *)
Theorem constructor_arguments_reach_loaders `{Collaborators}
    train valid test cluster_attr rn bs ebs tlk elk seed chk
    source_attr left_source
    (d : Dedup.DeduplicationDataModule) (l : Linkage.LinkageDataModule) :
  Dedup.__init__ Dedup.fresh train valid test cluster_attr rn bs ebs tlk elk seed chk
  = (d, Ok ()) →
  Linkage.__init__ Linkage.fresh train valid test source_attr left_source
    cluster_attr rn bs ebs tlk elk seed chk
  = (l, Ok ()) →
  (Dedup.train_dataloader d
   = Ok (DataLoader.new
           (ClusterDataset.from_cluster_dict train cluster_attr rn bs (bs / 3)
              (default 42 seed))
           None false (build_loader_kwargs tlk))
   ∧ Dedup.val_dataloader d
     = Ok (DataLoader.new (RowDataset.new valid rn ebs) None false
             (build_loader_kwargs elk))
   ∧ Dedup.test_dataloader d
     = Ok (DataLoader.new (RowDataset.new test rn ebs) None false
             (build_loader_kwargs elk)))
  ∧ (Linkage.train_dataloader l
     = Ok (DataLoader.new
             (ClusterDataset.from_cluster_dict train cluster_attr rn bs (bs / 3)
                (default 42 seed))
             None false (build_loader_kwargs tlk))
     ∧ Linkage.val_dataloader l
       = Ok (DataLoader.new (RowDataset.new valid rn ebs) None false
               (build_loader_kwargs elk))
     ∧ Linkage.test_dataloader l
       = Ok (DataLoader.new (RowDataset.new test rn ebs) None false
               (build_loader_kwargs elk))).
Proof.
  intros Hd Hl. unfold Dedup.__init__ in Hd. unfold Linkage.__init__ in Hl.
  destruct (if kwarg chk true then _ else _) as [[]|e]; [|done].
  injection Hd as <-. injection Hl as <-. done.
Qed.

Lemma constructor_arguments_reach_loaders_witness :
  Dedup.val_dataloader demo_dedup_unlabelled
  = Ok (DataLoader.new
          (RowDataset.new (H := demo_collaborators) demo_unlabelled () 64)
          None false ∅)
  ∧ Linkage.test_dataloader demo_linkage_unlabelled
    = Ok (DataLoader.new
            (RowDataset.new (H := demo_collaborators) demo_test () 64)
            None false ∅).
Proof.
  assert (Dedup.__init__ (H := demo_collaborators) Dedup.fresh
            demo_train demo_unlabelled demo_test
            "cluster" () 16 64 None None None None
          = (demo_dedup_unlabelled, Ok ())) as Hd by (vm_compute; reflexivity).
  assert (Linkage.__init__ (H := demo_collaborators) Linkage.fresh
            demo_train demo_unlabelled demo_test
            "__source" (PStr "left") "cluster" () 16 64 None None None None
          = (demo_linkage_unlabelled, Ok ())) as Hl by (vm_compute; reflexivity).
  pose proof (constructor_arguments_reach_loaders (H := demo_collaborators)
                _ _ _ _ _ _ _ _ _ _ _ _ _ _ _ Hd Hl)
    as [(_ & Hval & _) (_ & _ & Htest)].
  split; [exact Hval|exact Htest].
Defined.

(** X6. The training loader of a [PairwiseDataModule] seeds its pair
    dataset with [random_seed + trainer.current_epoch] (42 when no seed was
    given), so with one base seed two epochs get the same seed exactly when
    they are the same epoch; without a trainer the seed is the base seed. *)
Theorem pairwise_train_seed_follows_epoch `{Collaborators}
    self rows rn bs ebs tp vp sp tn vn sn tlk elk (seed : option Z)
    (t1 t2 : Trainer) :
  let p := (Pairwise.__init__ self rows rn bs ebs tp vp sp tn vn sn tlk elk seed).1 in
  Pairwise.train_dataloader (Pairwise.set_trainer (Some t1) p)
  = Ok (DataLoader.new
          (PairDataset.new rows tp tn rn bs (Some (default 42 seed + current_epoch t1)))
          None false (build_loader_kwargs tlk))
  ∧ Pairwise.train_dataloader (Pairwise.set_trainer None p)
    = Ok (DataLoader.new (PairDataset.new rows tp tn rn bs (Some (default 42 seed)))
            None false (build_loader_kwargs tlk))
  ∧ (Pairwise.train_dataloader (Pairwise.set_trainer (Some t1) p)
     = Pairwise.train_dataloader (Pairwise.set_trainer (Some t2) p)
     ↔ current_epoch t1 = current_epoch t2).
Proof.
  simpl. split_and!; [done..|]. unfold Pairwise.train_dataloader. simpl.
  unfold kwarg. split.
  - intros [= Heq]. lia.
  - by intros ->.
Qed.

(** ** What the data module builder hands on *)

Section builder.
Context `{Collaborators}.

(** The loader kwargs that the builder passes on. *)
Lemma loader_kwargs_loop (kwargs : gmap string PyVal) (inner : gmap string PyVal) :
  Cli.for_each ["num_workers"; "multiprocessing_context"]%string
    (λ inner_k inner,
       v ← dict_item kwargs inner_k;
       Ok (if truthy v then <[inner_k := v]> inner else inner))
    (∅ : gmap string PyVal) = Ok inner →
  ∀ k, inner !! k
       = if decide (k = "num_workers"%string ∨ k = "multiprocessing_context"%string)
         then (if truthy (dict_get kwargs k) then Some (dict_get kwargs k) else None)
         else None.
Proof.
  simpl. unfold dict_item, dict_get.
  destruct (kwargs !! "num_workers") as [nw|] eqn:Hnw; [simpl|done].
  destruct (kwargs !! "multiprocessing_context") as [mc|] eqn:Hmc; [simpl|done].
  intros [= <-] k.
  destruct (decide (k = "num_workers"%string)) as [->|Hk1].
  { rewrite decide_True by auto. rewrite Hnw. simpl.
    destruct (truthy mc), (truthy nw); by simplify_map_eq. }
  destruct (decide (k = "multiprocessing_context"%string)) as [->|Hk2].
  { rewrite decide_True by auto. rewrite Hmc. simpl.
    destruct (truthy mc), (truthy nw); by simplify_map_eq. }
  rewrite decide_False by tauto.
  destruct (truthy mc), (truthy nw); by simplify_map_eq.
Qed.

(** The arguments of the constructor call. *)
Lemma datamodule_call_args train valid test rn (kwargs : gmap string PyVal) cls args :
  Cli.datamodule_call train valid test rn kwargs = Ok (cls, args) →
  args !! "train_row_dict" = Some (Cli.ARows train)
  ∧ args !! "valid_row_dict" = Some (Cli.ARows valid)
  ∧ args !! "test_row_dict" = Some (Cli.ARows test)
  ∧ args !! "random_seed"
    = (if truthy (dict_get kwargs "random_seed")
       then Some (Cli.AVal (dict_get kwargs "random_seed")) else None)
  ∧ ∃ given : option (gmap string PyVal),
      args !! "train_loader_kwargs" = Cli.ADict <$> given
      ∧ args !! "eval_loader_kwargs" = Cli.ADict <$> given
      ∧ (given = None ↔ truthy (dict_get kwargs "num_workers") = false
                        ∧ truthy (dict_get kwargs "multiprocessing_context") = false)
      ∧ ∀ d, given = Some d →
          ∀ k, d !! k
               = if decide (k = "num_workers"%string
                            ∨ k = "multiprocessing_context"%string)
                 then (if truthy (dict_get kwargs k)
                       then Some (dict_get kwargs k) else None)
                 else None.
Proof.
  unfold Cli.datamodule_call.
  set (INNER := Cli.for_each ["num_workers"; "multiprocessing_context"]%string _ _).
  destruct (dict_item kwargs "cluster_attr") as [ca|]; [simpl|done].
  destruct (dict_item kwargs "batch_size") as [bs|]; [simpl|done].
  destruct (dict_item kwargs "eval_batch_size") as [ebs|]; [simpl|done].
  destruct (Cli._is_record_linkage kwargs) as [b|]; [simpl|done].
  set (base := <["train_row_dict" := _]> _).
  destruct (if b then _ else _) as [[cls0 args0]|] eqn:Hmode; [simpl|done].
  assert (args0 !! "train_row_dict" = Some (Cli.ARows train)
          ∧ args0 !! "valid_row_dict" = Some (Cli.ARows valid)
          ∧ args0 !! "test_row_dict" = Some (Cli.ARows test)
          ∧ args0 !! "random_seed" = None
          ∧ args0 !! "train_loader_kwargs" = None
          ∧ args0 !! "eval_loader_kwargs" = None) as (Ht & Hv & Hs & Hseed & Htl & Hel).
  { destruct b.
    - destruct (dict_item kwargs "source_attr") as [sa|]; [simpl in Hmode|done].
      destruct (dict_item kwargs "left_source") as [ls|]; [simpl in Hmode|done].
      injection Hmode as <- <-. unfold base. by simplify_map_eq.
    - injection Hmode as <- <-. unfold base. by simplify_map_eq. }
  clearbody base. clear Hmode.
  destruct (truthy (dict_get kwargs "num_workers")
            || truthy (dict_get kwargs "multiprocessing_context")) eqn:Hany; simpl.
  - destruct INNER as [inner|] eqn:Hinner; [simpl|done].
    intros [= <- <-].
    split_and!.
    + destruct (truthy (dict_get kwargs "random_seed")); by simplify_map_eq.
    + destruct (truthy (dict_get kwargs "random_seed")); by simplify_map_eq.
    + destruct (truthy (dict_get kwargs "random_seed")); by simplify_map_eq.
    + destruct (truthy (dict_get kwargs "random_seed")); by simplify_map_eq.
    + exists (Some inner). split_and!.
      * destruct (truthy (dict_get kwargs "random_seed")); by simplify_map_eq.
      * destruct (truthy (dict_get kwargs "random_seed")); by simplify_map_eq.
      * split; [done|]. intros [Hnw Hmc]. by rewrite Hnw, Hmc in Hany.
      * intros d [= <-]. by apply loader_kwargs_loop.
  - intros [= <- <-]. apply orb_false_elim in Hany as [Hnw Hmc].
    split_and!.
    + destruct (truthy (dict_get kwargs "random_seed")); by simplify_map_eq.
    + destruct (truthy (dict_get kwargs "random_seed")); by simplify_map_eq.
    + destruct (truthy (dict_get kwargs "random_seed")); by simplify_map_eq.
    + destruct (truthy (dict_get kwargs "random_seed")); by simplify_map_eq.
    + exists None. split_and!.
      * destruct (truthy (dict_get kwargs "random_seed")); by simplify_map_eq.
      * destruct (truthy (dict_get kwargs "random_seed")); by simplify_map_eq.
      * done.
      * done.
Qed.

(** What a module that the builder returns is made of. *)
Lemma build_datamodule_ok train valid test rn (kwargs : gmap string PyVal) dm :
  (Cli._build_datamodule train valid test rn kwargs).2 = Ok dm →
  ¬ leaks train valid test
  ∧ dm_row_dicts dm = (Some train, Some valid, Some test)
  ∧ dm_random_seed dm
    = Some (match dict_get kwargs "random_seed" with
            | PInt z => if z =? 0 then 42 else z
            | _ => 42
            end)
  ∧ ∃ given : option (gmap string PyVal),
      dm_train_loader_kwargs dm = Some (build_loader_kwargs given)
      ∧ dm_eval_loader_kwargs dm = Some (build_loader_kwargs given)
      ∧ (given = None ↔ truthy (dict_get kwargs "num_workers") = false
                        ∧ truthy (dict_get kwargs "multiprocessing_context") = false)
      ∧ ∀ d, given = Some d →
          ∀ k, d !! k
               = if decide (k = "num_workers"%string
                            ∨ k = "multiprocessing_context"%string)
                 then (if truthy (dict_get kwargs k)
                       then Some (dict_get kwargs k) else None)
                 else None.
Proof.
  unfold Cli._build_datamodule.
  destruct (Cli.datamodule_call train valid test rn kwargs) as [[cls args]|e] eqn:Hcall;
    [simpl|done].
  apply datamodule_call_args in Hcall
    as (Ht & Hv & Hs & Hseed & given & Htl & Hel & Hnone & Hgiven).
  unfold Cli.construct, Cli.arg_rows, Cli.arg_opt_dict, Cli.arg_opt_int.
  rewrite Ht, Hv, Hs, Htl, Hel, Hseed. simpl.
  destruct (Cli.arg_str args "cluster_attr") as [ca|]; [simpl|done].
  destruct (Cli.arg_numericalizer args "row_numericalizer") as [rn'|]; [simpl|done].
  destruct (Cli.arg_int args "batch_size") as [bs|]; [simpl|done].
  destruct (Cli.arg_int args "eval_batch_size") as [ebs|]; [simpl|done].
  assert (∃ tlk, match Cli.ADict <$> given with
                 | Some (Cli.ADict d) => Ok (Some d)
                 | Some _ => Raise (TypeError "train_loader_kwargs")
                 | None => Ok None
                 end = Ok tlk ∧ tlk = given) as (tlk & -> & ->)
    by (destruct given; by eexists).
  assert (∃ elk, match Cli.ADict <$> given with
                 | Some (Cli.ADict d) => Ok (Some d)
                 | Some _ => Raise (TypeError "eval_loader_kwargs")
                 | None => Ok None
                 end = Ok elk ∧ elk = given) as (elk & -> & ->)
    by (destruct given; by eexists).
  simpl.
  set (seed_arg := match (if truthy (dict_get kwargs "random_seed") then _ else _) with
                   | Some (Cli.AVal (PInt z)) => Ok (Some z)
                   | Some _ => Raise (TypeError "random_seed")
                   | None => Ok None
                   end).
  assert (∀ seed, seed_arg = Ok seed →
            default 42 seed = match dict_get kwargs "random_seed" with
                             | PInt z => if z =? 0 then 42 else z
                             | _ => 42
                             end) as Hseed_arg.
  { unfold seed_arg. intros seed.
    destruct (dict_get kwargs "random_seed") as [|z|s]; simpl.
    - by intros [= <-].
    - destruct (z =? 0); simpl; by intros [= <-].
    - destruct (negb _); simpl; [done|]. by intros [= <-]. }
  destruct seed_arg as [seed|]; [simpl|done]. specialize (Hseed_arg seed eq_refl).
  destruct cls.
  - destruct (Cli.arg_str args "source_attr") as [sa|]; [simpl|done].
    destruct (Cli.arg_val args "left_source") as [ls|]; [simpl|done].
    unfold Linkage.__init__. simpl.
    destruct (_check_for_common_rows train valid test) as [[]|] eqn:Hcheck; [|done].
    apply check_for_common_rows_ok in Hcheck. intros [= <-]. simpl.
    unfold kwarg. rewrite Hseed_arg. split_and!; [done..|].
    exists given. by split_and!.
  - unfold Dedup.__init__. simpl.
    destruct (_check_for_common_rows train valid test) as [[]|] eqn:Hcheck; [|done].
    apply check_for_common_rows_ok in Hcheck. intros [= <-]. simpl.
    unfold kwarg. rewrite Hseed_arg. split_and!; [done..|].
    exists given. by split_and!.
Qed.

End builder.

(** X7. A data module that [_build_datamodule] returns has passed the
    common-rows check: the builder never passes [check_for_common_rows],
    so the three row dicts it holds have pairwise disjoint keys; with a
    shared id the builder raises. *)
Theorem built_module_is_leak_checked `{Collaborators}
    train valid test (rn : RowNumericalizer) (kwargs : gmap string PyVal)
    (dm : Cli.DataModule) :
  (Cli._build_datamodule train valid test rn kwargs).2 = Ok dm →
  dm_row_dicts dm = (Some train, Some valid, Some test)
  ∧ keys train ∩ keys valid = ∅
  ∧ keys train ∩ keys test = ∅
  ∧ keys valid ∩ keys test = ∅.
Proof.
  intros (Hleaks & Hrows & _)%build_datamodule_ok. split; [done|].
  unfold leaks in Hleaks. split_and!; apply dec_stable; tauto.
Qed.

Lemma built_module_is_leak_checked_witness :
  (Cli._build_datamodule (H := demo_collaborators)
     demo_train demo_valid demo_test () demo_kwargs).2 = Ok demo_built
  ∧ keys demo_train ∩ keys demo_valid = ∅.
Proof.
  assert ((Cli._build_datamodule (H := demo_collaborators)
             demo_train demo_valid demo_test () demo_kwargs).2 = Ok demo_built) as Hb
    by (vm_compute; reflexivity).
  split; [exact Hb|].
  exact (proj1 (proj2 (built_module_is_leak_checked (H := demo_collaborators)
                         demo_train demo_valid demo_test () demo_kwargs demo_built Hb))).
Defined.

(** X8. The builder forwards [random_seed] only when it is truthy: a
    module it returns has the given seed when that is a non-zero integer,
    and the default 42 when the seed is [0], [None] or absent. *)
Theorem built_module_seed `{Collaborators}
    train valid test (rn : RowNumericalizer) (kwargs : gmap string PyVal)
    (dm : Cli.DataModule) :
  (Cli._build_datamodule train valid test rn kwargs).2 = Ok dm →
  dm_random_seed dm
  = Some (match dict_get kwargs "random_seed" with
          | PInt z => if z =? 0 then 42 else z
          | _ => 42
          end).
Proof. by intros (_ & _ & Hseed & _)%build_datamodule_ok. Qed.

Lemma built_module_seed_witness :
  (Cli._build_datamodule (H := demo_collaborators)
     demo_train demo_valid demo_test () demo_kwargs).2 = Ok demo_built
  ∧ dm_random_seed demo_built = Some 42.
Proof.
  assert ((Cli._build_datamodule (H := demo_collaborators)
             demo_train demo_valid demo_test () demo_kwargs).2 = Ok demo_built) as Hb
    by (vm_compute; reflexivity).
  split; [exact Hb|].
  exact (built_module_seed (H := demo_collaborators)
           demo_train demo_valid demo_test () demo_kwargs demo_built Hb).
Defined.

(** X9. A module that the builder returns has the same loader kwargs on
    the training and on the evaluation side: what [build_loader_kwargs]
    makes of nothing when [num_workers] and [multiprocessing_context] are
    both falsy, and otherwise of the dict that holds those of the two that
    are truthy and no other key. *)
Theorem built_module_loader_kwargs `{Collaborators}
    train valid test (rn : RowNumericalizer) (kwargs : gmap string PyVal)
    (dm : Cli.DataModule) :
  (Cli._build_datamodule train valid test rn kwargs).2 = Ok dm →
  ∃ given : option (gmap string PyVal),
    dm_train_loader_kwargs dm = Some (build_loader_kwargs given)
    ∧ dm_eval_loader_kwargs dm = Some (build_loader_kwargs given)
    ∧ (given = None ↔ truthy (dict_get kwargs "num_workers") = false
                      ∧ truthy (dict_get kwargs "multiprocessing_context") = false)
    ∧ ∀ d, given = Some d →
        ∀ k, d !! k
             = if decide (k = "num_workers"%string
                          ∨ k = "multiprocessing_context"%string)
               then (if truthy (dict_get kwargs k)
                     then Some (dict_get kwargs k) else None)
               else None.
Proof. by intros (_ & _ & _ & Hkw)%build_datamodule_ok. Qed.

Lemma built_module_loader_kwargs_witness :
  (Cli._build_datamodule (H := demo_collaborators)
     demo_train demo_valid demo_test () demo_kwargs).2 = Ok demo_built
  ∧ ∃ given : option (gmap string PyVal),
      dm_train_loader_kwargs demo_built
      = Some (build_loader_kwargs (Collaborators := demo_collaborators) given)
      ∧ dm_eval_loader_kwargs demo_built
        = Some (build_loader_kwargs (Collaborators := demo_collaborators) given).
Proof.
  assert ((Cli._build_datamodule (H := demo_collaborators)
             demo_train demo_valid demo_test () demo_kwargs).2 = Ok demo_built) as Hb
    by (vm_compute; reflexivity).
  split; [exact Hb|].
  destruct (built_module_loader_kwargs (H := demo_collaborators)
              demo_train demo_valid demo_test () demo_kwargs demo_built Hb)
    as (given & Htl & Hel & _).
  exists given. split; [exact Htl|exact Hel].
Defined.

(** ** The preparation of [kwargs] *)

Section prepare_facts.
Context `{Host}.

Lemma fix_workers_ok (kwargs : gmap string PyVal) (v : PyVal) :
  kwargs !! "num_workers" = Some v →
  Prepare._fix_workers_kwargs kwargs
  = (<["n_threads" := if decide (v = PInt (-1)) then cpu_count else v]>
       (if decide (v = PInt (-1)) then <["num_workers" := cpu_count]> kwargs
        else kwargs),
     Ok ()).
Proof.
  intros Hv. unfold Prepare._fix_workers_kwargs, dict_item. rewrite Hv.
  destruct (decide (v = PInt (-1))).
  - by rewrite lookup_insert_eq.
  - by rewrite Hv.
Qed.

Lemma fix_workers_missing (kwargs : gmap string PyVal) :
  kwargs !! "num_workers" = None →
  Prepare._fix_workers_kwargs kwargs = (kwargs, Raise (KeyError "num_workers")).
Proof.
  intros Hv. unfold Prepare._fix_workers_kwargs, dict_item. by rewrite Hv.
Qed.

End prepare_facts.

(** X10. [_fix_workers_kwargs] on a dict with a [num_workers] entry
    returns normally; afterwards [n_threads] and [num_workers] hold the
    same value, the CPU count where [num_workers] was [-1] and the old
    value otherwise, and every other entry is as before. Without the entry
    it raises [KeyError] and leaves the dict as it was. *)
Theorem fix_workers_kwargs_result `{Host}
    (kwargs missing : gmap string PyVal) (num_workers : PyVal) :
  kwargs !! "num_workers" = Some num_workers →
  missing !! "num_workers" = None →
  (∃ kwargs',
     Prepare._fix_workers_kwargs kwargs = (kwargs', Ok ())
     ∧ kwargs' !! "num_workers"
       = Some (if decide (num_workers = PInt (-1)) then cpu_count else num_workers)
     ∧ kwargs' !! "n_threads" = kwargs' !! "num_workers"
     ∧ ∀ k, k ≠ "num_workers"%string → k ≠ "n_threads"%string →
            kwargs' !! k = kwargs !! k)
  ∧ Prepare._fix_workers_kwargs missing = (missing, Raise (KeyError "num_workers")).
Proof.
  intros Hv Hmissing. split; [|by apply fix_workers_missing].
  eexists. split; [by apply fix_workers_ok|].
  destruct (decide (num_workers = PInt (-1))); split_and!;
    try (by simplify_map_eq); intros k ? ?; by simplify_map_eq.
Qed.

Lemma fix_workers_kwargs_result_witness :
  demo_kwargs !! "num_workers" = Some (PInt 2)
  ∧ (∅ : gmap string PyVal) !! "num_workers" = None
  ∧ (∃ kwargs',
       Prepare._fix_workers_kwargs (H := demo_host) demo_kwargs = (kwargs', Ok ())
       ∧ kwargs' !! "n_threads" = kwargs' !! "num_workers")
  ∧ Prepare._fix_workers_kwargs (H := demo_host) ∅
    = (∅, Raise (KeyError "num_workers")).
Proof.
  assert (demo_kwargs !! "num_workers" = Some (PInt 2)) as Hnw
    by (vm_compute; reflexivity).
  assert ((∅ : gmap string PyVal) !! "num_workers" = None) as Hmissing
    by reflexivity.
  split; [exact Hnw|]. split; [exact Hmissing|].
  destruct (fix_workers_kwargs_result (H := demo_host) demo_kwargs ∅ (PInt 2)
              Hnw Hmissing) as [(kwargs' & Hfix & _ & Hsame & _) Hraise].
  split; [|exact Hraise]. exists kwargs'. split; [exact Hfix|exact Hsame].
Defined.

(** X11. Unless the CPU count is itself [-1], running
    [_fix_workers_kwargs] a second time changes nothing more. *)
Theorem fix_workers_kwargs_idempotent `{Host} (kwargs : gmap string PyVal) :
  cpu_count ≠ PInt (-1) →
  Prepare._fix_workers_kwargs (Prepare._fix_workers_kwargs kwargs).1
  = Prepare._fix_workers_kwargs kwargs.
Proof.
  intros Hcpu. destruct (kwargs !! "num_workers") as [v|] eqn:Hv.
  - rewrite (fix_workers_ok kwargs v Hv). simpl.
    destruct (decide (v = PInt (-1))) as [->|Hne].
    + erewrite fix_workers_ok by (by simplify_map_eq).
      rewrite !decide_False by done. by rewrite insert_insert_eq.
    + erewrite fix_workers_ok by (by simplify_map_eq).
      rewrite !decide_False by done. by rewrite insert_insert_eq.
  - rewrite (fix_workers_missing kwargs Hv). simpl.
    by rewrite (fix_workers_missing kwargs Hv).
Qed.

Lemma fix_workers_kwargs_idempotent_witness :
  cpu_count (Host := demo_host) ≠ PInt (-1)
  ∧ Prepare._fix_workers_kwargs (H := demo_host) demo_fixed_kwargs
    = Prepare._fix_workers_kwargs (H := demo_host) demo_train_kwargs.
Proof.
  assert (cpu_count (Host := demo_host) ≠ PInt (-1)) as Hcpu by discriminate.
  split; [exact Hcpu|].
  exact (fix_workers_kwargs_idempotent (H := demo_host) demo_train_kwargs Hcpu).
Defined.





(** ** The loader of row dicts *)


Lemma dict_set_keys (row_dict : RowDict) (id : Z) (row : Row) :
  (dict_set row_dict id row).*1
  = if decide (id ∈ row_dict.*1) then row_dict.*1 else row_dict.*1 ++ [id].
Proof.
  induction row_dict as [|[id' row'] rest IH]; csimpl; [done|].
  destruct (decide (id' = id)) as [->|Hne]; csimpl.
  - rewrite decide_True by (by left). done.
  - rewrite IH. destruct (decide (id ∈ rest.*1)).
    + rewrite decide_True by (by right). done.
    + rewrite decide_False; [done|]. rewrite elem_of_cons. naive_solver.
Qed.

Lemma dict_set_NoDup (row_dict : RowDict) (id : Z) (row : Row) :
  NoDup row_dict.*1 → NoDup (dict_set row_dict id row).*1.
Proof.
  intros Hnd. rewrite dict_set_keys. destruct (decide (id ∈ row_dict.*1)); [done|].
  apply NoDup_app. split_and!; [done| |apply NoDup_singleton].
  intros x Hx ->%list_elem_of_singleton. done.
Qed.

Lemma dict_set_elem_of (row_dict : RowDict) (id : Z) (row : Row) (kr : Z * Row) :
  kr ∈ dict_set row_dict id row → kr = (id, row) ∨ kr ∈ row_dict.
Proof.
  induction row_dict as [|[id' row'] rest IH]; simpl.
  - intros ->%list_elem_of_singleton. by left.
  - destruct (decide (id' = id)) as [->|Hne]; rewrite !elem_of_cons; naive_solver.
Qed.

Lemma dict_set_get (row_dict : RowDict) (id k : Z) (row : Row) :
  row_dict_get (dict_set row_dict id row) k
  = if decide (k = id) then Some row else row_dict_get row_dict k.
Proof.
  unfold row_dict_get. induction row_dict as [|[id' row'] rest IH]; simpl.
  - destruct (decide (k = id)) as [->|?]; by simplify_map_eq.
  - destruct (decide (id' = id)) as [->|Hne]; simpl.
    + destruct (decide (k = id)) as [->|?]; by simplify_map_eq.
    + destruct (decide (k = id')) as [->|?].
      * rewrite !lookup_insert_eq. by rewrite decide_False by done.
      * rewrite !lookup_insert_ne by done. apply IH.
Qed.

Section load_facts.
Context `{Host}.


(** What the loop body returns: the row with its id, and its label if it
    has one, as integers, and nothing else changed. *)
Lemma convert_row_Returned (cluster_attr : PyVal) (row row' : Row) (id : Z) :
  Load.convert_row cluster_attr row = Returned (id, row') →
  row' !! "id" = Some (PInt id)
  ∧ (∀ attr v, cluster_attr = PStr attr → row' !! attr = Some v → ∃ z, v = PInt z)
  ∧ (∀ k, k ≠ "id"%string → cluster_attr ≠ PStr k → row' !! k = row !! k)
  ∧ dom row' = dom row.
Proof.
  unfold Load.convert_row.
  set (labelled := match cluster_attr with PStr attr => _ | _ => _ end).
  assert (∀ row1, labelled = Returned row1 →
            (∀ attr v, cluster_attr = PStr attr → row1 !! attr = Some v → ∃ z, v = PInt z)
            ∧ (∀ k, cluster_attr ≠ PStr k → row1 !! k = row !! k)
            ∧ dom row1 = dom row) as Hlabelled.
  { unfold labelled. intros row1. destruct cluster_attr as [|z|attr].
    - intros [= <-]. by split_and!.
    - intros [= <-]. by split_and!.
    - destruct (row !! attr) as [v|] eqn:Hv.
      + destruct (Load.int v) as [label|]; [simpl|done]. intros [= <-]. split_and!.
        * intros ?? [= <-]. rewrite lookup_insert_eq. intros [= <-]. by eexists.
        * intros k Hk. rewrite lookup_insert_ne; [done|congruence].
        * rewrite dom_insert_L. apply elem_of_dom_2 in Hv. set_solver.
      + intros [= <-]. split_and!; [|done..].
        intros ?? [= <-]. by rewrite Hv. }
  destruct labelled as [row1|]; [simpl|done].
  destruct (Hlabelled row1 eq_refl) as (Hint & Hother & Hdom).
  destruct (row1 !! "id") as [v|] eqn:Hid; [|done].
  destruct (Load.int v) as [id'|]; [simpl|done]. intros [= <- <-]. split_and!.
  - by rewrite lookup_insert_eq.
  - intros attr v' Hattr. destruct (decide (attr = "id"%string)) as [->|?].
    + rewrite lookup_insert_eq. intros [= <-]. by eexists.
    + rewrite lookup_insert_ne by done. by apply Hint.
  - intros k Hk Hk'. rewrite lookup_insert_ne by done. by apply Hother.
  - rewrite dom_insert_L, Hdom. apply elem_of_dom_2 in Hid. rewrite Hdom in Hid.
    set_solver.
Qed.


End load_facts.

Section read_rows_facts.
Context `{Host}.

Lemma read_rows_snoc (cluster_attr : PyVal) (reader : list Row) (row : Row)
    (row_dict : RowDict) :
  Load.read_rows cluster_attr (reader ++ [row]) row_dict
  = (row_dict' ← Load.read_rows cluster_attr reader row_dict;
     '(id, row') ← Load.convert_row cluster_attr row;
     Returned (dict_set row_dict' id row')).
Proof.
  revert row_dict. induction reader as [|r reader IH]; intros row_dict; simpl.
  - by destruct (Load.convert_row cluster_attr row) as [[id row']|].
  - destruct (Load.convert_row cluster_attr r) as [[id r']|]; [simpl|done]. apply IH.
Qed.


Lemma read_rows_converted (cluster_attr : PyVal) (reader : list Row)
    (row_dict out : RowDict) :
  Load.read_rows cluster_attr reader row_dict = Returned out →
  ∃ converted,
    Forall2 (λ row kr, Load.convert_row cluster_attr row = Returned kr) reader converted
    ∧ out = foldl (λ d kr, dict_set d kr.1 kr.2) row_dict converted.
Proof.
  revert row_dict. induction reader as [|r reader IH]; intros row_dict; simpl.
  - intros [= <-]. exists []. by split; [constructor|].
  - destruct (Load.convert_row cluster_attr r) as [[id r']|e] eqn:Hr; [simpl|done].
    intros (converted & Hall & ->)%IH. exists ((id, r') :: converted).
    split; [by constructor|done].
Qed.

Lemma foldl_dict_set_NoDup (converted : list (Z * Row)) (row_dict : RowDict) :
  NoDup row_dict.*1 →
  NoDup (foldl (λ d kr, dict_set d kr.1 kr.2) row_dict converted).*1.
Proof.
  revert row_dict. induction converted as [|kr converted IH]; intros row_dict Hnd;
    simpl; [done|]. by apply IH, dict_set_NoDup.
Qed.

Lemma foldl_dict_set_elem_of (converted : list (Z * Row)) (row_dict : RowDict)
    (kr : Z * Row) :
  kr ∈ foldl (λ d kr, dict_set d kr.1 kr.2) row_dict converted →
  kr ∈ converted ∨ kr ∈ row_dict.
Proof.
  revert row_dict. induction converted as [|[k' r'] converted IH]; intros row_dict;
    simpl; [by right|].
  intros [Hin|Hin%dict_set_elem_of]%IH.
  - left. by right.
  - destruct Hin as [->|Hin]; [left; by left|by right].
Qed.

(** The row under a key is the last one that was assigned to it. *)
Lemma foldl_dict_set_get (converted : list (Z * Row)) (row_dict : RowDict)
    (k : Z) (row : Row) :
  row_dict_get (foldl (λ d kr, dict_set d kr.1 kr.2) row_dict converted) k = Some row
  ↔ (∃ i, converted !! i = Some (k, row)
          ∧ ∀ j row', converted !! j = Some (k, row') → (j ≤ i)%nat)
    ∨ (row_dict_get row_dict k = Some row ∧ ∀ kr, kr ∈ converted → kr.1 ≠ k).
Proof.
  revert row_dict. induction converted as [|[k' row'] converted IH] using rev_ind;
    intros row_dict.
  - simpl. split.
    + intros Hget. right. split; [done|]. by intros kr ?%elem_of_nil.
    + intros [(i & Hi & _)|[Hget _]]; [by rewrite lookup_nil in Hi|done].
  - rewrite foldl_app. simpl. rewrite dict_set_get.
    destruct (decide (k = k')) as [->|Hne].
    + split.
      * intros [= <-]. left. exists (length converted). split.
        -- by apply list_lookup_middle.
        -- intros j row'' Hj. apply lookup_lt_Some in Hj.
           rewrite length_app in Hj. simpl in Hj. lia.
      * intros [(i & Hi & Hlast)|[_ Hnone]].
        -- pose proof (Hlast (length converted) row'
                         (list_lookup_middle _ [] _ _ eq_refl)) as Hle.
           pose proof (lookup_lt_Some _ _ _ Hi) as Hlt.
           rewrite length_app in Hlt. simpl in Hlt.
           assert (i = length converted) as -> by lia.
           rewrite list_lookup_middle in Hi by done. by injection Hi as ->.
        -- exfalso. apply (Hnone (k', row')); [|done].
           apply elem_of_app. right. by left.
    + rewrite IH. split.
      * intros [(i & Hi & Hlast)|[Hget Hnone]].
        -- left. exists i. split; [by apply lookup_app_l_Some|].
           intros j row'' Hj. apply lookup_app_Some in Hj as [Hj|[_ Hj]]; [by eauto|].
           apply list_lookup_singleton_Some in Hj as [_ [= -> _]]. done.
        -- right. split; [done|]. intros kr [Hin|Hin%list_elem_of_singleton]%elem_of_app;
             [by apply Hnone|by subst].
      * intros [(i & Hi & Hlast)|[Hget Hnone]].
        -- left. apply lookup_app_Some in Hi as [Hi|[_ Hi]]; last first.
           { apply list_lookup_singleton_Some in Hi as [_ [= -> _]]. done. }
           exists i. split; [done|]. intros j row'' Hj. apply (Hlast j row'').
           by apply lookup_app_l_Some.
        -- right. split; [done|]. intros kr Hin. apply Hnone, elem_of_app. by left.
Qed.

End read_rows_facts.

(** X14. A row dict that [_build_row_dict] returns has pairwise different
    keys, every row is stored under its own id, which the row holds as an
    integer, and a cluster label that a row holds is an integer. *)
Theorem loaded_row_dict_is_keyed_by_id `{Host}
    (csv_filepath : string) (reader : list Row) (kwargs : gmap string PyVal)
    (row_dict : RowDict) :
  (Load._build_row_dict csv_filepath reader kwargs).2 = Returned row_dict →
  NoDup row_dict.*1
  ∧ unique_keys (Some row_dict) = true
  ∧ ∀ id row, (id, row) ∈ row_dict →
      row !! "id" = Some (PInt id)
      ∧ ∀ attr v, dict_get kwargs "cluster_attr" = PStr attr →
                  row !! attr = Some v → ∃ z, v = PInt z.
Proof.
  unfold Load._build_row_dict.
  destruct (kwargs !! "csv_encoding") as [enc|]; [|done].
  destruct (Load.read_rows _ reader []) as [out|e] eqn:Hread; [simpl|done].
  intros [= <-]. apply read_rows_converted in Hread as (converted & Hall & ->).
  assert (NoDup (foldl (λ d kr, dict_set d kr.1 kr.2) [] converted).*1) as Hnd
    by (apply foldl_dict_set_NoDup; constructor).
  split; [done|]. split; [by apply bool_decide_eq_true_2|].
  intros id row [Hin|Hin%elem_of_nil]%foldl_dict_set_elem_of; [|done].
  apply list_elem_of_lookup in Hin as [i Hi].
  destruct (Forall2_lookup_r _ _ _ _ _ Hall Hi) as (r & _ & Hr).
  apply convert_row_Returned in Hr as (Hid & Hlabel & _). by split.
Qed.

Lemma loaded_row_dict_is_keyed_by_id_witness :
  (Load._build_row_dict (H := demo_host) "train.csv" demo_reader demo_train_kwargs).2
  = Returned demo_loaded
  ∧ unique_keys (Some demo_loaded) = true.
Proof.
  assert ((Load._build_row_dict (H := demo_host) "train.csv" demo_reader
             demo_train_kwargs).2 = Returned demo_loaded) as Hload
    by (vm_compute; reflexivity).
  split; [exact Hload|].
  exact (proj1 (proj2 (loaded_row_dict_is_keyed_by_id (H := demo_host)
                         "train.csv" demo_reader demo_train_kwargs demo_loaded Hload))).
Defined.

(** X15. In a row dict that [_build_row_dict] returns, the row under an id
    is the conversion of the last row of the file with that id: a later row
    replaces an earlier one with the same id. *)
Theorem loaded_row_dict_last_row_wins `{Host}
    (csv_filepath : string) (reader : list Row) (kwargs : gmap string PyVal)
    (row_dict : RowDict) (id : Z) (row : Row) :
  (Load._build_row_dict csv_filepath reader kwargs).2 = Returned row_dict →
  row_dict_get row_dict id = Some row
  ↔ ∃ i r,
      reader !! i = Some r
      ∧ Load.convert_row (dict_get kwargs "cluster_attr") r = Returned (id, row)
      ∧ ∀ j r' row',
          reader !! j = Some r' →
          Load.convert_row (dict_get kwargs "cluster_attr") r' = Returned (id, row') →
          (j ≤ i)%nat.
Proof.
  unfold Load._build_row_dict.
  destruct (kwargs !! "csv_encoding") as [enc|]; [|done].
  destruct (Load.read_rows _ reader []) as [out|e] eqn:Hread; [simpl|done].
  intros [= <-]. apply read_rows_converted in Hread as (converted & Hall & ->).
  rewrite foldl_dict_set_get. split.
  - intros [(i & Hi & Hlast)|[Hget _]]; [|done].
    destruct (Forall2_lookup_r _ _ _ _ _ Hall Hi) as (r & Hr & Hconv).
    exists i, r. split_and!; [done..|]. intros j r' row' Hj Hconv'.
    destruct (Forall2_lookup_l _ _ _ _ _ Hall Hj) as (kr & Hkr & Hconv'').
    rewrite Hconv' in Hconv''. injection Hconv'' as <-. by eapply Hlast.
  - intros (i & r & Hr & Hconv & Hlast). left.
    destruct (Forall2_lookup_l _ _ _ _ _ Hall Hr) as (kr & Hkr & Hconv').
    rewrite Hconv in Hconv'. injection Hconv' as <-.
    exists i. split; [done|]. intros j row' Hj.
    destruct (Forall2_lookup_r _ _ _ _ _ Hall Hj) as (r' & Hr' & Hconv'). by eauto.
Qed.

Lemma loaded_row_dict_last_row_wins_witness :
  (Load._build_row_dict (H := demo_host) "train.csv" demo_reader demo_train_kwargs).2
  = Returned demo_loaded
  ∧ row_dict_get demo_loaded 1
    = Some {[ "id" := PInt 1; "name" := PStr "c"; "cluster" := PInt 20 ]}
  ∧ ∃ i r,
      demo_reader !! i = Some r
      ∧ Load.convert_row (H := demo_host)
          (dict_get demo_train_kwargs "cluster_attr") r
        = Returned (1, {[ "id" := PInt 1; "name" := PStr "c";
                          "cluster" := PInt 20 ]})
      ∧ ∀ j r' row',
          demo_reader !! j = Some r' →
          Load.convert_row (H := demo_host)
            (dict_get demo_train_kwargs "cluster_attr") r'
          = Returned (1, row') →
          (j ≤ i)%nat.
Proof.
  assert ((Load._build_row_dict (H := demo_host) "train.csv" demo_reader
             demo_train_kwargs).2 = Returned demo_loaded) as Hload
    by (vm_compute; reflexivity).
  assert (row_dict_get demo_loaded 1
          = Some {[ "id" := PInt 1; "name" := PStr "c"; "cluster" := PInt 20 ]})
    as Hget by (vm_compute; reflexivity).
  split; [exact Hload|]. split; [exact Hget|].
  exact (proj1 (loaded_row_dict_last_row_wins (H := demo_host)
                  "train.csv" demo_reader demo_train_kwargs demo_loaded 1 _ Hload)
           Hget).
Defined.


(** ** The model, the trainer and prediction *)


Lemma prefix_append (needle hay : string) :
  String.prefix needle hay = true ↔ ∃ post, hay = needle +:+ post.
Proof.
  revert hay. induction needle as [|c needle IH]; intros hay; simpl.
  - split; [intros _; by exists hay|by destruct hay].
  - destruct hay as [|c' hay]; simpl; [split; [done|by intros [? ?]]|].
    destruct (Ascii.ascii_dec c c') as [->|Hne].
    + rewrite IH. split; intros [post Hpost]; exists post; [by rewrite Hpost|].
      by injection Hpost.
    + split; [done|]. intros [post [= ? _]]. done.
Qed.

Lemma str_contains_occurs (needle hay : string) :
  str_contains needle hay = true ↔ ∃ pre post, hay = pre +:+ needle +:+ post.
Proof.
  induction hay as [|c hay IH]; cbn [str_contains].
  - rewrite orb_false_r, prefix_append. split.
    + intros [post Hpost]. by exists EmptyString, post.
    + intros (pre & post & Hhay). destruct pre; [by exists post|done].
  - rewrite orb_true_iff, IH, prefix_append. split.
    + intros [[post Hpost]|(pre & post & Hhay)].
      * by exists EmptyString, post.
      * exists (String c pre), post. simpl. by rewrite Hhay.
    + intros (pre & post & Hhay). destruct pre as [|c' pre]; simpl in Hhay.
      * left. by exists post.
      * right. injection Hhay as _ Hhay. by exists pre, post.
Qed.

Lemma dict_item_Ok (kwargs : gmap string PyVal) (k : string) (v : PyVal) :
  dict_item kwargs k = Ok v → kwargs !! k = Some v ∧ dict_get kwargs k = v.
Proof.
  unfold dict_item, dict_get. destruct (kwargs !! k); [|done]. by intros [= ->].
Qed.

Lemma copy_truthy_lookup (ks : list string) (kwargs target d : gmap string PyVal) :
  Build.copy_truthy ks kwargs target = Ok d →
  Forall (λ k, is_Some (kwargs !! k)) ks
  ∧ ∀ k, d !! k
         = if decide (k ∈ ks ∧ truthy (dict_get kwargs k) = true)
           then Some (dict_get kwargs k) else target !! k.
Proof.
  unfold Build.copy_truthy. revert target.
  induction ks as [|k0 ks IH]; intros target; simpl.
  - intros [= <-]. split; [done|]. intros k.
    by destruct (decide (k ∈ [] ∧ truthy (dict_get kwargs k) = true))
      as [[?%elem_of_nil _]|].
  - destruct (dict_item kwargs k0) as [v|] eqn:Hv; [simpl|done].
    apply dict_item_Ok in Hv as [Hv Hget].
    intros [Hall Hd]%IH. split; [by constructor|]. intros k. rewrite Hd.
    destruct (decide (k ∈ ks ∧ truthy (dict_get kwargs k) = true)) as [[Hin Ht]|Hno].
    + rewrite decide_True; [done|]. split; [by right|done].
    + destruct (decide (k = k0)) as [Heq|Hne].
      * subst k. rewrite Hget. destruct (truthy v) eqn:Htv.
        -- rewrite decide_True by (split; [left|]; done).
           by rewrite lookup_insert_eq.
        -- rewrite decide_False; [done|]. by intros [_ ?].
      * rewrite decide_False.
        -- destruct (truthy v); [by rewrite lookup_insert_ne|done].
        -- intros [[?|?]%elem_of_cons ?]; [done|]. by apply Hno.
Qed.

Lemma copy_truthy_agree (ks : list string) (k1 k2 target : gmap string PyVal) :
  (∀ k, k ∈ ks → k1 !! k = k2 !! k) →
  Build.copy_truthy ks k1 target = Build.copy_truthy ks k2 target.
Proof.
  unfold Build.copy_truthy. revert target.
  induction ks as [|k0 ks IH]; intros target Hagree; [done|]. simpl.
  assert (dict_item k1 k0 = dict_item k2 k0) as ->
    by (unfold dict_item; by rewrite (Hagree k0) by left).
  destruct (dict_item k2 k0) as [v|]; [simpl|done].
  apply IH. intros k Hk. apply Hagree. by right.
Qed.

Section build_facts.
Context `{Collaborators}.

(** The class and the arguments that [_build_model] chooses. *)
Lemma model_call_args (rn : RowNumericalizer) (kwargs : gmap string PyVal) cls args :
  Build.model_call rn kwargs = Ok (cls, args) →
  ∃ (b : bool) build search,
    Cli._is_record_linkage kwargs = Ok b
    ∧ cls = (if b then Build.LinkageEmbed else Build.EntityEmbed)
    ∧ args !! "source_attr"
      = (if b then Build.MVal <$> kwargs !! "source_attr" else None)
    ∧ args !! "left_source"
      = (if b then Build.MVal <$> kwargs !! "left_source" else None)
    ∧ (b = true → is_Some (kwargs !! "source_attr") ∧ is_Some (kwargs !! "left_source"))
    ∧ args !! "index_build_kwargs" = Some (Build.MDict build)
    ∧ args !! "index_search_kwargs" = Some (Build.MDict search)
    ∧ Build.copy_truthy ["m"; "max_m0"; "ef_construction"; "n_threads"] kwargs ∅
      = Ok build
    ∧ Build.copy_truthy ["ef_search"; "n_threads"] kwargs ∅ = Ok search.
Proof.
  unfold Build.model_call.
  destruct (Cli._is_record_linkage kwargs) as [b|]; [simpl|done].
  set (base := <["row_numericalizer" := _]> _).
  destruct (if b then _ else _) as [[cls0 args0]|] eqn:Hmode; [simpl|done].
  assert (cls0 = (if b then Build.LinkageEmbed else Build.EntityEmbed)
          ∧ args0 !! "source_attr"
            = (if b then Build.MVal <$> kwargs !! "source_attr" else None)
          ∧ args0 !! "left_source"
            = (if b then Build.MVal <$> kwargs !! "left_source" else None)
          ∧ (b = true → is_Some (kwargs !! "source_attr")
                        ∧ is_Some (kwargs !! "left_source")))
    as (Hcls & Hsa & Hls & Hsome).
  { destruct b.
    - destruct (dict_item kwargs "source_attr") as [sa|] eqn:Hsa; [simpl in Hmode|done].
      destruct (dict_item kwargs "left_source") as [ls|] eqn:Hls; [simpl in Hmode|done].
      apply dict_item_Ok in Hsa as [Hsa _]. apply dict_item_Ok in Hls as [Hls _].
      injection Hmode as <- <-. rewrite Hsa, Hls. unfold base.
      split_and!; [done|by simplify_map_eq..|by eauto].
    - injection Hmode as <- <-. unfold base. split_and!; by simplify_map_eq. }
  clearbody base. clear Hmode.
  destruct (dict_item kwargs "embedding_size") as [es|]; [simpl|done].
  destruct (dict_item kwargs "lr") as [lr|]; [simpl|done].
  destruct (dict_item kwargs "ann_k") as [ak|]; [simpl|done].
  destruct (dict_item kwargs "sim_threshold") as [st|]; [simpl|done].
  destruct (Build.copy_truthy ["m"; "max_m0"; "ef_construction"; "n_threads"] kwargs ∅)
    as [build|]; [simpl|done].
  destruct (Build.copy_truthy ["ef_search"; "n_threads"] kwargs ∅)
    as [search|]; [simpl|done].
  intros [= <- <-]. exists b, build, search.
  split_and!; [done|done| | |done|by simplify_map_eq..|done|done].
  - rewrite <- Hsa. destruct (truthy es), (truthy lr), (truthy ak), (truthy st);
      by simplify_map_eq.
  - rewrite <- Hls. destruct (truthy es), (truthy lr), (truthy ak), (truthy st);
      by simplify_map_eq.
Qed.

End build_facts.

Section mode_facts.
Context `{Collaborators}.

Lemma datamodule_call_mode_args train valid test rn (kwargs : gmap string PyVal)
    cls args :
  Cli.datamodule_call train valid test rn kwargs = Ok (cls, args) →
  ∃ b : bool,
    Cli._is_record_linkage kwargs = Ok b
    ∧ cls = (if b then Cli.LinkageDataModule else Cli.DeduplicationDataModule)
    ∧ args !! "source_attr"
      = (if b then Cli.AVal <$> kwargs !! "source_attr" else None)
    ∧ args !! "left_source"
      = (if b then Cli.AVal <$> kwargs !! "left_source" else None).
Proof.
  unfold Cli.datamodule_call.
  set (INNER := Cli.for_each ["num_workers"; "multiprocessing_context"]%string _ _).
  destruct (dict_item kwargs "cluster_attr") as [ca|]; [simpl|done].
  destruct (dict_item kwargs "batch_size") as [bs|]; [simpl|done].
  destruct (dict_item kwargs "eval_batch_size") as [ebs|]; [simpl|done].
  destruct (Cli._is_record_linkage kwargs) as [b|]; [simpl|done].
  set (base := <["train_row_dict" := _]> _).
  destruct (if b then _ else _) as [[cls0 args0]|] eqn:Hmode; [simpl|done].
  assert (cls0 = (if b then Cli.LinkageDataModule else Cli.DeduplicationDataModule)
          ∧ args0 !! "source_attr"
            = (if b then Cli.AVal <$> kwargs !! "source_attr" else None)
          ∧ args0 !! "left_source"
            = (if b then Cli.AVal <$> kwargs !! "left_source" else None))
    as (Hcls & Hsa & Hls).
  { destruct b.
    - destruct (dict_item kwargs "source_attr") as [sa|] eqn:Hsa; [simpl in Hmode|done].
      destruct (dict_item kwargs "left_source") as [ls|] eqn:Hls; [simpl in Hmode|done].
      apply dict_item_Ok in Hsa as [Hsa _]. apply dict_item_Ok in Hls as [Hls _].
      injection Hmode as <- <-. rewrite Hsa, Hls. unfold base.
      split_and!; [done|by simplify_map_eq..].
    - injection Hmode as <- <-. unfold base. split_and!; by simplify_map_eq. }
  clearbody base. clear Hmode.
  destruct (truthy (dict_get kwargs "num_workers")
            || truthy (dict_get kwargs "multiprocessing_context")); simpl.
  - destruct INNER as [inner|]; [simpl|done].
    intros [= <- <-]. exists b. rewrite <- Hsa, <- Hls.
    destruct (truthy (dict_get kwargs "random_seed")); split_and!;
      by simplify_map_eq.
  - intros [= <- <-]. exists b. rewrite <- Hsa, <- Hls.
    destruct (truthy (dict_get kwargs "random_seed")); split_and!;
      by simplify_map_eq.
Qed.

(** The mode of a module that the builder returns. *)
Lemma build_datamodule_mode train valid test rn (kwargs : gmap string PyVal) dm :
  (Cli._build_datamodule train valid test rn kwargs).2 = Ok dm →
  match dm with
  | Cli.LinkageDM l =>
      Cli._is_record_linkage kwargs = Ok true
      ∧ PStr <$> Linkage.source_attr l = kwargs !! "source_attr"
      ∧ Linkage.left_source l = kwargs !! "left_source"
  | Cli.DedupDM d => Cli._is_record_linkage kwargs = Ok false
  end.
Proof.
  unfold Cli._build_datamodule.
  destruct (Cli.datamodule_call train valid test rn kwargs) as [[cls args]|e] eqn:Hcall;
    [simpl|done].
  apply datamodule_call_mode_args in Hcall as (b & Hb & -> & Hsa & Hls).
  unfold Cli.construct.
  repeat match goal with
    | |- context [mbind _ (?f args ?k)] => destruct (f args k); [simpl|done]
    end.
  destruct b.
  - unfold Cli.arg_str, Cli.arg_val. rewrite Hsa, Hls.
    destruct (kwargs !! "source_attr") as [[| |sa]|]; simpl; try done.
    destruct (kwargs !! "left_source") as [ls|]; simpl; [|done].
    unfold Linkage.__init__. simpl.
    destruct (_check_for_common_rows _ _ _) as [[]|]; [|done].
    by intros [= <-].
  - destruct (Dedup.__init__ _ _ _ _ _ _ _ _ _ _ _ _) as [self [[]|e]];
      [|done]. by intros [= <-].
Qed.

End mode_facts.

(** X17. The two builders and the loader of a checkpoint agree on the
    mode. With a linkage data module from [_build_datamodule], the model
    that [_build_model] makes from the same [kwargs] is a [LinkageEmbed]
    with the module's [source_attr] and [left_source]; with a deduplication
    data module it is an [EntityEmbed] that is given neither; and
    [_load_model] loads the class that [_build_model] builds. *)
Theorem model_class_follows_datamodule `{Collaborators}
    train valid test (rn : RowNumericalizer) (kwargs : gmap string PyVal)
    (dm : Cli.DataModule) (model : Build.Model) :
  (Cli._build_datamodule train valid test rn kwargs).2 = Ok dm →
  (Build._build_model rn kwargs).2 = Ok model →
  match dm with
  | Cli.LinkageDM l =>
      Build.model_cls model = Build.LinkageEmbed
      ∧ Build.model_args model !! "source_attr"
        = (λ s, Build.MVal (PStr s)) <$> Linkage.source_attr l
      ∧ Build.model_args model !! "left_source"
        = Build.MVal <$> Linkage.left_source l
  | Cli.DedupDM d =>
      Build.model_cls model = Build.EntityEmbed
      ∧ Build.model_args model !! "source_attr" = None
      ∧ Build.model_args model !! "left_source" = None
  end
  ∧ ∀ cls path, Build._load_model kwargs = Ok (cls, path) →
                cls = Build.model_cls model.
Proof.
  intros Hdm%build_datamodule_mode. unfold Build._build_model.
  destruct (Build.model_call rn kwargs) as [[cls args]|e] eqn:Hcall; [simpl|done].
  intros [= <-]. simpl.
  apply model_call_args in Hcall
    as (b & build & search & Hb & -> & Hsa & Hls & _).
  split.
  - destruct dm as [d|l].
    + rewrite Hb in Hdm. injection Hdm as ->. by rewrite Hsa, Hls.
    + destruct Hdm as (Hb' & Hsa' & Hls'). rewrite Hb in Hb'. injection Hb' as ->.
      rewrite Hsa, Hls, <- Hsa', Hls'. split_and!; [done| |done].
      by destruct (Linkage.source_attr l).
  - intros cls path. unfold Build._load_model. rewrite Hb. simpl.
    destruct (dict_item kwargs "model_save_filepath"); [simpl|done].
    by intros [= <- _].
Qed.

Lemma model_class_follows_datamodule_witness :
  (Cli._build_datamodule (H := demo_collaborators)
     demo_train demo_valid demo_test () demo_fixed_kwargs).2 = Ok demo_fixed_built
  ∧ Build.model_cls
      (value_of {| Build.model_cls := Build.LinkageEmbed; Build.model_args := ∅ |}
         (Build._build_model (H := demo_collaborators) () demo_fixed_kwargs).2)
    = Build.EntityEmbed.
Proof.
  assert ((Cli._build_datamodule (H := demo_collaborators)
             demo_train demo_valid demo_test () demo_fixed_kwargs).2
          = Ok demo_fixed_built) as Hb
    by (vm_compute; reflexivity).
  assert (returned (Build._build_model (H := demo_collaborators) ()
                      demo_fixed_kwargs).2 = true) as Hm
    by (vm_compute; reflexivity).
  apply (returned_value_of {| Build.model_cls := Build.LinkageEmbed;
                              Build.model_args := ∅ |}) in Hm.
  split; [exact Hb|].
  exact (proj1 (proj1 (model_class_follows_datamodule (H := demo_collaborators)
                         demo_train demo_valid demo_test () demo_fixed_kwargs
                         demo_fixed_built _ Hb Hm))).
Defined.

Lemma fix_workers_same `{Host} (kwargs0 kwargs : gmap string PyVal) :
  Prepare._fix_workers_kwargs kwargs0 = (kwargs, Ok ()) →
  ∃ w0 w, kwargs0 !! "num_workers" = Some w0
          ∧ w = (if decide (w0 = PInt (-1)) then cpu_count else w0)
          ∧ kwargs !! "num_workers" = Some w
          ∧ kwargs !! "n_threads" = Some w.
Proof.
  destruct (kwargs0 !! "num_workers") as [w0|] eqn:Hw0.
  - rewrite (fix_workers_ok kwargs0 w0 Hw0). intros [= <-].
    exists w0. eexists. split_and!; [done..| |].
    + destruct (decide (w0 = PInt (-1))); by simplify_map_eq.
    + by simplify_map_eq.
  - by rewrite (fix_workers_missing kwargs0 Hw0).
Qed.

Lemma index_kwargs_threads (kwargs build search : gmap string PyVal) :
  Build.copy_truthy ["m"; "max_m0"; "ef_construction"; "n_threads"] kwargs ∅
  = Ok build →
  Build.copy_truthy ["ef_search"; "n_threads"] kwargs ∅ = Ok search →
  build !! "n_threads"
  = (if truthy (dict_get kwargs "n_threads")
     then Some (dict_get kwargs "n_threads") else None)
  ∧ search !! "n_threads" = build !! "n_threads".
Proof.
  intros [_ Hbuild]%copy_truthy_lookup [_ Hsearch]%copy_truthy_lookup.
  rewrite Hbuild, Hsearch. destruct (truthy (dict_get kwargs "n_threads")).
  - rewrite !decide_True; [done|split; [set_solver|done]..].
  - rewrite !decide_False; [done|by intros [_ ?]..].
Qed.

(** X18. After [_fix_workers_kwargs], the model and the data module that
    the builders make are given the same number: the [n_threads] of both
    index kwargs of the model is the [num_workers] of the loader kwargs
    that the data module was given, and where the module was given none
    (the number is 0 or [None]) the index is given none either. *)
Theorem index_threads_are_loader_workers `{Collaborators} `{Host}
    train valid test (rn : RowNumericalizer) (kwargs0 kwargs : gmap string PyVal)
    (dm : Cli.DataModule) (model : Build.Model) :
  Prepare._fix_workers_kwargs kwargs0 = (kwargs, Ok ()) →
  (Cli._build_datamodule train valid test rn kwargs).2 = Ok dm →
  (Build._build_model rn kwargs).2 = Ok model →
  ∃ (build search : gmap string PyVal) (given : option (gmap string PyVal)),
    Build.model_args model !! "index_build_kwargs" = Some (Build.MDict build)
    ∧ Build.model_args model !! "index_search_kwargs" = Some (Build.MDict search)
    ∧ dm_train_loader_kwargs dm = Some (build_loader_kwargs given)
    ∧ dm_eval_loader_kwargs dm = Some (build_loader_kwargs given)
    ∧ search !! "n_threads" = build !! "n_threads"
    ∧ build !! "n_threads" = given ≫= (λ d, d !! "num_workers").
Proof.
  intros (w0 & w & _ & _ & Hnw & Hnt)%fix_workers_same
         (_ & _ & _ & given & Htl & Hel & Hnone & Hgiven)%build_datamodule_ok.
  unfold Build._build_model.
  destruct (Build.model_call rn kwargs) as [[cls args]|e] eqn:Hcall; [simpl|done].
  intros [= <-]. simpl.
  apply model_call_args in Hcall
    as (b & build & search & _ & _ & _ & _ & _ & Hbuild & Hsearch & Hb & Hs).
  destruct (index_kwargs_threads _ _ _ Hb Hs) as [Hthreads Hsame].
  exists build, search, given. split_and!; [done..|].
  rewrite Hthreads.
  assert (dict_get kwargs "n_threads" = w) as -> by (unfold dict_get; by rewrite Hnt).
  assert (dict_get kwargs "num_workers" = w) as Hw by (unfold dict_get; by rewrite Hnw).
  destruct given as [d|]; simpl.
  - rewrite (Hgiven d eq_refl "num_workers"%string).
    rewrite decide_True by auto. by rewrite Hw.
  - destruct Hnone as [Hnone _]. destruct (Hnone eq_refl) as [Hfalse _].
    by rewrite Hw in Hfalse; rewrite Hfalse.
Qed.

Lemma index_threads_are_loader_workers_witness :
  Prepare._fix_workers_kwargs (H := demo_host) demo_train_kwargs
  = (demo_fixed_kwargs, Ok ())
  ∧ (Cli._build_datamodule (H := demo_collaborators)
       demo_train demo_valid demo_test () demo_fixed_kwargs).2 = Ok demo_fixed_built
  ∧ ∃ (build search : gmap string PyVal) (given : option (gmap string PyVal)),
      dm_train_loader_kwargs demo_fixed_built
      = Some (build_loader_kwargs (Collaborators := demo_collaborators) given)
      ∧ search !! "n_threads" = build !! "n_threads"
      ∧ build !! "n_threads" = given ≫= (λ d, d !! "num_workers").
Proof.
  assert (Prepare._fix_workers_kwargs (H := demo_host) demo_train_kwargs
          = (demo_fixed_kwargs, Ok ())) as Hfix
    by (apply (fix_workers_ok (H := demo_host) demo_train_kwargs (PInt (-1)));
        vm_compute; reflexivity).
  assert ((Cli._build_datamodule (H := demo_collaborators)
             demo_train demo_valid demo_test () demo_fixed_kwargs).2
          = Ok demo_fixed_built) as Hb
    by (vm_compute; reflexivity).
  assert (returned (Build._build_model (H := demo_collaborators) ()
                      demo_fixed_kwargs).2 = true) as Hm
    by (vm_compute; reflexivity).
  apply (returned_value_of {| Build.model_cls := Build.LinkageEmbed;
                              Build.model_args := ∅ |}) in Hm.
  split; [exact Hfix|]. split; [exact Hb|].
  destruct (index_threads_are_loader_workers (H := demo_collaborators) (H0 := demo_host)
              demo_train demo_valid demo_test () demo_train_kwargs demo_fixed_kwargs
              demo_fixed_built _ Hfix Hb Hm)
    as (build & search & given & _ & _ & Htl & _ & Hsame & Hthreads).
  exists build, search, given. split; [exact Htl|]. split; [exact Hsame|exact Hthreads].
Defined.

Lemma dict_get_Some (kwargs : gmap string PyVal) (k : string) (v : PyVal) :
  kwargs !! k = Some v → dict_get kwargs k = v.
Proof. unfold dict_get. by intros ->. Qed.



(** X20. In a trainer that [_build_trainer] makes, the early stopping and
    the checkpoint callback have the same monitor, mode and minimum of
    epochs, the trainer's own minimum, and the dataloaders are reloaded
    every epoch. The mode is the given one when that is truthy; otherwise
    the monitor is a string and the mode is ["min"] exactly when
    ["pair_entity_ratio_at"] occurs in it, and ["max"] when it does not.
    The logger options are both truthy or both falsy. *)
Theorem trainer_callbacks_agree (kwargs : gmap string PyVal) (t : Build.TrainerArgs) :
  Build._build_trainer kwargs = Ok t →
  let early_stop := (Build.callbacks t).1 in
  let checkpoint := (Build.callbacks t).2 in
  Build.es_monitor early_stop = dict_get kwargs "early_stopping_monitor"
  ∧ Build.ck_monitor checkpoint = Build.es_monitor early_stop
  ∧ Build.ck_mode checkpoint = Build.es_mode early_stop
  ∧ Build.es_min_epochs early_stop = Build.min_epochs t
  ∧ Build.ck_min_epochs checkpoint = Build.min_epochs t
  ∧ Build.reload_dataloaders_every_epoch t = true
  ∧ (if truthy (dict_get kwargs "early_stopping_mode")
     then Build.es_mode early_stop = dict_get kwargs "early_stopping_mode"
     else ∃ s, dict_get kwargs "early_stopping_monitor" = PStr s
               ∧ ((∃ pre post, s = pre +:+ "pair_entity_ratio_at" +:+ post)
                  → Build.es_mode early_stop = PStr "min")
               ∧ ((¬ ∃ pre post, s = pre +:+ "pair_entity_ratio_at" +:+ post)
                  → Build.es_mode early_stop = PStr "max"))
  ∧ truthy (dict_get kwargs "tb_name") = truthy (dict_get kwargs "tb_save_dir").
Proof.
  unfold Build._build_trainer.
  destruct (dict_item kwargs "min_epochs") as [v1|] eqn:H1; [simpl|done].
  destruct (dict_item kwargs "early_stopping_monitor") as [v2|] eqn:H2; [simpl|done].
  destruct (dict_item kwargs "early_stopping_min_delta") as [v3|] eqn:H3; [simpl|done].
  destruct (dict_item kwargs "early_stopping_patience") as [v4|] eqn:H4; [simpl|done].
  destruct (dict_item kwargs "early_stopping_mode") as [v5|] eqn:H5; [simpl|done].
  apply dict_item_Ok in H2 as [_ <-]. apply dict_item_Ok in H5 as [_ <-].
  set (monitor := dict_get kwargs "early_stopping_monitor").
  set (given := dict_get kwargs "early_stopping_mode").
  destruct (if truthy given then _ else _) as [mode|] eqn:Hmode; [simpl|done].
  assert (if truthy given then mode = given
          else ∃ s, monitor = PStr s
                    ∧ ((∃ pre post, s = pre +:+ "pair_entity_ratio_at" +:+ post)
                       → mode = PStr "min")
                    ∧ ((¬ ∃ pre post, s = pre +:+ "pair_entity_ratio_at" +:+ post)
                       → mode = PStr "max")) as Hrule.
  { destruct (truthy given); [by injection Hmode|].
    destruct monitor as [| |s]; try done. simpl in Hmode. injection Hmode as <-.
    exists s. split; [done|]. rewrite <- str_contains_occurs.
    destruct (str_contains "pair_entity_ratio_at" s); split; by intros. }
  clear Hmode.
  destruct (dict_item kwargs "model_save_dir") as [v6|]; [simpl|done].
  destruct (dict_item kwargs "max_epochs") as [v7|]; [simpl|done].
  destruct (dict_item kwargs "check_val_every_n_epoch") as [v8|]; [simpl|done].
  destruct (dict_item kwargs "tb_name") as [v9|] eqn:H9; [simpl|done].
  apply dict_item_Ok in H9 as [_ <-].
  set (name := dict_get kwargs "tb_name").
  destruct (truthy name) eqn:Hname; simpl.
  - destruct (dict_item kwargs "tb_save_dir") as [v10|] eqn:H10; [simpl|done].
    apply dict_item_Ok in H10 as [_ <-].
    destruct (truthy (dict_get kwargs "tb_save_dir")); simpl; [|done].
    intros [= <-]. simpl. by split_and!.
  - destruct (dict_item kwargs "tb_save_dir") as [v10|] eqn:H10; [simpl|done].
    apply dict_item_Ok in H10 as [_ <-].
    destruct (truthy (dict_get kwargs "tb_save_dir")); simpl; [done|].
    intros [= <-]. simpl. by split_and!.
Qed.

Lemma trainer_callbacks_agree_witness :
  ∃ t, Build._build_trainer demo_train_kwargs = Ok t
       ∧ Build.ck_mode (Build.callbacks t).2 = Build.es_mode (Build.callbacks t).1
       ∧ Build.es_mode (Build.callbacks t).1 = PStr "min".
Proof.
  destruct (Build._build_trainer demo_train_kwargs) as [t|e] eqn:Ht;
    [|vm_compute in Ht; discriminate].
  exists t. split; [reflexivity|].
  pose proof (trainer_callbacks_agree demo_train_kwargs t Ht)
    as (_ & _ & Hmode & _ & _ & _ & Hrule & _).
  change (truthy (dict_get demo_train_kwargs "early_stopping_mode")) with false
    in Hrule.
  destruct Hrule as (s & Hs & Hmin & _).
  split; [exact Hmode|]. apply Hmin.
  vm_compute in Hs. injection Hs as <-. by exists "valid_"%string, "_0.3"%string.
Defined.

(** X21. [_predict_pairs] calls the model in the same way in both modes:
    two [kwargs] that pass the mode check and differ at most in
    [left_source] and [source_attr] give the same call and the same result. *)
Theorem predict_pairs_ignores_mode (row_dict : RowDict)
    (model : Build.PredictArgs → Result PairSet)
    (kwargs1 kwargs2 : gmap string PyVal) (b1 b2 : bool) :
  (∀ k, k ≠ "left_source"%string → k ≠ "source_attr"%string →
        kwargs1 !! k = kwargs2 !! k) →
  Cli._is_record_linkage kwargs1 = Ok b1 →
  Cli._is_record_linkage kwargs2 = Ok b2 →
  Build._predict_pairs row_dict model kwargs1
  = Build._predict_pairs row_dict model kwargs2.
Proof.
  intros Hagree Hb1 Hb2. unfold Build._predict_pairs. rewrite Hb1, Hb2.
  assert (∀ k, k ≠ "left_source"%string → k ≠ "source_attr"%string →
               dict_item kwargs1 k = dict_item kwargs2 k) as Hitem.
  { intros k ? ?. unfold dict_item. by rewrite Hagree. }
  rewrite !Hitem by done.
  rewrite (copy_truthy_agree ["m"; "max_m0"; "ef_construction"; "n_threads"]%string
             kwargs1 kwargs2).
  2:{ intros k Hk. apply Hagree; set_solver. }
  rewrite (copy_truthy_agree ["ef_search"; "n_threads"]%string kwargs1 kwargs2).
  2:{ intros k Hk. apply Hagree; set_solver. }
  by destruct b1, b2.
Qed.

Lemma predict_pairs_ignores_mode_witness :
  Cli._is_record_linkage demo_fixed_kwargs = Ok false
  ∧ Cli._is_record_linkage
      (<["left_source" := PStr "left"]>
         (<["source_attr" := PStr "__source"]> demo_fixed_kwargs)) = Ok true
  ∧ Build._predict_pairs demo_loaded demo_predict demo_fixed_kwargs
    = Build._predict_pairs demo_loaded demo_predict
        (<["left_source" := PStr "left"]>
           (<["source_attr" := PStr "__source"]> demo_fixed_kwargs)).
Proof.
  assert (Cli._is_record_linkage demo_fixed_kwargs = Ok false) as H1
    by (vm_compute; reflexivity).
  assert (Cli._is_record_linkage
            (<["left_source" := PStr "left"]>
               (<["source_attr" := PStr "__source"]> demo_fixed_kwargs)) = Ok true)
    as H2 by (vm_compute; reflexivity).
  split; [exact H1|]. split; [exact H2|].
  apply (predict_pairs_ignores_mode demo_loaded demo_predict _ _ false true);
    [|exact H1|exact H2].
  intros k Hls Hsa. by rewrite !lookup_insert_ne.
Defined.

(** X22. After [_fix_workers_kwargs], a list that [_predict_pairs] returns
    holds the pairs that the model found, each once, and the model was
    called on the given row dict with a loader [num_workers] that is the
    CPU count where the option was [-1] and the option otherwise, with a
    [multiprocessing_context] (truthy or not), and with that same number
    as the [n_threads] of both index kwargs, which is left out where the
    number is 0 or [None]. *)
Theorem predict_call_after_fix `{Host} (row_dict : RowDict)
    (model : Build.PredictArgs → Result PairSet)
    (kwargs0 kwargs : gmap string PyVal) (found : list (Z * Z)) :
  Prepare._fix_workers_kwargs kwargs0 = (kwargs, Ok ()) →
  Build._predict_pairs row_dict model kwargs = Ok found →
  ∃ args pairs w0 w,
    model args = Ok pairs
    ∧ NoDup found
    ∧ (∀ p, p ∈ found ↔ p ∈ pairs)
    ∧ Build.pa_row_dict args = row_dict
    ∧ kwargs0 !! "num_workers" = Some w0
    ∧ w = (if decide (w0 = PInt (-1)) then cpu_count else w0)
    ∧ Build.pa_loader_kwargs args !! "num_workers" = Some w
    ∧ Build.pa_loader_kwargs args !! "multiprocessing_context"
      = kwargs0 !! "multiprocessing_context"
    ∧ is_Some (kwargs0 !! "multiprocessing_context")
    ∧ Build.pa_index_build_kwargs args !! "n_threads"
      = (if truthy w then Some w else None)
    ∧ Build.pa_index_search_kwargs args !! "n_threads"
      = (if truthy w then Some w else None).
Proof.
  intros Hfix. pose proof Hfix as (w0 & w & Hw0 & Hw & Hnw & Hnt)%fix_workers_same.
  assert (kwargs !! "multiprocessing_context" = kwargs0 !! "multiprocessing_context")
    as Hmc.
  { rewrite (fix_workers_ok kwargs0 w0 Hw0) in Hfix. injection Hfix as <-.
    destruct (decide (w0 = PInt (-1))); by simplify_map_eq. }
  unfold Build._predict_pairs.
  destruct (dict_item kwargs "eval_batch_size") as [ebs|]; [simpl|done].
  rewrite (dict_item_Some _ _ _ Hnw). simpl.
  destruct (dict_item kwargs "multiprocessing_context") as [mc|] eqn:Hmc';
    [simpl|done].
  apply dict_item_Ok in Hmc' as [Hmc' _]. rewrite Hmc' in Hmc.
  destruct (dict_item kwargs "ann_k") as [ak|]; [simpl|done].
  destruct (dict_item kwargs "sim_threshold") as [st|]; [simpl|done].
  destruct (Build.copy_truthy ["m"; "max_m0"; "ef_construction"; "n_threads"] kwargs ∅)
    as [build|] eqn:Hbuild; [simpl|done].
  destruct (Build.copy_truthy ["ef_search"; "n_threads"] kwargs ∅)
    as [search|] eqn:Hsearch; [simpl|done].
  destruct (index_kwargs_threads _ _ _ Hbuild Hsearch) as [Hthreads Hsame].
  rewrite (dict_get_Some _ _ _ Hnt) in Hthreads.
  destruct (Cli._is_record_linkage kwargs) as [b|]; [simpl|done].
  set (args := {| Build.pa_row_dict := row_dict |}).
  assert ((if b then model args else model args) = model args) as ->
    by (by destruct b).
  destruct (model args) as [pairs|] eqn:Hmodel; [simpl|done].
  intros [= <-]. exists args, pairs, w0, w.
  split_and!; try done.
  - apply NoDup_elements.
  - intros p. apply elem_of_elements.
  - simpl. by rewrite Hsame.
Qed.

Lemma predict_call_after_fix_witness :
  Prepare._fix_workers_kwargs (H := demo_host) demo_train_kwargs
  = (demo_fixed_kwargs, Ok ())
  ∧ Build._predict_pairs demo_loaded demo_predict demo_fixed_kwargs = Ok [(1, 2)]
  ∧ ∃ args,
      Build.pa_loader_kwargs args !! "num_workers" = Some (PInt 8)
      ∧ Build.pa_index_build_kwargs args !! "n_threads" = Some (PInt 8)
      ∧ Build.pa_index_search_kwargs args !! "n_threads" = Some (PInt 8).
Proof.
  assert (Prepare._fix_workers_kwargs (H := demo_host) demo_train_kwargs
          = (demo_fixed_kwargs, Ok ())) as Hfix
    by (apply (fix_workers_ok (H := demo_host) demo_train_kwargs (PInt (-1)));
        vm_compute; reflexivity).
  assert (Build._predict_pairs demo_loaded demo_predict demo_fixed_kwargs
          = Ok [(1, 2)]) as Hfound
    by (vm_compute; reflexivity).
  split; [exact Hfix|]. split; [exact Hfound|].
  destruct (predict_call_after_fix (H := demo_host) demo_loaded demo_predict
              demo_train_kwargs demo_fixed_kwargs [(1, 2)] Hfix Hfound)
    as (args & pairs & w0 & w & _ & _ & _ & _ & Hw0 & Hw & Hnw & _ & _ & Hb & Hs).
  vm_compute in Hw0. injection Hw0 as <-.
  change (w = PInt 8) in Hw. subst w.
  exists args. split; [exact Hnw|]. split; [exact Hb|exact Hs].
Defined.
